(** * casino_bot: the room matching and settlement engine

    A shallow embedding of the multiplayer core of the bot:
    - [Database]        (src/database.py): the JSON user store and its balances;
    - [MultiplayerGame], [DiceGame], [CoinflipGame]
                        (src/multiplayer_games.py): the room objects;
    - [RoomManager]     (src/room_manager.py): the in-memory registry;
    - the handlers of src/main.py that create, join, play, settle and
      rematch rooms.

    Modelling choices.
    - Python floats (stakes, balances, the fee) are exact rationals [Qc] in
      the handlers: rounding of binary64 arithmetic, infinities and NaN are
      not modelled there. What is stated about an amount is therefore
      stated as the operations the code performs on it, in the code's
      order, and under the comparisons the code makes; no statement rests
      on an identity of exact arithmetic. [Binary64] holds the prize
      computation over binary64 floats, where rounding can be seen.
    - Telegram user ids are [Z]; the store keys [str(user_id)] are the ids.
    - [random.randint] and [random.choice] are inputs of [play] (an injected
      random source).
    - Handlers run to completion one at a time; messages sent to users are
      not part of the state, only the reply that tells the caller what
      happened is returned.
    - Timestamps ([created_at], [last_activity]) are left out. *)

From Stdlib Require Import Ascii String QArith Qcanon PrimFloat.
From stdpp Require Import base numbers strings list gmap pretty.

Local Open Scope Z_scope.

(** ** Python helpers *)

Definition lower_ascii (c : ascii) : ascii :=
  let n := nat_of_ascii c in
  if ((65 <=? n) && (n <=? 90))%nat then ascii_of_nat (n + 32) else c.

(** [str.lower] on ASCII text. *)
Fixpoint lower (s : string) : string :=
  match s with
  | EmptyString => EmptyString
  | String c s' => String (lower_ascii c) (lower s')
  end.

(** The constant [100] of the fee computation. *)
Definition hundred : Qc := Q2Qc 100%Q.

(** ** src/database.py *)

Module Database.

Record GameRecord := {
  game_type : string;
  bet : Qc;
  win_amount : Qc;
  profit : Qc;
  result : string
}.

Record User := {
  user_id : Z;
  username : option string;
  balance : Qc;
  total_deposited : Qc;
  total_wagered : Qc;
  total_won : Qc;
  total_lost : Qc;
  games_played : Z;
  game_history : list GameRecord
}.

Definition set_balance (u : User) (b : Qc) : User :=
  {| user_id := user_id u; username := username u; balance := b;
     total_deposited := total_deposited u; total_wagered := total_wagered u;
     total_won := total_won u; total_lost := total_lost u;
     games_played := games_played u; game_history := game_history u |}.

Definition get_user (data : gmap Z User) (uid : Z) : option User :=
  data !! uid.

Definition create_user (data : gmap Z User) (uid : Z) (name : option string)
    (starting_balance : Qc) : gmap Z User * User :=
  match data !! uid with
  | Some u => (data, u)
  | None =>
      let u := {| user_id := uid; username := name; balance := starting_balance;
                  total_deposited := starting_balance; total_wagered := 0%Qc;
                  total_won := 0%Qc; total_lost := 0%Qc; games_played := 0;
                  game_history := [] |} in
      (<[uid := u]> data, u)
  end.

Definition update_balance (data : gmap Z User) (uid : Z) (amount : Qc)
    : gmap Z User * Qc :=
  match data !! uid with
  | None => (data, 0%Qc)
  | Some u =>
      let u' := set_balance u (balance u + amount)%Qc in
      (<[uid := u']> data, balance u')
  end.

Definition get_balance (data : gmap Z User) (uid : Z) : Qc :=
  match get_user data uid with
  | Some u => balance u
  | None => 0%Qc
  end.

Definition add_game_to_history (data : gmap Z User) (uid : Z) (gt : string)
    (b w : Qc) (res : string) : gmap Z User :=
  match data !! uid with
  | None => data
  | Some u =>
      let game_record := {| game_type := gt; bet := b; win_amount := w;
                            profit := (w - b)%Qc; result := res |} in
      let won := bool_decide (b < w)%Qc in
      <[uid := {| user_id := user_id u; username := username u;
                  balance := balance u;
                  total_deposited := total_deposited u;
                  total_wagered := (total_wagered u + b)%Qc;
                  total_won := if won then (total_won u + (w - b))%Qc
                               else total_won u;
                  total_lost := if won then total_lost u
                                else (total_lost u + (b - w))%Qc;
                  games_played := games_played u + 1;
                  game_history := take 50 (game_record :: game_history u) |}]>
        data
  end.

End Database.

(** ** src/multiplayer_games.py *)

Inductive Status := waiting | playing | finished.

#[global] Instance Status_eq_dec : EqDecision Status.
Proof. solve_decision. Defined.

(** What [creator_result] and [opponent_result] hold: a die value for a
    dice room, the side the coin fell on for a coinflip room. *)
Inductive Outcome :=
  | Rolled (n : Z)
  | Flipped (side : string).

(** The dictionary [play] returns. *)
Inductive PlayResult :=
  | PlayError (error : string)
  | DiceResult (creator_result opponent_result : Z)
               (winner_id : option Z) (is_draw : bool)
  | CoinflipResult (result creator_choice opponent_choice : string)
                   (winner_id : option Z) (is_draw : bool).

(** [x is None] *)
Definition is_None {A} (x : option A) : bool :=
  match x with None => true | Some _ => false end.

Module MultiplayerGame.

Record t := {
  room_id : string;
  creator_id : Z;
  opponent_id : option Z;
  bet : Qc;
  game_type : string;
  status : Status;
  creator_result : option Outcome;
  opponent_result : option Outcome;
  winner_id : option Z
}.

Definition init (rid : string) (creator : Z) (b : Qc) (gt : string) : t :=
  {| room_id := rid; creator_id := creator; opponent_id := None; bet := b;
     game_type := gt; status := waiting; creator_result := None;
     opponent_result := None; winner_id := None |}.

Definition join (self : t) (opponent : Z) : bool * t :=
  if decide (status self = waiting) then
    (true,
     {| room_id := room_id self; creator_id := creator_id self;
        opponent_id := Some opponent; bet := bet self;
        game_type := game_type self; status := playing;
        creator_result := creator_result self;
        opponent_result := opponent_result self;
        winner_id := winner_id self |})
  else (false, self).

(** The three assignments that end [play]: the results, the winner and
    [status = "finished"]. *)
Definition finish (self : t) (cr opr : Outcome) (w : option Z) : t :=
  {| room_id := room_id self; creator_id := creator_id self;
     opponent_id := opponent_id self; bet := bet self;
     game_type := game_type self; status := finished;
     creator_result := Some cr; opponent_result := Some opr;
     winner_id := w |}.

End MultiplayerGame.

Module DiceGame.
Import MultiplayerGame.

Definition init (rid : string) (creator : Z) (b : Qc) : t :=
  MultiplayerGame.init rid creator b "dice".

(** [a] and [b] are the two values [random.randint(1, 6)] returns. *)
Definition play (self : t) (a b : Z) : PlayResult * t :=
  if decide (status self = playing) then
    let w := if decide (a > b) then Some (creator_id self)
             else if decide (b > a) then opponent_id self
             else None in
    (DiceResult a b w (is_None w), finish self (Rolled a) (Rolled b) w)
  else (PlayError "Game is not ready", self).

End DiceGame.

Module CoinflipGame.
Import MultiplayerGame.

(** A coinflip room: the base object and [creator_choice]. *)
Record t := {
  base : MultiplayerGame.t;
  creator_choice : option string
}.

Definition init (rid : string) (creator : Z) (b : Qc) : t :=
  {| base := MultiplayerGame.init rid creator b "coinflip";
     creator_choice := None |}.

Definition join (self : t) (opponent : Z) : bool * t :=
  let '(ok, g) := MultiplayerGame.join (base self) opponent in
  (ok, {| base := g; creator_choice := creator_choice self |}).

Definition set_creator_choice (self : t) (choice : string) : t :=
  {| base := base self; creator_choice := Some (lower choice) |}.

Definition get_opponent_choice (self : t) : string :=
  if decide (creator_choice self = Some "heads") then "tails" else "heads".

(** [random.choice(["heads", "tails"])], from the injected coin. *)
Definition random_choice (coin : bool) : string :=
  if coin then "heads" else "tails".

(** [not self.creator_choice]: true for [None] and for the empty string. *)
Definition no_choice (c : option string) : bool :=
  match c with
  | None => true
  | Some s => bool_decide (s = "")
  end.

Definition play (self : t) (coin : bool) : PlayResult * t :=
  if decide (status (base self) = playing) then
    if no_choice (creator_choice self) then
      (PlayError "Creator must make a choice", self)
    else
      let choice := default "" (creator_choice self) in
      let opponent_choice := get_opponent_choice self in
      let result := random_choice coin in
      let w := if decide (choice = result) then Some (creator_id (base self))
               else if decide (opponent_choice = result)
                    then opponent_id (base self)
                    else None in
      (CoinflipResult result choice opponent_choice w (is_None w),
       {| base := finish (base self) (Flipped result) (Flipped result) w;
          creator_choice := creator_choice self |})
  else (PlayError "Game is not ready", self).

End CoinflipGame.

(** A room is an object of one of the two subclasses. *)
Inductive Room :=
  | Dice (g : MultiplayerGame.t)
  | Coinflip (g : CoinflipGame.t).

(** The randomness one [play] may consume. *)
Record Rng := { die1 : Z; die2 : Z; coin : bool }.

Module Room.

Definition base (r : Room) : MultiplayerGame.t :=
  match r with
  | Dice g => g
  | Coinflip g => CoinflipGame.base g
  end.

Definition room_id (r : Room) := MultiplayerGame.room_id (base r).
Definition creator_id (r : Room) := MultiplayerGame.creator_id (base r).
Definition opponent_id (r : Room) := MultiplayerGame.opponent_id (base r).
Definition bet (r : Room) := MultiplayerGame.bet (base r).
Definition game_type (r : Room) := MultiplayerGame.game_type (base r).
Definition status (r : Room) := MultiplayerGame.status (base r).
Definition winner_id (r : Room) := MultiplayerGame.winner_id (base r).

(** [room.join(opponent_id)]: inherited by both subclasses. *)
Definition join (r : Room) (opponent : Z) : bool * Room :=
  match r with
  | Dice g =>
      let '(ok, g') := MultiplayerGame.join g opponent in (ok, Dice g')
  | Coinflip g =>
      let '(ok, g') := CoinflipGame.join g opponent in (ok, Coinflip g')
  end.

(** [room.play()]: dispatched on the class of the object. *)
Definition play (r : Room) (rng : Rng) : PlayResult * Room :=
  match r with
  | Dice g =>
      let '(res, g') := DiceGame.play g (die1 rng) (die2 rng) in
      (res, Dice g')
  | Coinflip g =>
      let '(res, g') := CoinflipGame.play g (coin rng) in
      (res, Coinflip g')
  end.

End Room.

(** ** src/room_manager.py *)

Module RoomManager.

Record t := {
  active_rooms : gmap string Room;
  room_counter : Z
}.

Definition init : t := {| active_rooms := ∅; room_counter := 1000 |}.

Definition generate_room_id (self : t) : t * string :=
  let n := room_counter self + 1 in
  ({| active_rooms := active_rooms self; room_counter := n |},
   "ROOM" +:+ pretty n).

(** [None] stands for the [ValueError] of an unknown game type; the
    counter has been advanced by then. *)
Definition create_room (self : t) (creator : Z) (gt : string) (b : Qc)
    : t * option Room :=
  let '(self1, rid) := generate_room_id self in
  let stored (room : Room) :=
    ({| active_rooms := <[rid := room]> (active_rooms self1);
        room_counter := room_counter self1 |}, Some room) in
  if decide (gt = "dice") then stored (Dice (DiceGame.init rid creator b))
  else if decide (gt = "coinflip")
       then stored (Coinflip (CoinflipGame.init rid creator b))
       else (self1, None).

Definition get_room (self : t) (rid : string) : option Room :=
  active_rooms self !! rid.

Definition join_room (self : t) (rid : string) (opponent : Z) : bool * t :=
  match get_room self rid with
  | None => (false, self)
  | Some room =>
      if decide (Room.creator_id room = opponent) then (false, self)
      else
        let '(ok, room') := Room.join room opponent in
        (ok, {| active_rooms := <[rid := room']> (active_rooms self);
                room_counter := room_counter self |})
  end.

Definition delete_room (self : t) (rid : string) : bool * t :=
  match active_rooms self !! rid with
  | Some _ => (true, {| active_rooms := delete rid (active_rooms self);
                        room_counter := room_counter self |})
  | None => (false, self)
  end.

End RoomManager.

(** ** src/main.py: configuration, global state, effects *)

Record Config := { MIN_BET : Qc; MAX_BET : Qc; HOUSE_FEE : Qc }.

(** The fallback values of [config.getfloat]. *)
Definition default_config : Config :=
  {| MIN_BET := 1%Qc; MAX_BET := Q2Qc 1000%Q; HOUSE_FEE := Q2Qc 5%Q |}.

(** An entry of the dictionary [rematch_requests]. *)
Record RematchRequest := {
  requester_id : Z;
  opponent_id : Z;
  game_type : string;
  bet : Qc
}.

(** [f"{min(p1, p2)}_{max(p1, p2)}_{game_type}_{bet}"], kept as a tuple. *)
Definition pair_key (player1 player2 : Z) (gt : string) (b : Qc)
    : Z * Z * string * Qc :=
  (Z.min player1 player2, Z.max player1 player2, gt, b).

(** The effects the handlers have on the ledger and on the registry, in
    the order they happen. A user id may be [None] where the code passes
    [room.opponent_id] or [winner_id]. *)
Inductive Event :=
  | EvGetBalance (uid : Z)
  | EvUpdateBalance (uid : option Z) (amount : Qc)
  | EvCreateRoom (rid : string) (creator : Z)
  | EvJoinRoom (rid : string) (opponent : Z)
  | EvDeleteRoom (rid : string).

(** The globals of main.py ([db], [room_manager], [rematch_requests]) and
    the trace of effects so far. *)
Record World := {
  db : gmap Z Database.User;
  room_manager : RoomManager.t;
  rematch_requests : gmap (Z * Z * string * Qc) RematchRequest;
  trace : list Event
}.

Definition set_db (w : World) (d : gmap Z Database.User) : World :=
  {| db := d; room_manager := room_manager w;
     rematch_requests := rematch_requests w; trace := trace w |}.

Definition set_room_manager (w : World) (rm : RoomManager.t) : World :=
  {| db := db w; room_manager := rm;
     rematch_requests := rematch_requests w; trace := trace w |}.

Definition set_rematch_requests (w : World)
    (rr : gmap (Z * Z * string * Qc) RematchRequest) : World :=
  {| db := db w; room_manager := room_manager w;
     rematch_requests := rr; trace := trace w |}.

Definition emit (w : World) (e : Event) : World :=
  {| db := db w; room_manager := room_manager w;
     rematch_requests := rematch_requests w; trace := trace w ++ [e] |}.

Inductive Exn := KeyError | TypeError | IndexError | ValueError | AttributeError.

Inductive Res (A : Type) :=
  | Ok (a : A)
  | Raise (e : Exn).
Arguments Ok {A} a.
Arguments Raise {A} e.

(** A handler step: it changes the globals in place and returns or raises;
    what was changed before an exception stays changed. *)
Definition M (A : Type) : Type := World -> World * Res A.

Definition ret {A} (a : A) : M A := fun w => (w, Ok a).

Definition raise {A} (e : Exn) : M A := fun w => (w, Raise e).

Definition bind {A B} (m : M A) (k : A -> M B) : M B := fun w =>
  match m w with
  | (w', Ok a) => k a w'
  | (w', Raise e) => (w', Raise e)
  end.

Notation "'let!' x ':=' m 'in' k" := (bind m (fun x => k))
  (at level 10, x pattern, m at level 100, k at level 200).

(** What the handler tells the user who triggered it. *)
Inductive Reply :=
  | BetOutOfRange
  | InsufficientFunds
  | InvalidAmount
  | RoomCreated (rid : string)
  | RoomUnavailable
  | RoomTaken
  | Joined
  | JoinFailed
  | GameOver
  | NotCreator
  | ChoiceAccepted
  | RematchStarted
  | RematchAlreadyWaiting
  | RematchSent.

(** *** The collaborators, as effects *)

Definition db_get_balance (uid : Z) : M Qc := fun w =>
  (emit w (EvGetBalance uid), Ok (Database.get_balance (db w) uid)).

(** [str(None)] is the key of no user. *)
Definition db_update_balance (uid : option Z) (amount : Qc) : M Qc := fun w =>
  match uid with
  | Some u =>
      let '(d, b) := Database.update_balance (db w) u amount in
      (emit (set_db w d) (EvUpdateBalance uid amount), Ok b)
  | None => (emit w (EvUpdateBalance uid amount), Ok 0%Qc)
  end.

Definition db_add_game_to_history (uid : option Z) (gt : string) (b win : Qc)
    (res : string) : M unit := fun w =>
  match uid with
  | Some u => (set_db w (Database.add_game_to_history (db w) u gt b win res), Ok tt)
  | None => (w, Ok tt)
  end.

(** [(await db.get_user(uid))['username']]: subscripting [None] is a
    [TypeError]. *)
Definition username_of (uid : option Z) : M (option string) := fun w =>
  match uid ≫= Database.get_user (db w) with
  | Some u => (w, Ok (Database.username u))
  | None => (w, Raise TypeError)
  end.

Definition rm_create_room (creator : Z) (gt : string) (b : Qc) : M Room := fun w =>
  match RoomManager.create_room (room_manager w) creator gt b with
  | (rm, Some room) =>
      (emit (set_room_manager w rm) (EvCreateRoom (Room.room_id room) creator),
       Ok room)
  | (rm, None) => (set_room_manager w rm, Raise ValueError)
  end.

Definition rm_get_room (rid : string) : M (option Room) := fun w =>
  (w, Ok (RoomManager.get_room (room_manager w) rid)).

Definition rm_join_room (rid : string) (opponent : Z) : M bool := fun w =>
  let '(ok, rm) := RoomManager.join_room (room_manager w) rid opponent in
  let w' := set_room_manager w rm in
  (if ok then emit w' (EvJoinRoom rid opponent) else w', Ok ok).

Definition rm_delete_room (rid : string) : M bool := fun w =>
  let '(ok, rm) := RoomManager.delete_room (room_manager w) rid in
  let w' := set_room_manager w rm in
  (if ok then emit w' (EvDeleteRoom rid) else w', Ok ok).

(** A handler's variable [room] and the registry entry are one object: a
    method that changes the object changes what the registry holds. *)
Definition store_room (room : Room) : M unit := fun w =>
  let rm := room_manager w in
  (set_room_manager w
     {| RoomManager.active_rooms :=
          alter (fun _ => room) (Room.room_id room) (RoomManager.active_rooms rm);
        RoomManager.room_counter := RoomManager.room_counter rm |}, Ok tt).

(** Reading the variable [room] after the registry changed the object. *)
Definition deref (room : Room) : M Room := fun w =>
  (w, Ok (default room (RoomManager.get_room (room_manager w) (Room.room_id room)))).

(** [room.play()] *)
Definition room_play (room : Room) (rng : Rng) : M (PlayResult * Room) :=
  let '(res, room') := Room.play room rng in
  let! _ := store_room room' in ret (res, room').

(** [except ValueError]: the handler goes on with [None]. *)
Definition catch_ValueError {A} (m : M A) : M (option A) := fun w =>
  match m w with
  | (w', Ok a) => (w', Ok (Some a))
  | (w', Raise ValueError) => (w', Ok None)
  | (w', Raise e) => (w', Raise e)
  end.

(** [dice_emoji[v - 1]]: a list of six entries, so Python accepts the
    indices -6 .. 5. *)
Definition dice_emoji (v : Z) : M unit :=
  if decide (-6 <= v - 1 < 6) then ret tt else raise IndexError.

(** [choice_emoji[c]]: a dictionary with the keys "heads" and "tails". *)
Definition choice_emoji (c : string) : M unit :=
  if decide (c = "heads" ∨ c = "tails") then ret tt else raise KeyError.

(** ** src/main.py: the handlers *)

Section Handlers.

Variable cfg : Config.

Definition full_prize (b : Qc) : Qc := (b * 2)%Qc.
Definition fee_amount (b : Qc) : Qc := (full_prize b * (HOUSE_FEE cfg / hundred))%Qc.
Definition final_prize (b : Qc) : Qc := (full_prize b - fee_amount b)%Qc.

(** The settlement block of [show_dice_result] and [show_coinflip_result]
    (the two differ in the history label [kind] only). *)
Definition settle (kind : string) (room : Room) (winner : option Z)
    (is_draw : bool) : M unit :=
  let creator := Some (Room.creator_id room) in
  let opponent := Room.opponent_id room in
  let b := Room.bet room in
  if is_draw then
    let! _ := db_update_balance creator b in
    let! _ := db_update_balance opponent b in
    let! _ := db_add_game_to_history creator kind b b "Draw" in
    db_add_game_to_history opponent kind b b "Draw"
  else
    let loser := if decide (winner = creator) then opponent else creator in
    let! _ := db_update_balance winner (final_prize b) in
    let! _ := db_add_game_to_history winner kind b (final_prize b) "Win" in
    db_add_game_to_history loser kind b 0%Qc "Loss".

Definition show_dice_result (room : Room) (result : PlayResult) : M unit :=
  let! _ := username_of (Some (Room.creator_id room)) in
  let! _ := username_of (Room.opponent_id room) in
  match result with
  | DiceResult c_res o_res w is_draw =>
      let! _ := dice_emoji c_res in
      let! _ := dice_emoji o_res in
      let! _ := settle "dice_mp" room w is_draw in
      let! _ := rm_delete_room (Room.room_id room) in
      ret tt
  | _ => raise KeyError
  end.

Definition show_coinflip_result (room : Room) (result : PlayResult) : M unit :=
  let! _ := username_of (Some (Room.creator_id room)) in
  let! _ := username_of (Room.opponent_id room) in
  match result with
  | CoinflipResult side c_choice o_choice w is_draw =>
      let! _ := choice_emoji side in
      let! _ := choice_emoji c_choice in
      let! _ := choice_emoji o_choice in
      let! _ := settle "coinflip_mp" room w is_draw in
      let! _ := rm_delete_room (Room.room_id room) in
      ret tt
  | _ => raise KeyError
  end.

(** The animation only sends and edits messages; whether sending fails
    or not, the room is played once and the result shown. *)
Definition animate_dice_game (room : Room) (rng : Rng) : M unit :=
  let! _ := username_of (Some (Room.creator_id room)) in
  let! _ := username_of (Room.opponent_id room) in
  let! (result, room') := room_play room rng in
  show_dice_result room' result.

(** Only messages: the creator gets the two buttons. *)
Definition request_coinflip_choices (room : Room) : M unit := ret tt.

Definition start_multiplayer_game (room : Room) (rng : Rng) : M unit :=
  if decide (Room.game_type room = "dice") then animate_dice_game room rng
  else if decide (Room.game_type room = "coinflip")
       then request_coinflip_choices room
       else ret tt.

(** [bet] is [float(message.text)], [gt] the game type kept in the
    dialogue state. *)
Definition create_room_with_bet (user : Z) (b : Qc) (gt : string) : M Reply :=
  if decide (b < MIN_BET cfg ∨ MAX_BET cfg < b)%Qc then ret BetOutOfRange
  else
    let! balance := db_get_balance user in
    if decide (balance < b)%Qc then ret InsufficientFunds
    else
      let! created := catch_ValueError (rm_create_room user gt b) in
      match created with
      | None => ret InvalidAmount
      | Some room =>
          let! _ := db_update_balance (Some user) (- b)%Qc in
          ret (RoomCreated (Room.room_id room))
      end.

Definition join_room (user : Z) (rid : string) (rng : Rng) : M Reply :=
  let! found := rm_get_room rid in
  match found with
  | None => ret RoomUnavailable
  | Some room =>
      if decide (Room.status room ≠ waiting) then ret RoomTaken
      else
        let! balance := db_get_balance user in
        if decide (balance < Room.bet room)%Qc then ret InsufficientFunds
        else
          let! ok := rm_join_room rid user in
          if ok then
            let! _ := db_update_balance (Some user) (- Room.bet room)%Qc in
            let! room := deref room in
            let! _ := start_multiplayer_game room rng in
            ret Joined
          else ret JoinFailed
  end.

(** [room.set_creator_choice(choice)]; a dice room has no such method. *)
Definition room_set_creator_choice (room : Room) (choice : string) : M Room :=
  match room with
  | Dice _ => raise AttributeError
  | Coinflip g =>
      let room' := Coinflip (CoinflipGame.set_creator_choice g choice) in
      let! _ := store_room room' in
      ret room'
  end.

Definition coinflip_choice (user : Z) (rid : string) (choice : string)
    (rng : Rng) : M Reply :=
  let! found := rm_get_room rid in
  match found with
  | None => ret GameOver
  | Some room =>
      if decide (user ≠ Room.creator_id room) then ret NotCreator
      else
        let! room := room_set_creator_choice room choice in
        let! _ := choice_emoji choice in
        let! (result, room') := room_play room rng in
        let! _ := show_coinflip_result room' result in
        ret ChoiceAccepted
  end.

(** The branch of [request_rematch] that answers an outstanding request
    of the other player: the entry goes, a room of the first requester
    is created and the second player joined, with no call to
    [update_balance]. *)
Definition accept_rematch (existing : RematchRequest) (user : Z)
    (gt : string) (b : Qc) (key : Z * Z * string * Qc) : M Room :=
  let! _ := (fun w => (set_rematch_requests w (delete key (rematch_requests w)), Ok tt)) in
  let! room := rm_create_room (requester_id existing) gt b in
  let! _ := rm_join_room (Room.room_id room) user in
  deref room.

(** The callback data is [rematch_{game_type}_{bet}_{player1}_{player2}];
    [user] is who pressed the button. *)
Definition request_rematch (user : Z) (gt : string) (b : Qc)
    (player1_id player2_id : Z) (rng : Rng) : M Reply :=
  let opponent := if decide (user = player1_id) then player2_id else player1_id in
  let! balance := db_get_balance user in
  if decide (balance < b)%Qc then ret InsufficientFunds
  else
    let key := pair_key player1_id player2_id gt b in
    let! requests := (fun w => (w, Ok (rematch_requests w))) in
    match requests !! key with
    | Some existing =>
        if decide (requester_id existing ≠ user) then
          let! room := accept_rematch existing user gt b key in
          let! _ := start_multiplayer_game room rng in
          ret RematchStarted
        else ret RematchAlreadyWaiting
    | None =>
        let! _ := (fun w =>
          (set_rematch_requests w
             (<[key := {| requester_id := user; opponent_id := opponent;
                          game_type := gt; bet := b |}]> (rematch_requests w)),
           Ok tt)) in
        let! _ := username_of (Some user) in
        ret RematchSent
    end.

End Handlers.

(** ** Rooms the program can build

    A room object comes from a constructor and changes through its methods
    only. *)

Inductive reachable : Room -> Prop :=
  | reachable_dice rid creator b :
      reachable (Dice (DiceGame.init rid creator b))
  | reachable_coinflip rid creator b :
      reachable (Coinflip (CoinflipGame.init rid creator b))
  | reachable_join room opponent :
      reachable room -> reachable (Room.join room opponent).2
  | reachable_choice g choice :
      reachable (Coinflip g) ->
      reachable (Coinflip (CoinflipGame.set_creator_choice g choice))
  | reachable_play room rng :
      reachable room -> reachable (Room.play room rng).2.

(** ** Sample states *)

Definition amount (z : Z) : Qc := Q2Qc (inject_Z z).

(** The store after [create_user] for the users 1 and 2. *)
Definition two_users (b1 b2 : Qc) : gmap Z Database.User :=
  (Database.create_user (Database.create_user ∅ 1 (Some "ann") b1).1
     2 (Some "bob") b2).1.

Definition start_world (b1 b2 : Qc) : World :=
  {| db := two_users b1 b2; room_manager := RoomManager.init;
     rematch_requests := ∅; trace := [] |}.

Definition sample_rng : Rng := {| die1 := 6; die2 := 3; coin := false |}.

(** A coinflip room of user 1 that user 2 has joined. *)
Definition joined_coinflip : CoinflipGame.t :=
  (CoinflipGame.join (CoinflipGame.init "ROOM1001" 1 (amount 20)) 2).2.

(** A dice room of user 1 that user 2 has joined. *)
Definition joined_dice : MultiplayerGame.t :=
  (MultiplayerGame.join (DiceGame.init "ROOM1001" 1 (amount 10)) 2).2.

(** A dice room of user 1 nobody has joined. *)
Definition waiting_dice : Room := Dice (DiceGame.init "ROOM1001" 1 (amount 10)).

(** The registry after user 1 created that room. *)
Definition one_room : RoomManager.t :=
  (RoomManager.create_room RoomManager.init 1 "dice" (amount 10)).1.

(** User 1 has created a coinflip room with stake 20 and user 2 has joined
    it: the creator is being asked for a side. *)
Definition coinflip_started : World :=
  (join_room default_config 2 "ROOM1001" sample_rng
     (create_room_with_bet default_config 1 (amount 20) "coinflip"
        (start_world (amount 100) (amount 100))).1).1.

(** The creator has pressed "heads"; the handler has stored the choice and
    not yet played. *)
Definition coinflip_heads_chosen : World :=
  (room_set_creator_choice (Coinflip joined_coinflip) "heads" coinflip_started).1.

(** The calls of [update_balance] in a trace, in order. *)
Definition credits (tr : list Event) : list (option Z * Qc) :=
  omap (fun e => match e with
                 | EvUpdateBalance uid a => Some (uid, a)
                 | _ => None
                 end) tr.

(** A handler step that leaves the rematch requests as they are, whether
    it returns or raises. *)
Definition keeps_requests {A} (m : M A) : Prop :=
  ∀ w, rematch_requests (m w).1 = rematch_requests w.



(** ** Method calls on a room object *)

(** One call of a method that may change the object. *)
Inductive method_call : Room -> Room -> Prop :=
  | call_join room opponent :
      method_call room (Room.join room opponent).2
  | call_set_creator_choice g choice :
      method_call (Coinflip g) (Coinflip (CoinflipGame.set_creator_choice g choice))
  | call_play room rng :
      method_call room (Room.play room rng).2.

(** The place of a status in the life of a room. *)
Definition status_rank (s : Status) : nat :=
  match s with
  | waiting => 0
  | playing => 1
  | finished => 2
  end.

(** ** More of src/room_manager.py *)

(** [cleanup_finished_rooms]: the ids of the finished rooms are collected,
    then deleted one by one. *)
Definition cleanup_finished_rooms (self : RoomManager.t) : RoomManager.t :=
  let finished_ids :=
    (filter (fun p => Room.status p.2 = finished)
            (map_to_list (RoomManager.active_rooms self))).*1 in
  {| RoomManager.active_rooms :=
       foldl (fun rooms rid => delete rid rooms) (RoomManager.active_rooms self)
             finished_ids;
     RoomManager.room_counter := RoomManager.room_counter self |}.

(** The dictionary [to_dict] returns ([created_at] left out); the key
    [creator_choice] is there for a coinflip room only. *)
Module RoomData.

Record t := {
  room_id : string;
  creator_id : Z;
  opponent_id : option Z;
  bet : Qc;
  game_type : string;
  status : Status;
  creator_result : option Outcome;
  opponent_result : option Outcome;
  winner_id : option Z;
  creator_choice : option (option string)
}.

End RoomData.

Definition to_dict (room : Room) : RoomData.t :=
  let g := Room.base room in
  {| RoomData.room_id := MultiplayerGame.room_id g;
     RoomData.creator_id := MultiplayerGame.creator_id g;
     RoomData.opponent_id := MultiplayerGame.opponent_id g;
     RoomData.bet := MultiplayerGame.bet g;
     RoomData.game_type := MultiplayerGame.game_type g;
     RoomData.status := MultiplayerGame.status g;
     RoomData.creator_result := MultiplayerGame.creator_result g;
     RoomData.opponent_result := MultiplayerGame.opponent_result g;
     RoomData.winner_id := MultiplayerGame.winner_id g;
     RoomData.creator_choice :=
       match room with
       | Dice _ => None
       | Coinflip c => Some (CoinflipGame.creator_choice c)
       end |}.

(** [save_rooms]: the content written to the rooms file. *)
Definition save_rooms (self : RoomManager.t) : gmap string RoomData.t :=
  to_dict <$> RoomManager.active_rooms self.

(** What [load_rooms] puts back on a fresh object: [opponent_id] and
    [status] (and [created_at]), nothing else. *)
Definition restore_state (g : MultiplayerGame.t) (d : RoomData.t) : MultiplayerGame.t :=
  {| MultiplayerGame.room_id := MultiplayerGame.room_id g;
     MultiplayerGame.creator_id := MultiplayerGame.creator_id g;
     MultiplayerGame.opponent_id := RoomData.opponent_id d;
     MultiplayerGame.bet := MultiplayerGame.bet g;
     MultiplayerGame.game_type := MultiplayerGame.game_type g;
     MultiplayerGame.status := RoomData.status d;
     MultiplayerGame.creator_result := MultiplayerGame.creator_result g;
     MultiplayerGame.opponent_result := MultiplayerGame.opponent_result g;
     MultiplayerGame.winner_id := MultiplayerGame.winner_id g |}.

(** One entry of the file, rebuilt; an entry of another game type is
    skipped. *)
Definition load_room (d : RoomData.t) : option Room :=
  if decide (RoomData.game_type d = "dice") then
    Some (Dice (restore_state
                  (DiceGame.init (RoomData.room_id d) (RoomData.creator_id d)
                     (RoomData.bet d)) d))
  else if decide (RoomData.game_type d = "coinflip") then
    let c := CoinflipGame.init (RoomData.room_id d) (RoomData.creator_id d)
               (RoomData.bet d) in
    Some (Coinflip {| CoinflipGame.base := restore_state (CoinflipGame.base c) d;
                      CoinflipGame.creator_choice := CoinflipGame.creator_choice c |})
  else None.

(** [load_rooms]: every rebuilt room is stored under the key it has in the
    file; [room_counter] is not touched. *)
Definition load_rooms (self : RoomManager.t) (data : gmap string RoomData.t)
    : RoomManager.t :=
  {| RoomManager.active_rooms := omap load_room data ∪ RoomManager.active_rooms self;
     RoomManager.room_counter := RoomManager.room_counter self |}.

(** A method of a stored room changed the object the registry holds. *)
Definition put_room (self : RoomManager.t) (rid : string) (room : Room) : RoomManager.t :=
  {| RoomManager.active_rooms := <[rid := room]> (RoomManager.active_rooms self);
     RoomManager.room_counter := RoomManager.room_counter self |}.

(** The registries the program can build: the manager's methods, and
    [play] and [set_creator_choice] called on a stored room (the handlers
    call [join] through the manager only). *)
Inductive built : RoomManager.t -> Prop :=
  | built_init : built RoomManager.init
  | built_create rm creator gt b :
      built rm -> built (RoomManager.create_room rm creator gt b).1
  | built_join rm rid opponent :
      built rm -> built (RoomManager.join_room rm rid opponent).2
  | built_delete rm rid :
      built rm -> built (RoomManager.delete_room rm rid).2
  | built_cleanup rm :
      built rm -> built (cleanup_finished_rooms rm)
  | built_play rm rid room rng :
      built rm -> RoomManager.get_room rm rid = Some room ->
      built (put_room rm rid (Room.play room rng).2)
  | built_choice rm rid g choice :
      built rm -> RoomManager.get_room rm rid = Some (Coinflip g) ->
      built (put_room rm rid (Coinflip (CoinflipGame.set_creator_choice g choice))).

(** The class of a room object agrees with its [game_type]. *)
Definition class_matches (room : Room) : Prop :=
  match room with
  | Dice g => MultiplayerGame.game_type g = "dice"
  | Coinflip c => MultiplayerGame.game_type (CoinflipGame.base c) = "coinflip"
  end.

(** What holds of a room stored under [rid] when the counter is [n]. *)
Definition stored_ok (n : Z) (rid : string) (room : Room) : Prop :=
  Room.room_id room = rid
  ∧ (∃ k, rid = "ROOM" +:+ pretty k ∧ 1000 < k <= n)
  ∧ Room.opponent_id room ≠ Some (Room.creator_id room)
  ∧ (Room.status room = waiting <-> Room.opponent_id room = None)
  ∧ class_matches room.

(** ** More of src/main.py *)

Inductive CancelReply := RoomCancelled | CancelRefused.

(** [cancel_room]: the id comes from the button; who pressed it is not
    looked at. *)
Definition cancel_room (rid : string) : M CancelReply :=
  let! found := rm_get_room rid in
  match found with
  | Some room =>
      if decide (Room.status room = waiting) then
        let! _ := db_update_balance (Some (Room.creator_id room)) (Room.bet room) in
        let! _ := rm_delete_room rid in
        ret RoomCancelled
      else ret CancelRefused
  | None => ret CancelRefused
  end.

Inductive CheckReply := RoomNotFound | OpponentJoined | NobodyYet.

Definition check_room (cfg : Config) (rid : string) (rng : Rng) : M CheckReply :=
  let! found := rm_get_room rid in
  match found with
  | None => ret RoomNotFound
  | Some room =>
      if decide (Room.status room = playing) then
        let! _ := start_multiplayer_game cfg room rng in
        ret OpponentJoined
      else ret NobodyYet
  end.

(** The dice room of user 1 (stake 10) in the registry, both users with a
    balance of 100 before the creator paid. *)
Definition dice_waiting_world : World :=
  (create_room_with_bet default_config 1 (amount 10) "dice"
     (start_world (amount 100) (amount 100))).1.

(** ** src/cashout_manager.py and the cashout handlers of src/main.py *)

Module CashoutManager.

(** An entry of the cashout file ([created_at] and [processed_at] left
    out). *)
Record Cashout := {
  cashout_id : string;
  user_id : Z;
  username : option string;
  amount : Qc;
  status : string
}.

(** [now_ms] is [int(datetime.now().timestamp() * 1000)]. *)
Definition create_cashout (cashouts : gmap string Cashout) (uid : Z) (a : Qc)
    (name : option string) (now_ms : Z) : gmap string Cashout * string :=
  let cid := "cashout_" +:+ pretty uid +:+ "_" +:+ pretty now_ms in
  (<[cid := {| cashout_id := cid; user_id := uid; username := name; amount := a;
               status := "pending" |}]> cashouts, cid).

Definition update_cashout_status (cashouts : gmap string Cashout) (cid : string)
    (st : string) : gmap string Cashout * bool :=
  match cashouts !! cid with
  | Some c =>
      (<[cid := {| cashout_id := cashout_id c; user_id := user_id c;
                   username := username c; amount := amount c; status := st |}]>
         cashouts, true)
  | None => (cashouts, false)
  end.

End CashoutManager.

Inductive CashoutReply :=
  | BelowMinimum
  | CashoutInsufficient
  | CashoutCreated (cid : string) (new_balance : Qc).

(** [process_cashout]: the state is the user store and the cashout file;
    [a] is [float(message.text)]. *)
Definition process_cashout (cfg : Config) (user : Z) (a : Qc) (now_ms : Z)
    (st : gmap Z Database.User * gmap string CashoutManager.Cashout)
    : (gmap Z Database.User * gmap string CashoutManager.Cashout) * CashoutReply :=
  let '(data, cashouts) := st in
  let balance := Database.get_balance data user in
  if decide (a < MIN_BET cfg)%Qc then (st, BelowMinimum)
  else if decide (balance < a)%Qc then (st, CashoutInsufficient)
  else
    let '(data', new_balance) := Database.update_balance data user (- a)%Qc in
    let name := Database.get_user data' user ≫= Database.username in
    let '(cashouts', cid) :=
      CashoutManager.create_cashout cashouts user a name now_ms in
    ((data', cashouts'), CashoutCreated cid new_balance).

(** [user_id in ADMIN_IDS] *)
Definition is_admin (admin_ids : list Z) (uid : Z) : bool :=
  bool_decide (uid ∈ admin_ids).

Inductive AdminReply :=
  | AccessDenied
  | CashoutApproved
  | CashoutRejected
  | CashoutNotFound
  | StatusNotUpdated.

Definition admin_approve_cashout (admin_ids : list Z) (caller : Z) (cid : string)
    (st : gmap Z Database.User * gmap string CashoutManager.Cashout)
    : (gmap Z Database.User * gmap string CashoutManager.Cashout) * AdminReply :=
  let '(data, cashouts) := st in
  if negb (is_admin admin_ids caller) then (st, AccessDenied)
  else
    let '(cashouts', ok) :=
      CashoutManager.update_cashout_status cashouts cid "processed" in
    if ok then ((data, cashouts'), CashoutApproved)
    else ((data, cashouts'), CashoutNotFound).

Definition admin_reject_cashout (admin_ids : list Z) (caller : Z) (cid : string)
    (st : gmap Z Database.User * gmap string CashoutManager.Cashout)
    : (gmap Z Database.User * gmap string CashoutManager.Cashout) * AdminReply :=
  let '(data, cashouts) := st in
  if negb (is_admin admin_ids caller) then (st, AccessDenied)
  else
    match cashouts !! cid with
    | Some c =>
        let data' :=
          (Database.update_balance data (CashoutManager.user_id c)
             (CashoutManager.amount c)).1 in
        let '(cashouts', ok) :=
          CashoutManager.update_cashout_status cashouts cid "cancelled" in
        if ok then ((data', cashouts'), CashoutRejected)
        else ((data', cashouts'), StatusNotUpdated)
    | None => (st, CashoutNotFound)
    end.

(** ** The calls of [create_room] in a trace *)

Definition rooms_created (tr : list Event) : list (string * Z) :=
  omap (λ e, match e with EvCreateRoom rid creator => Some (rid, creator) | _ => None end) tr.

(** ** src/main.py: the prize computation over binary64 floats

    The three assignments of [show_dice_result] and [show_coinflip_result]
    (main.py 545-547 and 684-686), on the floats the program computes
    with. *)

Module Binary64.

Definition full_prize (bet : float) : float := (bet * 2)%float.
Definition fee_amount (bet house_fee : float) : float :=
  (full_prize bet * (house_fee / 100))%float.
Definition final_prize (bet house_fee : float) : float :=
  (full_prize bet - fee_amount bet house_fee)%float.



End Binary64.

(** * Properties *)

(** ** The store *)

Lemma get_balance_lookup (data : gmap Z Database.User) (uid : Z) (u : Database.User) :
  data !! uid = Some u -> Database.get_balance data uid = Database.balance u.
Proof. intros H. unfold Database.get_balance, Database.get_user. by rewrite H. Qed.

Lemma update_balance_absent (data : gmap Z Database.User) (uid : Z) (delta : Qc) :
  data !! uid = None -> Database.update_balance data uid delta = (data, 0%Qc).
Proof. intros H. unfold Database.update_balance. by rewrite H. Qed.

Lemma update_balance_present (data : gmap Z Database.User) (uid : Z) (delta : Qc)
    (u : Database.User) :
  data !! uid = Some u ->
  Database.update_balance data uid delta =
    (<[uid := Database.set_balance u (Database.balance u + delta)%Qc]> data,
     (Database.balance u + delta)%Qc).
Proof. intros H. unfold Database.update_balance. by rewrite H. Qed.

Lemma update_balance_other (data : gmap Z Database.User) (uid other : Z) (delta : Qc) :
  other ≠ uid ->
  (Database.update_balance data uid delta).1 !! other = data !! other.
Proof.
  intros Hne. unfold Database.update_balance.
  destruct (data !! uid) as [u|]; simpl; [|done].
  by rewrite lookup_insert_ne.
Qed.

Lemma add_game_to_history_balance (data : gmap Z Database.User) (uid other : Z)
    (gt : string) (b w : Qc) (res : string) :
  Database.get_balance (Database.add_game_to_history data uid gt b w res) other
  = Database.get_balance data other.
Proof.
  unfold Database.add_game_to_history, Database.get_balance, Database.get_user.
  destruct (data !! uid) as [u|] eqn:Hu; [|done].
  destruct (decide (uid = other)) as [->|Hne].
  - by rewrite lookup_insert_eq, Hu.
  - by rewrite lookup_insert_ne.
Qed.

(** C10. [update_balance] on a user id that is not in the store returns 0
    and leaves the store as it is; on a stored user it returns and stores
    the old balance plus the amount, whatever the amount, so a debit above
    the balance leaves a negative balance; the other users keep theirs. *)
Theorem update_balance_unconditional (data : gmap Z Database.User) (uid : Z)
    (delta : Qc) :
  (data !! uid = None ->
     Database.update_balance data uid delta = (data, 0%Qc))
  ∧ (∀ u, data !! uid = Some u ->
       (Database.update_balance data uid delta).2 = (Database.balance u + delta)%Qc
       ∧ Database.get_balance (Database.update_balance data uid delta).1 uid
         = (Database.balance u + delta)%Qc
       ∧ (∀ other, other ≠ uid ->
            (Database.update_balance data uid delta).1 !! other = data !! other)
       ∧ ((Database.balance u < - delta)%Qc ->
            (Database.get_balance (Database.update_balance data uid delta).1 uid < 0)%Qc)).
Proof.
  split; [apply update_balance_absent|].
  intros u Hu. rewrite (update_balance_present _ _ _ _ Hu). simpl.
  assert (Hb : Database.get_balance
                 (<[uid := Database.set_balance u (Database.balance u + delta)%Qc]> data) uid
               = (Database.balance u + delta)%Qc).
  { erewrite get_balance_lookup; [|apply lookup_insert_eq]. done. }
  repeat split; [done| |].
  - intros other Hne. by rewrite lookup_insert_ne.
  - intros Hlt. rewrite Hb.
    apply (Qcplus_lt_mono_r _ _ delta) in Hlt.
    by replace (- delta + delta)%Qc with 0%Qc in Hlt by ring.
Qed.

Lemma update_balance_unconditional_witness :
  two_users (amount 5) (amount 5) !! 1 = Some (Database.set_balance
      (Database.create_user ∅ 1 (Some "ann") (amount 5)).2 (amount 5))
  ∧ (Database.balance (Database.create_user ∅ 1 (Some "ann") (amount 5)).2
       < - - amount 8)%Qc
  ∧ (Database.get_balance
       (Database.update_balance (two_users (amount 5) (amount 5)) 1 (- amount 8)).1 1
     < 0)%Qc.
Proof.
  split; [reflexivity|]. split; [reflexivity|].
  destruct (update_balance_unconditional (two_users (amount 5) (amount 5)) 1
              (- amount 8)) as [_ H].
  destruct (H _ eq_refl) as (_ & _ & _ & Hneg).
  apply Hneg. reflexivity.
Defined.

(** ** The room objects *)

Lemma join_not_waiting (g : MultiplayerGame.t) (opponent : Z) :
  MultiplayerGame.status g ≠ waiting -> MultiplayerGame.join g opponent = (false, g).
Proof. intros H. unfold MultiplayerGame.join. by destruct (decide _). Qed.

Lemma room_join_not_waiting (room : Room) (opponent : Z) :
  Room.status room ≠ waiting -> Room.join room opponent = (false, room).
Proof.
  destruct room as [g|[g c]]; unfold Room.status; simpl; intros H.
  - by rewrite join_not_waiting.
  - unfold CoinflipGame.join; simpl. by rewrite join_not_waiting.
Qed.

Lemma room_join_waiting (room : Room) (opponent : Z) :
  Room.status room = waiting ->
  ∃ room', Room.join room opponent = (true, room')
    ∧ Room.status room' = playing
    ∧ Room.opponent_id room' = Some opponent
    ∧ Room.creator_id room' = Room.creator_id room
    ∧ Room.room_id room' = Room.room_id room
    ∧ Room.bet room' = Room.bet room
    ∧ Room.game_type room' = Room.game_type room.
Proof.
  destruct room as [g|[g c]]; unfold Room.status; simpl; intros H;
    unfold CoinflipGame.join, MultiplayerGame.join; simpl; rewrite H; simpl;
    eexists; split; try reflexivity; done.
Qed.

Lemma room_play_not_playing (room : Room) (rng : Rng) :
  Room.status room ≠ playing ->
  Room.play room rng = (PlayError "Game is not ready", room).
Proof.
  destruct room as [g|[g c]]; unfold Room.status; simpl; intros H.
  - unfold DiceGame.play. by destruct (decide _).
  - unfold CoinflipGame.play; simpl. by destruct (decide _).
Qed.

(** A successful [play] leaves the room finished. *)
Lemma room_play_finishes (room : Room) (rng : Rng) :
  (∃ msg, Room.play room rng = (PlayError msg, room))
  ∨ Room.status (Room.play room rng).2 = finished.
Proof.
  destruct room as [g|[g c]]; simpl.
  - unfold DiceGame.play. destruct (decide _); [by right|left; eauto].
  - unfold CoinflipGame.play; simpl.
    destruct (decide _); [|left; eauto].
    destruct (CoinflipGame.no_choice c); [left; eauto|by right].
Qed.

(** In a room that left [waiting] the opponent is set. *)
Lemma reachable_opponent (room : Room) :
  reachable room ->
  Room.status room ≠ waiting -> is_Some (Room.opponent_id room).
Proof.
  induction 1 as [rid c b|rid c b|room o _ IH|g ch _ IH|room rng _ IH]; try done.
  - destruct (decide (Room.status room = waiting)) as [Hw|Hw].
    + destruct (room_join_waiting room o Hw) as (room' & Hj & _ & Ho & _).
      rewrite Hj; simpl. rewrite Ho. eauto.
    + rewrite (room_join_not_waiting _ _ Hw). exact IH.
  - destruct room as [g|[g c]]; unfold Room.status, Room.opponent_id in *; simpl in *.
    + unfold DiceGame.play. destruct (decide _) as [Hp|]; simpl; [|done].
      intros _. apply IH. by rewrite Hp.
    + unfold CoinflipGame.play; simpl. destruct (decide _) as [Hp|]; simpl; [|done].
      destruct (CoinflipGame.no_choice c); simpl; [done|].
      intros _. apply IH. by rewrite Hp.
Qed.

(** C6. A dice room in play, with the creator's die [a] and the
    opponent's die [b] in 1..6: [play] succeeds and finishes the room; the
    winner is the creator when [a > b], the room's opponent when [b > a],
    and nobody (a draw) when [a = b]. *)
Theorem dice_play_winner (g : MultiplayerGame.t) (a b : Z) :
  MultiplayerGame.status g = playing ->
  1 <= a <= 6 -> 1 <= b <= 6 ->
  ∃ w, (DiceGame.play g a b).1 = DiceResult a b w (is_None w)
    ∧ MultiplayerGame.winner_id (DiceGame.play g a b).2 = w
    ∧ MultiplayerGame.status (DiceGame.play g a b).2 = finished
    ∧ (a > b -> w = Some (MultiplayerGame.creator_id g))
    ∧ (b > a -> w = MultiplayerGame.opponent_id g)
    ∧ (a = b -> w = None ∧ is_None w = true).
Proof.
  intros Hp _ _. unfold DiceGame.play. rewrite Hp. simpl.
  eexists. repeat split.
  - intros Hab. by rewrite decide_True.
  - intros Hba. rewrite decide_False by lia. by rewrite decide_True.
  - rewrite !decide_False by lia. done.
  - rewrite !decide_False by lia. done.
Qed.

Lemma dice_play_winner_witness :
  MultiplayerGame.status joined_dice = playing
  ∧ 1 <= 3 <= 6 ∧ 1 <= 5 <= 6
  ∧ ∃ w, (DiceGame.play joined_dice 3 5).1 = DiceResult 3 5 w (is_None w)
    ∧ MultiplayerGame.winner_id (DiceGame.play joined_dice 3 5).2 = w
    ∧ MultiplayerGame.status (DiceGame.play joined_dice 3 5).2 = finished
    ∧ (3 > 5 -> w = Some (MultiplayerGame.creator_id joined_dice))
    ∧ (5 > 3 -> w = MultiplayerGame.opponent_id joined_dice)
    ∧ (3 = 5 -> w = None ∧ is_None w = true).
Proof.
  split; [reflexivity|]. split; [lia|]. split; [lia|].
  apply (dice_play_winner joined_dice 3 5); [reflexivity|lia|lia].
Defined.

(** C5. A coinflip room the program can build, in play, whose creator chose
    "heads" or "tails": whatever the coin, [play] succeeds with a winner
    (never [None], never a draw), the creator when the coin shows the
    creator's side and the opponent otherwise. *)
Theorem coinflip_play_has_winner (g : CoinflipGame.t) (coin : bool) :
  reachable (Coinflip g) ->
  MultiplayerGame.status (CoinflipGame.base g) = playing ->
  CoinflipGame.creator_choice g = Some "heads"
  ∨ CoinflipGame.creator_choice g = Some "tails" ->
  ∃ side c_choice o_choice w,
    (CoinflipGame.play g coin).1 = CoinflipResult side c_choice o_choice (Some w) false
    ∧ MultiplayerGame.winner_id (CoinflipGame.base (CoinflipGame.play g coin).2) = Some w
    ∧ CoinflipGame.creator_choice g = Some c_choice
    ∧ (c_choice = side -> w = MultiplayerGame.creator_id (CoinflipGame.base g))
    ∧ (c_choice ≠ side -> Some w = MultiplayerGame.opponent_id (CoinflipGame.base g)).
Proof.
  intros Hr Hp Hc.
  destruct (reachable_opponent _ Hr) as [o Ho].
  { unfold Room.status; simpl. by rewrite Hp. }
  unfold Room.opponent_id in Ho; simpl in Ho.
  unfold CoinflipGame.play, CoinflipGame.get_opponent_choice. rewrite Hp, Ho. simpl.
  destruct Hc as [-> | ->], coin; simpl;
    repeat eexists; simpl; try reflexivity; try done.
Qed.

Lemma coinflip_play_has_winner_witness :
  reachable (Coinflip (CoinflipGame.set_creator_choice joined_coinflip "heads"))
  ∧ ∃ side c_choice o_choice w,
      (CoinflipGame.play (CoinflipGame.set_creator_choice joined_coinflip "heads") false).1
      = CoinflipResult side c_choice o_choice (Some w) false
      ∧ w = 2.
Proof.
  assert (Hr : reachable (Coinflip (CoinflipGame.set_creator_choice joined_coinflip "heads"))).
  { apply reachable_choice.
    apply (reachable_join (Coinflip (CoinflipGame.init "ROOM1001" 1 (amount 20))) 2).
    apply reachable_coinflip. }
  split; [exact Hr|].
  destruct (coinflip_play_has_winner
              (CoinflipGame.set_creator_choice joined_coinflip "heads") false Hr
              eq_refl (or_introl eq_refl))
    as (side & cc & oc & w & Hres & _ & _ & _ & Hopp).
  exists side, cc, oc, w. split; [exact Hres|].
  vm_compute in Hres. injection Hres as _ _ _ Hw. congruence.
Defined.

(** ** The registry *)

Lemma registry_eta (rm : RoomManager.t) (rid : string) (room : Room) :
  RoomManager.active_rooms rm !! rid = Some room ->
  {| RoomManager.active_rooms := <[rid := room]> (RoomManager.active_rooms rm);
     RoomManager.room_counter := RoomManager.room_counter rm |} = rm.
Proof. intros H. destruct rm as [rooms n]; simpl in *. by rewrite insert_id. Qed.

Lemma registry_join_not_waiting (rm : RoomManager.t) (rid : string) (room : Room)
    (opponent : Z) :
  RoomManager.get_room rm rid = Some room ->
  Room.status room ≠ waiting ->
  RoomManager.join_room rm rid opponent = (false, rm).
Proof.
  intros Hg Hs. unfold RoomManager.join_room. rewrite Hg.
  destruct (decide _); [done|].
  rewrite (room_join_not_waiting _ _ Hs). by rewrite registry_eta.
Qed.

Lemma registry_join_waiting (rm : RoomManager.t) (rid : string) (room : Room)
    (opponent : Z) :
  RoomManager.get_room rm rid = Some room ->
  Room.status room = waiting ->
  Room.creator_id room ≠ opponent ->
  RoomManager.join_room rm rid opponent =
    (true, {| RoomManager.active_rooms :=
                <[rid := (Room.join room opponent).2]> (RoomManager.active_rooms rm);
              RoomManager.room_counter := RoomManager.room_counter rm |}).
Proof.
  intros Hg Hs Hne. unfold RoomManager.join_room. rewrite Hg.
  rewrite decide_False by done.
  destruct (room_join_waiting room opponent Hs) as (room' & Hj & _).
  by rewrite Hj.
Qed.

(** ** Showing a result that is an error *)

Lemma show_dice_result_error (cfg : Config) (room : Room) (msg : string) (w : World) :
  ∃ e, show_dice_result cfg room (PlayError msg) w = (w, Raise e).
Proof.
  unfold show_dice_result, bind, username_of; simpl.
  destruct (Database.get_user (db w) (Room.creator_id room)); [|eauto].
  destruct (Room.opponent_id room ≫= Database.get_user (db w)); eauto.
Qed.

Lemma show_coinflip_result_error (cfg : Config) (room : Room) (msg : string) (w : World) :
  ∃ e, show_coinflip_result cfg room (PlayError msg) w = (w, Raise e).
Proof.
  unfold show_coinflip_result, bind, username_of; simpl.
  destruct (Database.get_user (db w) (Room.creator_id room)); [|eauto].
  destruct (Room.opponent_id room ≫= Database.get_user (db w)); eauto.
Qed.

(** C4. [join] on a room that is not waiting returns [False] and changes
    nothing, on the object and through the registry. [play] on a room that
    is not in play returns the error dictionary and changes nothing. A
    [play] that succeeded left the room finished, so the next [play] on it
    is such an error; and showing an error result raises before any
    balance is touched: the world is as it was. *)
Theorem join_play_state_conflicts :
  (∀ room opponent, Room.status room ≠ waiting ->
     Room.join room opponent = (false, room))
  ∧ (∀ rm rid room opponent,
       RoomManager.get_room rm rid = Some room -> Room.status room ≠ waiting ->
       RoomManager.join_room rm rid opponent = (false, rm))
  ∧ (∀ room rng, Room.status room ≠ playing ->
       Room.play room rng = (PlayError "Game is not ready", room))
  ∧ (∀ room rng rng',
       (∀ msg, (Room.play room rng).1 ≠ PlayError msg) ->
       Room.status (Room.play room rng).2 = finished
       ∧ Room.play (Room.play room rng).2 rng'
         = (PlayError "Game is not ready", (Room.play room rng).2))
  ∧ (∀ cfg room msg w,
       (∃ e, show_dice_result cfg room (PlayError msg) w = (w, Raise e))
       ∧ (∃ e, show_coinflip_result cfg room (PlayError msg) w = (w, Raise e))).
Proof.
  split; [exact room_join_not_waiting|].
  split; [exact registry_join_not_waiting|].
  split; [exact room_play_not_playing|].
  split.
  - intros room rng rng' Hok.
    assert (Hf : Room.status (Room.play room rng).2 = finished).
    { destruct (room_play_finishes room rng) as [[msg Hm]|Hf]; [|done].
      exfalso. apply (Hok msg). by rewrite Hm. }
    split; [done|]. apply room_play_not_playing. by rewrite Hf.
  - intros cfg room msg w. split.
    + apply show_dice_result_error.
    + apply show_coinflip_result_error.
Qed.

Lemma join_play_state_conflicts_witness :
  Room.status (Dice joined_dice) ≠ waiting
  ∧ Room.join (Dice joined_dice) 3 = (false, Dice joined_dice)
  ∧ (∀ msg, (Room.play (Dice joined_dice) sample_rng).1 ≠ PlayError msg)
  ∧ Room.play (Room.play (Dice joined_dice) sample_rng).2 sample_rng
    = (PlayError "Game is not ready", (Room.play (Dice joined_dice) sample_rng).2).
Proof.
  destruct join_play_state_conflicts as (Hjoin & _ & _ & Hplay & _).
  assert (H1 : Room.status (Dice joined_dice) ≠ waiting) by done.
  assert (H2 : ∀ msg, (Room.play (Dice joined_dice) sample_rng).1 ≠ PlayError msg) by done.
  split; [exact H1|]. split; [exact (Hjoin _ 3 H1)|]. split; [exact H2|].
  exact (proj2 (Hplay _ sample_rng sample_rng H2)).
Defined.

(** C7, as stated, fails on the object: [join] does not look at who joins,
    so the creator of a waiting room joins it. *)
Lemma self_join_on_object_succeeds :
  Room.status waiting_dice = waiting
  ∧ (Room.join waiting_dice (Room.creator_id waiting_dice)).1 = true
  ∧ Room.status (Room.join waiting_dice (Room.creator_id waiting_dice)).2 = playing
  ∧ Room.opponent_id (Room.join waiting_dice (Room.creator_id waiting_dice)).2
    = Some (Room.creator_id waiting_dice).
Proof. repeat split. Qed.

(** The registry refuses the creator of a room as its opponent. *)
Lemma registry_join_creator (rm : RoomManager.t) (rid : string) (room : Room) :
  RoomManager.get_room rm rid = Some room ->
  RoomManager.join_room rm rid (Room.creator_id room) = (false, rm)
  ∧ RoomManager.get_room (RoomManager.join_room rm rid (Room.creator_id room)).2 rid
    = Some room.
Proof.
  intros Hg. unfold RoomManager.join_room. rewrite Hg.
  by rewrite decide_True.
Qed.

(** C7, amended. Through the registry a join by the room's own creator
    returns [False] and leaves the registry, and so the room, as it was. *)
Theorem registry_self_join_rejected (rm : RoomManager.t) (rid : string) (room : Room) :
  RoomManager.get_room rm rid = Some room ->
  RoomManager.join_room rm rid (Room.creator_id room) = (false, rm)
  ∧ RoomManager.get_room (RoomManager.join_room rm rid (Room.creator_id room)).2 rid
    = Some room.
Proof. exact (registry_join_creator rm rid room). Qed.

Lemma registry_self_join_rejected_witness :
  RoomManager.get_room one_room "ROOM1001" = Some waiting_dice
  ∧ RoomManager.join_room one_room "ROOM1001" 1 = (false, one_room).
Proof.
  split; [reflexivity|].
  exact (proj1 (registry_self_join_rejected one_room "ROOM1001" waiting_dice eq_refl)).
Defined.

(** ** The creator's choice *)

(** C8, as stated, fails: [set_creator_choice] stores the choice in a room
    that is still waiting, and the handler accepts a second choice of the
    creator, which replaces the first; the game is then played with it
    (here the coin shows tails and the creator, now on tails, is paid). *)
Lemma creator_choice_set_twice :
  MultiplayerGame.status
    (CoinflipGame.base (CoinflipGame.init "ROOM1001" 1 (amount 20))) = waiting
  ∧ CoinflipGame.creator_choice
      (CoinflipGame.set_creator_choice
         (CoinflipGame.init "ROOM1001" 1 (amount 20)) "heads") = Some "heads"
  ∧ RoomManager.get_room (room_manager coinflip_heads_chosen) "ROOM1001"
    = Some (Coinflip (CoinflipGame.set_creator_choice joined_coinflip "heads"))
  ∧ (coinflip_choice default_config 1 "ROOM1001" "tails" sample_rng
       coinflip_heads_chosen).2 = Ok ChoiceAccepted
  ∧ trace (coinflip_choice default_config 1 "ROOM1001" "tails" sample_rng
             coinflip_heads_chosen).1
    = trace coinflip_heads_chosen
      ++ [EvUpdateBalance (Some 1) (final_prize default_config (amount 20));
          EvDeleteRoom "ROOM1001"].
Proof. repeat split; vm_compute; reflexivity. Qed.

(** C8, amended. The handler lets only the creator choose: for any other
    caller it answers that only the creator chooses and changes nothing.
    [set_creator_choice] itself is unconditional: whatever the status and
    whatever was chosen before, it stores the lower-cased choice and
    touches nothing else. *)
Theorem creator_choice_only_by_creator (cfg : Config) (w : World) (user : Z)
    (rid : string) (room : Room) (choice : string) (rng : Rng) :
  RoomManager.get_room (room_manager w) rid = Some room ->
  (user ≠ Room.creator_id room ->
     coinflip_choice cfg user rid choice rng w = (w, Ok NotCreator))
  ∧ (∀ g, CoinflipGame.creator_choice (CoinflipGame.set_creator_choice g choice)
          = Some (lower choice)
          ∧ CoinflipGame.base (CoinflipGame.set_creator_choice g choice)
            = CoinflipGame.base g).
Proof.
  intros Hg. split; [|done].
  intros Hne. unfold coinflip_choice, bind, rm_get_room. rewrite Hg.
  by rewrite decide_True.
Qed.

Lemma creator_choice_only_by_creator_witness :
  RoomManager.get_room (room_manager coinflip_started) "ROOM1001"
  = Some (Coinflip joined_coinflip)
  ∧ 2 ≠ Room.creator_id (Coinflip joined_coinflip)
  ∧ coinflip_choice default_config 2 "ROOM1001" "heads" sample_rng coinflip_started
    = (coinflip_started, Ok NotCreator).
Proof.
  assert (Hg : RoomManager.get_room (room_manager coinflip_started) "ROOM1001"
               = Some (Coinflip joined_coinflip)) by reflexivity.
  assert (Hne : 2 ≠ Room.creator_id (Coinflip joined_coinflip)) by done.
  split; [exact Hg|]. split; [exact Hne|].
  exact (proj1 (creator_choice_only_by_creator default_config coinflip_started 2
                  "ROOM1001" _ "heads" sample_rng Hg) Hne).
Defined.

(** ** Settlement *)

Lemma get_balance_update_same (data : gmap Z Database.User) (uid : Z) (a : Qc) :
  is_Some (data !! uid) ->
  Database.get_balance (Database.update_balance data uid a).1 uid
  = (Database.get_balance data uid + a)%Qc.
Proof.
  intros [u Hu]. rewrite (update_balance_present _ _ _ _ Hu); simpl.
  rewrite (get_balance_lookup _ _ _ Hu).
  erewrite get_balance_lookup; [|apply lookup_insert_eq]. done.
Qed.

Lemma get_balance_update_other (data : gmap Z Database.User) (uid other : Z) (a : Qc) :
  other ≠ uid ->
  Database.get_balance (Database.update_balance data uid a).1 other
  = Database.get_balance data other.
Proof.
  intros Hne. unfold Database.get_balance, Database.get_user.
  by rewrite update_balance_other.
Qed.

Lemma update_balance_registered (data : gmap Z Database.User) (uid other : Z) (a : Qc) :
  is_Some (data !! other) ->
  is_Some ((Database.update_balance data uid a).1 !! other).
Proof.
  intros Ho. destruct (decide (other = uid)) as [->|Hne].
  - destruct Ho as [u Hu]. rewrite (update_balance_present _ _ _ _ Hu); simpl.
    rewrite lookup_insert_eq. eauto.
  - by rewrite update_balance_other.
Qed.

Lemma credits_snoc_update (tr : list Event) (uid : option Z) (a : Qc) :
  credits (tr ++ [EvUpdateBalance uid a]) = credits tr ++ [(uid, a)].
Proof. unfold credits. by rewrite omap_app. Qed.

Lemma credits_snoc_delete (tr : list Event) (rid : string) :
  credits (tr ++ [EvDeleteRoom rid]) = credits tr.
Proof. unfold credits. rewrite omap_app. simpl. by rewrite app_nil_r. Qed.

Lemma username_of_registered (w : World) (uid : Z) :
  is_Some (db w !! uid) -> ∃ name, username_of (Some uid) w = (w, Ok name).
Proof.
  intros [u Hu]. unfold username_of, Database.get_user; simpl. rewrite Hu. eauto.
Qed.

(** [settle] never raises; it leaves the registry and the rematch requests
    alone and makes one call of [update_balance] for a win, two for a
    draw. *)
Lemma settle_run (cfg : Config) (kind : string) (room : Room) (winner : option Z)
    (is_draw : bool) (w : World) :
  ∃ w', settle cfg kind room winner is_draw w = (w', Ok tt)
    ∧ room_manager w' = room_manager w
    ∧ rematch_requests w' = rematch_requests w
    ∧ trace w' = trace w ++
        (if is_draw
         then [EvUpdateBalance (Some (Room.creator_id room)) (Room.bet room);
               EvUpdateBalance (Room.opponent_id room) (Room.bet room)]
         else [EvUpdateBalance winner (final_prize cfg (Room.bet room))])
    ∧ (∀ u, Database.get_balance (db w') u =
         if is_draw
         then match Room.opponent_id room with
              | Some o =>
                  Database.get_balance
                    (Database.update_balance
                       (Database.update_balance (db w) (Room.creator_id room)
                          (Room.bet room)).1 o (Room.bet room)).1 u
              | None =>
                  Database.get_balance
                    (Database.update_balance (db w) (Room.creator_id room)
                       (Room.bet room)).1 u
              end
         else match winner with
              | Some x =>
                  Database.get_balance
                    (Database.update_balance (db w) x
                       (final_prize cfg (Room.bet room))).1 u
              | None => Database.get_balance (db w) u
              end).
Proof.
  unfold settle, bind, db_update_balance, db_add_game_to_history.
  destruct is_draw.
  - destruct (Database.update_balance (db w) (Room.creator_id room) (Room.bet room))
      as [d1 b1] eqn:E1; simpl.
    destruct (Room.opponent_id room) as [o|]; simpl.
    + destruct (Database.update_balance d1 o (Room.bet room)) as [d2 b2] eqn:E2; simpl.
      eexists; split; [reflexivity|]; simpl.
      rewrite <- app_assoc. repeat split; try done.
      intros u. by rewrite !add_game_to_history_balance.
    + eexists; split; [reflexivity|]; simpl.
      rewrite <- app_assoc. repeat split; try done.
      intros u. by rewrite !add_game_to_history_balance.
  - destruct winner as [x|]; simpl.
    + destruct (Database.update_balance (db w) x (final_prize cfg (Room.bet room)))
        as [d1 b1] eqn:E1; simpl.
      destruct (decide _); simpl.
      * destruct (Room.opponent_id room); simpl;
          (eexists; split; [reflexivity|]; simpl; repeat split; try done;
           intros u; by rewrite ?add_game_to_history_balance).
      * eexists; split; [reflexivity|]; simpl; repeat split; try done.
        intros u. by rewrite ?add_game_to_history_balance.
    + eexists; split; [reflexivity|]; simpl; repeat split; try done.
      intros u. by rewrite ?add_game_to_history_balance.
Qed.

Lemma rm_delete_room_run (rid : string) (w : World) :
  ∃ w' ok, rm_delete_room rid w = (w', Ok ok)
    ∧ db w' = db w
    ∧ rematch_requests w' = rematch_requests w
    ∧ trace w' = trace w ++ (if ok then [EvDeleteRoom rid] else [])
    ∧ RoomManager.active_rooms (room_manager w')
      = delete rid (RoomManager.active_rooms (room_manager w))
    ∧ RoomManager.room_counter (room_manager w')
      = RoomManager.room_counter (room_manager w).
Proof.
  unfold rm_delete_room, RoomManager.delete_room.
  destruct (RoomManager.active_rooms (room_manager w) !! rid) eqn:E; simpl.
  - eexists _, true. repeat split.
  - eexists _, false. repeat split; simpl; try done.
    + by rewrite app_nil_r.
    + by rewrite delete_id.
Qed.

(** The common end of the two result handlers: settle, then drop the room. *)
Lemma settle_and_delete (cfg : Config) (kind : string) (room : Room)
    (winner : option Z) (is_draw : bool) (w : World) :
  ∃ w', (let! _ := settle cfg kind room winner is_draw in
         let! _ := rm_delete_room (Room.room_id room) in
         ret tt) w = (w', Ok tt)
    ∧ rematch_requests w' = rematch_requests w
    ∧ credits (trace w') = credits (trace w) ++
        (if is_draw
         then [(Some (Room.creator_id room), Room.bet room);
               (Room.opponent_id room, Room.bet room)]
         else [(winner, final_prize cfg (Room.bet room))])
    ∧ (∀ u, Database.get_balance (db w') u =
         if is_draw
         then match Room.opponent_id room with
              | Some o =>
                  Database.get_balance
                    (Database.update_balance
                       (Database.update_balance (db w) (Room.creator_id room)
                          (Room.bet room)).1 o (Room.bet room)).1 u
              | None =>
                  Database.get_balance
                    (Database.update_balance (db w) (Room.creator_id room)
                       (Room.bet room)).1 u
              end
         else match winner with
              | Some x =>
                  Database.get_balance
                    (Database.update_balance (db w) x
                       (final_prize cfg (Room.bet room))).1 u
              | None => Database.get_balance (db w) u
              end).
Proof.
  destruct (settle_run cfg kind room winner is_draw w)
    as (w1 & Hs & _ & Hrr & Htr & Hbal).
  destruct (rm_delete_room_run (Room.room_id room) w1)
    as (w2 & ok & Hd & Hdb & Hrr2 & Htr2 & _).
  exists w2. unfold bind. rewrite Hs, Hd. split; [done|].
  split; [congruence|]. split.
  - rewrite Htr2, Htr.
    assert (Hok : ∀ tr, credits (tr ++ (if ok then [EvDeleteRoom (Room.room_id room)] else []))
                        = credits tr).
    { intros tr. destruct ok; [apply credits_snoc_delete|by rewrite app_nil_r]. }
    rewrite Hok. unfold credits. rewrite omap_app. by destruct is_draw.
  - intros u. rewrite Hdb. apply Hbal.
Qed.

(** A match in play between a registered creator and a registered opponent
    is played and its result shown (dice with values in 1..6, coinflip with
    the creator on "heads" or "tails"). The handler completes; when there
    is a winner it has made exactly one call of [update_balance], for the
    winner and of [final_prize], and every other balance is as before; on a
    draw it has made exactly two, of the stake each, for the creator and
    for the opponent. *)
Lemma show_result_run (cfg : Config) (w : World) (room : Room) (rng : Rng)
    (o : Z) :
  Room.status room = playing ->
  Room.opponent_id room = Some o ->
  Room.creator_id room ≠ o ->
  is_Some (db w !! Room.creator_id room) ->
  is_Some (db w !! o) ->
  match room with
  | Dice _ => 1 <= die1 rng <= 6 ∧ 1 <= die2 rng <= 6
  | Coinflip g => CoinflipGame.creator_choice g = Some "heads"
                  ∨ CoinflipGame.creator_choice g = Some "tails"
  end ->
  ∃ w', match room with
        | Dice _ => show_dice_result
        | Coinflip _ => show_coinflip_result
        end cfg (Room.play room rng).2 (Room.play room rng).1 w = (w', Ok tt)
    ∧ Room.status (Room.play room rng).2 = finished
    ∧ match Room.winner_id (Room.play room rng).2 with
      | Some x =>
          (x = Room.creator_id room ∨ x = o)
          ∧ credits (trace w') = credits (trace w)
              ++ [(Some x, final_prize cfg (Room.bet room))]
          ∧ Database.get_balance (db w') x
            = (Database.get_balance (db w) x + final_prize cfg (Room.bet room))%Qc
          ∧ (∀ u, u ≠ x ->
               Database.get_balance (db w') u = Database.get_balance (db w) u)
      | None =>
          credits (trace w') = credits (trace w)
              ++ [(Some (Room.creator_id room), Room.bet room);
                  (Some o, Room.bet room)]
          ∧ Database.get_balance (db w') (Room.creator_id room)
            = (Database.get_balance (db w) (Room.creator_id room) + Room.bet room)%Qc
          ∧ Database.get_balance (db w') o
            = (Database.get_balance (db w) o + Room.bet room)%Qc
          ∧ (∀ u, u ≠ Room.creator_id room -> u ≠ o ->
               Database.get_balance (db w') u = Database.get_balance (db w) u)
      end.
Proof.
  intros Hp Ho Hne Hc Hopp Hvalid.
  destruct (username_of_registered w _ Hc) as [cn Hcn].
  destruct (username_of_registered w _ Hopp) as [on Hon].
  destruct room as [g|[g ch]];
    unfold Room.status, Room.opponent_id, Room.creator_id, Room.bet, Room.winner_id in *;
    simpl in *.
  - destruct Hvalid as [Ha Hb].
    unfold DiceGame.play. rewrite Hp; simpl.
    set (wn := if decide (die1 rng > die2 rng) then Some (MultiplayerGame.creator_id g)
               else if decide (die2 rng > die1 rng) then MultiplayerGame.opponent_id g
               else None).
    destruct (settle_and_delete cfg "dice_mp"
                (Dice (MultiplayerGame.finish g (Rolled (die1 rng)) (Rolled (die2 rng)) wn))
                wn (is_None wn) w) as (w' & Hrun & _ & Hcr & Hbal).
    exists w'. split.
    { unfold show_dice_result, bind in *.
      unfold Room.creator_id, Room.opponent_id; simpl. rewrite Hcn, Ho, Hon.
      unfold dice_emoji. rewrite !decide_True by lia. simpl. exact Hrun. }
    split; [done|].
    unfold Room.creator_id, Room.opponent_id, Room.bet in *; simpl in *.
    rewrite Ho in *.
    assert (Hwn : wn = None ∨ wn = Some (MultiplayerGame.creator_id g) ∨ wn = Some o).
    { unfold wn. repeat destruct (decide _); auto. }
    destruct Hwn as [Hw|[Hw|Hw]]; rewrite Hw in *; simpl in *.
    + split; [done|]. split; [|split].
      * rewrite Hbal, get_balance_update_other by done.
        by rewrite get_balance_update_same.
      * rewrite Hbal, get_balance_update_same by (by apply update_balance_registered).
        by rewrite get_balance_update_other.
      * intros u Hu1 Hu2. rewrite Hbal. by rewrite !get_balance_update_other.
    + split; [auto|]. split; [done|]. split.
      * by rewrite Hbal, get_balance_update_same.
      * intros u Hu. by rewrite Hbal, get_balance_update_other.
    + split; [auto|]. split; [done|]. split.
      * by rewrite Hbal, get_balance_update_same.
      * intros u Hu. by rewrite Hbal, get_balance_update_other.
  - unfold CoinflipGame.play, CoinflipGame.get_opponent_choice; simpl.
    rewrite Hp; simpl.
    assert (Hnc : CoinflipGame.no_choice ch = false) by (by destruct Hvalid as [-> | ->]).
    rewrite Hnc.
    set (side := CoinflipGame.random_choice (coin rng)).
    set (oc := if decide (ch = Some "heads") then "tails" else "heads").
    set (wn := if decide (default "" ch = side) then Some (MultiplayerGame.creator_id g)
               else if decide (oc = side) then MultiplayerGame.opponent_id g
               else None).
    simpl.
    destruct (settle_and_delete cfg "coinflip_mp"
                (Coinflip {| CoinflipGame.base :=
                               MultiplayerGame.finish g (Flipped side) (Flipped side) wn;
                             CoinflipGame.creator_choice := ch |})
                wn (is_None wn) w) as (w' & Hrun & _ & Hcr & Hbal).
    exists w'. split.
    { unfold show_coinflip_result, bind in *.
      unfold Room.creator_id, Room.opponent_id; simpl. rewrite Hcn, Ho, Hon.
      unfold choice_emoji.
      assert (Hside : side = "heads" ∨ side = "tails")
        by (unfold side; destruct (coin rng); auto).
      assert (Hch : default "" ch = "heads" ∨ default "" ch = "tails")
        by (destruct Hvalid as [-> | ->]; auto).
      assert (Hoc : oc = "heads" ∨ oc = "tails")
        by (unfold oc; destruct (decide _); auto).
      rewrite !decide_True by done. simpl. exact Hrun. }
    split; [done|].
    unfold Room.creator_id, Room.opponent_id, Room.bet in *; simpl in *.
    rewrite Ho in *.
    assert (Hwn : wn = Some (MultiplayerGame.creator_id g) ∨ wn = Some o).
    { unfold wn, oc, side.
      destruct Hvalid as [-> | ->], (coin rng); simpl; auto. }
    destruct Hwn as [Hw|Hw]; rewrite Hw in *; simpl in *.
    + split; [auto|]. split; [done|]. split.
      * by rewrite Hbal, get_balance_update_same.
      * intros u Hu. by rewrite Hbal, get_balance_update_other.
    + split; [auto|]. split; [done|]. split.
      * by rewrite Hbal, get_balance_update_same.
      * intros u Hu. by rewrite Hbal, get_balance_update_other.
Qed.

(** In exact arithmetic the prize is [2 * s * (1 - f / 100)]. The program
    computes it on binary64 floats, in the order of [final_prize], and
    there the two can differ. *)
Lemma final_prize_exact_arithmetic (cfg : Config) (s : Qc) :
  final_prize cfg s = (2 * s * (1 - HOUSE_FEE cfg / hundred))%Qc.
Proof. unfold final_prize, fee_amount, full_prize, Qcdiv. ring. Qed.




(** ** Creating and joining a room *)

Lemma rm_create_room_run (creator : Z) (gt : string) (b : Qc) (w : World) :
  gt = "dice" ∨ gt = "coinflip" ->
  ∃ room,
    rm_create_room creator gt b w =
      (emit (set_room_manager w
               {| RoomManager.active_rooms :=
                    <["ROOM" +:+ pretty (RoomManager.room_counter (room_manager w) + 1)
                      := room]> (RoomManager.active_rooms (room_manager w));
                  RoomManager.room_counter :=
                    RoomManager.room_counter (room_manager w) + 1 |})
            (EvCreateRoom
               ("ROOM" +:+ pretty (RoomManager.room_counter (room_manager w) + 1))
               creator),
       Ok room)
    ∧ Room.room_id room
      = "ROOM" +:+ pretty (RoomManager.room_counter (room_manager w) + 1)
    ∧ Room.creator_id room = creator
    ∧ Room.opponent_id room = None
    ∧ Room.bet room = b
    ∧ Room.game_type room = gt
    ∧ Room.status room = waiting.
Proof.
  intros [-> | ->]; unfold rm_create_room, RoomManager.create_room; simpl;
    eexists; (split; [reflexivity|done]).
Qed.

Lemma rm_join_room_run (rid : string) (room : Room) (opponent : Z) (w : World) :
  RoomManager.get_room (room_manager w) rid = Some room ->
  Room.status room = waiting ->
  Room.creator_id room ≠ opponent ->
  rm_join_room rid opponent w =
    (emit (set_room_manager w
             {| RoomManager.active_rooms :=
                  <[rid := (Room.join room opponent).2]>
                    (RoomManager.active_rooms (room_manager w));
                RoomManager.room_counter := RoomManager.room_counter (room_manager w) |})
          (EvJoinRoom rid opponent), Ok true).
Proof.
  intros Hg Hs Hne. unfold rm_join_room.
  by rewrite (registry_join_waiting _ _ _ _ Hg Hs Hne).
Qed.

(** C3, as stated, fails: the room is created, and the join applied,
    before the stake is debited. Here are the traces of a creation and of
    a join; in neither does the debit come before the registry change. *)
Lemma room_exists_before_debit :
  trace (create_room_with_bet default_config 1 (amount 20) "coinflip"
           (start_world (amount 100) (amount 100))).1
  = [EvGetBalance 1; EvCreateRoom "ROOM1001" 1;
     EvUpdateBalance (Some 1) (- amount 20)]
  ∧ trace coinflip_started
    = [EvGetBalance 1; EvCreateRoom "ROOM1001" 1;
       EvUpdateBalance (Some 1) (- amount 20);
       EvGetBalance 2; EvJoinRoom "ROOM1001" 2;
       EvUpdateBalance (Some 2) (- amount 20)]
  ∧ ¬ (∃ l1 l2 l3 a,
         trace coinflip_started
         = l1 ++ EvUpdateBalance (Some 1) a :: l2 ++ EvCreateRoom "ROOM1001" 1 :: l3)
  ∧ ¬ (∃ l1 l2 l3 a,
         trace coinflip_started
         = l1 ++ EvUpdateBalance (Some 2) a :: l2 ++ EvJoinRoom "ROOM1001" 2 :: l3).
Proof.
  assert (Htr : trace coinflip_started
    = [EvGetBalance 1; EvCreateRoom "ROOM1001" 1;
       EvUpdateBalance (Some 1) (- amount 20);
       EvGetBalance 2; EvJoinRoom "ROOM1001" 2;
       EvUpdateBalance (Some 2) (- amount 20)]) by (vm_compute; reflexivity).
  split; [vm_compute; reflexivity|]. split; [exact Htr|].
  rewrite Htr. split.
  - intros (l1 & l2 & l3 & a & H).
    destruct l1 as [|? [|? [|? [|? [|? [|? [|? l1]]]]]]]; simplify_eq/=;
      destruct l2 as [|? [|? [|? [|? l2]]]]; simplify_eq/=.
  - intros (l1 & l2 & l3 & a & H).
    destruct l1 as [|? [|? [|? [|? [|? [|? [|? l1]]]]]]]; simplify_eq/=;
      destruct l2 as [|? [|? [|? [|? l2]]]]; simplify_eq/=.
Qed.

Lemma db_update_balance_run (uid : Z) (a : Qc) (w : World) :
  db_update_balance (Some uid) a w =
    (emit (set_db w (Database.update_balance (db w) uid a).1)
          (EvUpdateBalance (Some uid) a),
     Ok (Database.update_balance (db w) uid a).2).
Proof.
  unfold db_update_balance. by destruct (Database.update_balance (db w) uid a).
Qed.

(** The effects of a creation and of a join, in their order. *)
Lemma create_join_effects (cfg : Config) (w : World) (user : Z) :
  (∀ b gt,
     (MIN_BET cfg <= b)%Qc -> (b <= MAX_BET cfg)%Qc ->
     gt = "dice" ∨ gt = "coinflip" ->
     ((b <= Database.get_balance (db w) user)%Qc ->
        ∃ w' room,
          create_room_with_bet cfg user b gt w
          = (w', Ok (RoomCreated
                       ("ROOM" +:+ pretty (RoomManager.room_counter (room_manager w) + 1))))
          ∧ trace w' = trace w ++
              [EvGetBalance user;
               EvCreateRoom
                 ("ROOM" +:+ pretty (RoomManager.room_counter (room_manager w) + 1)) user;
               EvUpdateBalance (Some user) (- b)]
          ∧ RoomManager.get_room (room_manager w')
              ("ROOM" +:+ pretty (RoomManager.room_counter (room_manager w) + 1))
            = Some room
          ∧ Room.status room = waiting
          ∧ Room.creator_id room = user
          ∧ Room.bet room = b
          ∧ db w' = (Database.update_balance (db w) user (- b)).1)
     ∧ ((Database.get_balance (db w) user < b)%Qc ->
          create_room_with_bet cfg user b gt w
          = (emit w (EvGetBalance user), Ok InsufficientFunds)))
  ∧ (∀ rid room rng,
       RoomManager.get_room (room_manager w) rid = Some room ->
       Room.room_id room = rid ->
       Room.status room = waiting ->
       Room.creator_id room ≠ user ->
       ((Room.bet room <= Database.get_balance (db w) user)%Qc ->
          ∃ w1,
            join_room cfg user rid rng w
            = (let! _ := start_multiplayer_game cfg (Room.join room user).2 rng in
               ret Joined) w1
            ∧ trace w1 = trace w ++
                [EvGetBalance user; EvJoinRoom rid user;
                 EvUpdateBalance (Some user) (- Room.bet room)]
            ∧ RoomManager.get_room (room_manager w1) rid = Some (Room.join room user).2
            ∧ Room.status (Room.join room user).2 = playing
            ∧ Room.opponent_id (Room.join room user).2 = Some user
            ∧ db w1 = (Database.update_balance (db w) user (- Room.bet room)).1)
       ∧ ((Database.get_balance (db w) user < Room.bet room)%Qc ->
            join_room cfg user rid rng w
            = (emit w (EvGetBalance user), Ok InsufficientFunds))).
Proof.
  split.
  - intros b gt Hmin Hmax Hgt.
    assert (Hrange : ¬ (b < MIN_BET cfg ∨ MAX_BET cfg < b)%Qc).
    { intros [H|H]; [by apply (Qcle_not_lt _ _ Hmin)|by apply (Qcle_not_lt _ _ Hmax)]. }
    split; intros Hfunds; unfold create_room_with_bet;
      rewrite (decide_False _ _ Hrange); unfold bind at 1; unfold db_get_balance.
    + rewrite decide_False by (by apply Qcle_not_lt).
      destruct (rm_create_room_run user gt b (emit w (EvGetBalance user)) Hgt)
        as (room & Hrun & Hid & Hcr & _ & Hbet & _ & Hst).
      unfold bind, catch_ValueError. rewrite Hrun. rewrite db_update_balance_run.
      simpl in *. rewrite Hid.
      eexists _, room. split; [reflexivity|]. simpl.
      rewrite <- !app_assoc. repeat split; try done.
      unfold RoomManager.get_room; simpl. by rewrite lookup_insert_eq.
    + by rewrite (decide_True _ _ Hfunds).
  - intros rid room rng Hg Hid Hst Hne.
    assert (Hw : ¬ Room.status room ≠ waiting) by (intros H; by apply H).
    split; intros Hfunds; unfold join_room; unfold bind at 1;
      unfold rm_get_room; rewrite Hg, (decide_False _ _ Hw);
      unfold bind at 1; unfold db_get_balance.
    + rewrite decide_False by (by apply Qcle_not_lt).
      unfold bind at 1.
      rewrite (rm_join_room_run rid room user (emit w (EvGetBalance user)) Hg Hst Hne).
      unfold bind at 1. rewrite db_update_balance_run.
      unfold bind at 1. unfold deref, RoomManager.get_room. simpl.
      rewrite Hid, lookup_insert_eq. simpl.
      destruct (room_join_waiting room user Hst) as (room' & Hj & Hst' & Hopp' & _).
      eexists. split; [reflexivity|]. simpl.
      rewrite <- !app_assoc, Hj. simpl. repeat split; try done.
      by rewrite lookup_insert_eq.
    + by rewrite (decide_True _ _ Hfunds).
Qed.

(** C3, amended. Creation and join both validate the funds first and do
    nothing else when they do not suffice. When they do, the room is
    created (the join applied) first and the stake debited after it, by a
    call of [update_balance] that cannot fail; the room is in the registry
    (the room is in play with the joiner as opponent) and the balance is
    the old one less the stake. After a join the handler goes on to start
    the game. *)
Theorem registry_change_then_debit (cfg : Config) (w : World) (user : Z) :
  (∀ b gt,
     (MIN_BET cfg <= b)%Qc -> (b <= MAX_BET cfg)%Qc ->
     gt = "dice" ∨ gt = "coinflip" ->
     ((b <= Database.get_balance (db w) user)%Qc ->
        ∃ w' room,
          create_room_with_bet cfg user b gt w
          = (w', Ok (RoomCreated
                       ("ROOM" +:+ pretty (RoomManager.room_counter (room_manager w) + 1))))
          ∧ trace w' = trace w ++
              [EvGetBalance user;
               EvCreateRoom
                 ("ROOM" +:+ pretty (RoomManager.room_counter (room_manager w) + 1)) user;
               EvUpdateBalance (Some user) (- b)]
          ∧ RoomManager.get_room (room_manager w')
              ("ROOM" +:+ pretty (RoomManager.room_counter (room_manager w) + 1))
            = Some room
          ∧ Room.status room = waiting
          ∧ Room.creator_id room = user
          ∧ Room.bet room = b
          ∧ db w' = (Database.update_balance (db w) user (- b)).1)
     ∧ ((Database.get_balance (db w) user < b)%Qc ->
          create_room_with_bet cfg user b gt w
          = (emit w (EvGetBalance user), Ok InsufficientFunds)))
  ∧ (∀ rid room rng,
       RoomManager.get_room (room_manager w) rid = Some room ->
       Room.room_id room = rid ->
       Room.status room = waiting ->
       Room.creator_id room ≠ user ->
       ((Room.bet room <= Database.get_balance (db w) user)%Qc ->
          ∃ w1,
            join_room cfg user rid rng w
            = (let! _ := start_multiplayer_game cfg (Room.join room user).2 rng in
               ret Joined) w1
            ∧ trace w1 = trace w ++
                [EvGetBalance user; EvJoinRoom rid user;
                 EvUpdateBalance (Some user) (- Room.bet room)]
            ∧ RoomManager.get_room (room_manager w1) rid = Some (Room.join room user).2
            ∧ Room.status (Room.join room user).2 = playing
            ∧ Room.opponent_id (Room.join room user).2 = Some user
            ∧ db w1 = (Database.update_balance (db w) user (- Room.bet room)).1)
       ∧ ((Database.get_balance (db w) user < Room.bet room)%Qc ->
            join_room cfg user rid rng w
            = (emit w (EvGetBalance user), Ok InsufficientFunds))).
Proof. exact (create_join_effects cfg w user). Qed.

Lemma registry_change_then_debit_witness :
  (MIN_BET default_config <= amount 10)%Qc
  ∧ (amount 10 <= MAX_BET default_config)%Qc
  ∧ (amount 10 <= Database.get_balance (db (start_world (amount 100) (amount 100))) 1)%Qc
  ∧ ∃ w' room,
      create_room_with_bet default_config 1 (amount 10) "dice"
        (start_world (amount 100) (amount 100))
      = (w', Ok (RoomCreated "ROOM1001"))
      ∧ trace w' = [EvGetBalance 1; EvCreateRoom "ROOM1001" 1;
                    EvUpdateBalance (Some 1) (- amount 10)]
      ∧ RoomManager.get_room (room_manager w') "ROOM1001" = Some room
      ∧ Room.status room = waiting.
Proof.
  assert (H1 : (MIN_BET default_config <= amount 10)%Qc) by (by vm_compute).
  assert (H2 : (amount 10 <= MAX_BET default_config)%Qc) by (by vm_compute).
  assert (H3 : (amount 10 <= Database.get_balance
                               (db (start_world (amount 100) (amount 100))) 1)%Qc)
    by (by vm_compute).
  split; [exact H1|]. split; [exact H2|]. split; [exact H3|].
  destruct (registry_change_then_debit default_config
              (start_world (amount 100) (amount 100)) 1) as [Hcreate _].
  destruct (Hcreate (amount 10) "dice" H1 H2 (or_introl eq_refl)) as [Hok _].
  destruct (Hok H3) as (w' & room & Hrun & Htr & Hg & Hst & _).
  exists w', room. repeat split; assumption.
Defined.

(** ** Rematch *)

Arguments pair_key : simpl never.

Lemma start_coinflip_game (cfg : Config) (room : Room) (rng : Rng) (w : World) :
  Room.game_type room = "coinflip" ->
  start_multiplayer_game cfg room rng w = (w, Ok tt).
Proof. intros H. unfold start_multiplayer_game. by rewrite H. Qed.

(** A request that the balance does not cover changes nothing. *)
Lemma rematch_insufficient_funds (cfg : Config) (w : World) (user : Z) (k : string)
    (s : Qc) (p1 p2 : Z) (rng : Rng) :
  (Database.get_balance (db w) user < s)%Qc ->
  request_rematch cfg user k s p1 p2 rng w
  = (emit w (EvGetBalance user), Ok InsufficientFunds).
Proof.
  intros H. unfold request_rematch. unfold bind at 1. unfold db_get_balance.
  by rewrite (decide_True _ _ H).
Qed.

(** The first request for a pairing is stored. *)
Lemma rematch_first_request (cfg : Config) (w : World) (user : Z) (k : string)
    (s : Qc) (p1 p2 : Z) (rng : Rng) :
  (s <= Database.get_balance (db w) user)%Qc ->
  rematch_requests w !! pair_key p1 p2 k s = None ->
  request_rematch cfg user k s p1 p2 rng w
  = (set_rematch_requests (emit w (EvGetBalance user))
       (<[pair_key p1 p2 k s :=
            {| requester_id := user;
               opponent_id := if decide (user = p1) then p2 else p1;
               game_type := k; bet := s |}]> (rematch_requests w)),
     if db w !! user is Some _ then Ok RematchSent else Raise TypeError).
Proof.
  intros Hf Hnone. unfold request_rematch. unfold bind at 1. unfold db_get_balance.
  rewrite decide_False by (by apply Qcle_not_lt).
  unfold bind at 1. simpl. rewrite Hnone.
  unfold bind, username_of, Database.get_user. simpl.
  by destruct (db w !! user).
Qed.

(** A repeated request of the same user is answered "already waiting". *)
Lemma rematch_repeated_request (cfg : Config) (w : World) (user : Z) (k : string)
    (s : Qc) (p1 p2 : Z) (rng : Rng) (req : RematchRequest) :
  (s <= Database.get_balance (db w) user)%Qc ->
  rematch_requests w !! pair_key p1 p2 k s = Some req ->
  requester_id req = user ->
  request_rematch cfg user k s p1 p2 rng w
  = (emit w (EvGetBalance user), Ok RematchAlreadyWaiting).
Proof.
  intros Hf Hreq Hsame. unfold request_rematch. unfold bind at 1. unfold db_get_balance.
  rewrite decide_False by (by apply Qcle_not_lt).
  unfold bind at 1. simpl. rewrite Hreq.
  rewrite decide_False by (intros H; by apply H). done.
Qed.

(** The request of the other player: the pairing. *)
Lemma rematch_accepted (cfg : Config) (w : World) (user : Z) (k : string)
    (s : Qc) (p1 p2 : Z) (rng : Rng) (req : RematchRequest) :
  (s <= Database.get_balance (db w) user)%Qc ->
  rematch_requests w !! pair_key p1 p2 k s = Some req ->
  requester_id req ≠ user ->
  k = "dice" ∨ k = "coinflip" ->
  ∃ w2 room,
    request_rematch cfg user k s p1 p2 rng w
    = (let! _ := start_multiplayer_game cfg room rng in ret RematchStarted) w2
    ∧ trace w2 = trace w ++
        [EvGetBalance user;
         EvCreateRoom ("ROOM" +:+ pretty (RoomManager.room_counter (room_manager w) + 1))
           (requester_id req);
         EvJoinRoom ("ROOM" +:+ pretty (RoomManager.room_counter (room_manager w) + 1))
           user]
    ∧ rematch_requests w2 = delete (pair_key p1 p2 k s) (rematch_requests w)
    ∧ db w2 = db w
    ∧ RoomManager.active_rooms (room_manager w2)
      = <["ROOM" +:+ pretty (RoomManager.room_counter (room_manager w) + 1) := room]>
          (RoomManager.active_rooms (room_manager w))
    ∧ RoomManager.room_counter (room_manager w2)
      = RoomManager.room_counter (room_manager w) + 1
    ∧ Room.room_id room
      = "ROOM" +:+ pretty (RoomManager.room_counter (room_manager w) + 1)
    ∧ Room.creator_id room = requester_id req
    ∧ Room.opponent_id room = Some user
    ∧ Room.status room = playing
    ∧ Room.bet room = s
    ∧ Room.game_type room = k.
Proof.
  intros Hf Hreq Hother Hk. unfold request_rematch. unfold bind at 1. unfold db_get_balance.
  rewrite decide_False by (by apply Qcle_not_lt).
  unfold bind at 1. simpl. rewrite Hreq. rewrite (decide_True _ _ Hother).
  unfold bind at 1. unfold accept_rematch. unfold bind at 1. unfold bind at 1.
  set (w0 := set_rematch_requests (emit w (EvGetBalance user))
               (delete (pair_key p1 p2 k s) (rematch_requests (emit w (EvGetBalance user))))).
  destruct (rm_create_room_run (requester_id req) k s w0 Hk)
    as (room & Hrun & Hid & Hcr & Hopp & Hbet & Hgt & Hst).
  rewrite Hrun. unfold bind at 1.
  erewrite rm_join_room_run; [|by (unfold RoomManager.get_room; simpl; rewrite Hid;
                                    apply lookup_insert_eq)|done|by rewrite Hcr].
  unfold deref, RoomManager.get_room. simpl. simpl in Hid. rewrite !Hid.
  rewrite lookup_insert_eq. simpl.
  destruct (room_join_waiting room user Hst)
    as (room' & Hj & Hst' & Hopp' & Hcr' & Hid' & Hbet' & Hgt').
  rewrite Hj. simpl.
  eexists _, room'. split; [reflexivity|]. simpl.
  rewrite <- !app_assoc, insert_insert_eq.
  repeat split; try done; congruence.
Qed.

Lemma keeps_bind {A B} (m : M A) (k : A -> M B) :
  keeps_requests m -> (∀ a, keeps_requests (k a)) -> keeps_requests (bind m k).
Proof.
  intros Hm Hk w. unfold bind. specialize (Hm w).
  destruct (m w) as [w1 [a|e]]; simpl in *; [|done].
  by rewrite Hk.
Qed.

Lemma keeps_ret {A} (a : A) : keeps_requests (ret a).
Proof. done. Qed.

Lemma keeps_raise {A} (e : Exn) : keeps_requests (@raise A e).
Proof. done. Qed.

Lemma keeps_username_of (uid : option Z) : keeps_requests (username_of uid).
Proof. intros w. unfold username_of. by destruct (uid ≫= _). Qed.

Lemma keeps_update_balance (uid : option Z) (a : Qc) :
  keeps_requests (db_update_balance uid a).
Proof.
  intros w. unfold db_update_balance. destruct uid; [|done].
  by destruct (Database.update_balance _ _ _).
Qed.

Lemma keeps_add_history (uid : option Z) (gt : string) (b win : Qc) (res : string) :
  keeps_requests (db_add_game_to_history uid gt b win res).
Proof. intros w. unfold db_add_game_to_history. by destruct uid. Qed.

Lemma keeps_delete_room (rid : string) : keeps_requests (rm_delete_room rid).
Proof.
  intros w. unfold rm_delete_room.
  destruct (RoomManager.delete_room _ _) as [[] rm]; done.
Qed.

Lemma keeps_room_play (room : Room) (rng : Rng) : keeps_requests (room_play room rng).
Proof.
  unfold room_play. destruct (Room.play room rng) as [res room'].
  apply keeps_bind; [done|]. intros _. apply keeps_ret.
Qed.

Lemma keeps_settle (cfg : Config) (kind : string) (room : Room) (winner : option Z)
    (is_draw : bool) : keeps_requests (settle cfg kind room winner is_draw).
Proof.
  unfold settle. destruct is_draw;
    repeat (apply keeps_bind; [|intros ?]);
    auto using keeps_update_balance, keeps_add_history.
Qed.

Lemma keeps_show_dice_result (cfg : Config) (room : Room) (res : PlayResult) :
  keeps_requests (show_dice_result cfg room res).
Proof.
  unfold show_dice_result.
  repeat (apply keeps_bind; [apply keeps_username_of|intros ?]).
  destruct res; try apply keeps_raise.
  unfold dice_emoji.
  repeat (apply keeps_bind; [|intros ?]);
    try (destruct (decide _); [apply keeps_ret|apply keeps_raise]);
    auto using keeps_settle, keeps_delete_room, keeps_ret.
Qed.

(** Starting a game leaves the rematch requests alone. *)
Lemma start_game_keeps_requests (cfg : Config) (room : Room) (rng : Rng) :
  keeps_requests (start_multiplayer_game cfg room rng).
Proof.
  unfold start_multiplayer_game.
  destruct (decide _); [|destruct (decide _); apply keeps_ret].
  unfold animate_dice_game.
  repeat (apply keeps_bind; [apply keeps_username_of|intros ?]).
  apply keeps_bind; [apply keeps_room_play|]. intros [res room'].
  apply keeps_show_dice_result.
Qed.

(** C9. A player presses the rematch button twice in a row while no
    request of the other player is outstanding for the pairing key. The
    second call changes nothing: store, registry and rematch requests are
    those the first call left (it only reads the balance). When the
    balance covers the stake, the second call answers "already waiting"
    and the key holds one request, the player's; if there was none before,
    the requests are the old ones plus that single entry. *)
Theorem rematch_request_idempotent (cfg : Config) (w : World) (A : Z) (k : string)
    (s : Qc) (p1 p2 : Z) (rng rng' : Rng) :
  (∀ req, rematch_requests w !! pair_key p1 p2 k s = Some req -> requester_id req = A) ->
  db (request_rematch cfg A k s p1 p2 rng'
        (request_rematch cfg A k s p1 p2 rng w).1).1
  = db (request_rematch cfg A k s p1 p2 rng w).1
  ∧ room_manager (request_rematch cfg A k s p1 p2 rng'
                    (request_rematch cfg A k s p1 p2 rng w).1).1
    = room_manager (request_rematch cfg A k s p1 p2 rng w).1
  ∧ rematch_requests (request_rematch cfg A k s p1 p2 rng'
                        (request_rematch cfg A k s p1 p2 rng w).1).1
    = rematch_requests (request_rematch cfg A k s p1 p2 rng w).1
  ∧ trace (request_rematch cfg A k s p1 p2 rng'
             (request_rematch cfg A k s p1 p2 rng w).1).1
    = trace (request_rematch cfg A k s p1 p2 rng w).1 ++ [EvGetBalance A]
  ∧ ((s <= Database.get_balance (db w) A)%Qc ->
       (request_rematch cfg A k s p1 p2 rng'
          (request_rematch cfg A k s p1 p2 rng w).1).2 = Ok RematchAlreadyWaiting
       ∧ (∃ req,
            rematch_requests (request_rematch cfg A k s p1 p2 rng'
                                (request_rematch cfg A k s p1 p2 rng w).1).1
              !! pair_key p1 p2 k s = Some req
            ∧ requester_id req = A)
       ∧ (rematch_requests w !! pair_key p1 p2 k s = None ->
            rematch_requests (request_rematch cfg A k s p1 p2 rng'
                                (request_rematch cfg A k s p1 p2 rng w).1).1
            = <[pair_key p1 p2 k s :=
                  {| requester_id := A;
                     opponent_id := if decide (A = p1) then p2 else p1;
                     game_type := k; bet := s |}]> (rematch_requests w)
            ∧ size (rematch_requests (request_rematch cfg A k s p1 p2 rng'
                                        (request_rematch cfg A k s p1 p2 rng w).1).1)
              = S (size (rematch_requests w)))).
Proof.
  intros Hown.
  destruct (decide (Database.get_balance (db w) A < s)%Qc) as [Hlow|Hok].
  - rewrite (rematch_insufficient_funds cfg w A k s p1 p2 rng Hlow). simpl.
    rewrite rematch_insufficient_funds by done. simpl.
    do 4 (split; [done|]). intros Hf. by apply Qcle_not_lt in Hf.
  - apply Qcnot_lt_le in Hok.
    destruct (rematch_requests w !! pair_key p1 p2 k s) as [req|] eqn:Hreq.
    + rewrite (rematch_repeated_request cfg w A k s p1 p2 rng req Hok Hreq (Hown _ eq_refl)).
      simpl.
      rewrite (rematch_repeated_request cfg _ A k s p1 p2 rng' req)
        by (simpl; auto).
      simpl. do 4 (split; [done|]). intros _.
      split; [done|]. split; [by exists req; auto|]. intros; done.
    + rewrite (rematch_first_request cfg w A k s p1 p2 rng Hok Hreq). simpl.
      erewrite (rematch_repeated_request cfg _ A k s p1 p2 rng');
        [|exact Hok|apply lookup_insert_eq|reflexivity].
      simpl. do 4 (split; [done|]). intros _.
      split; [done|]. split.
      * eexists. split; [apply lookup_insert_eq|done].
      * intros _. split; [done|]. by apply map_size_insert_None.
Qed.

Lemma rematch_request_idempotent_witness :
  (amount 20 <= Database.get_balance (db (start_world (amount 100) (amount 100))) 1)%Qc
  ∧ (request_rematch default_config 1 "dice" (amount 20) 1 2 sample_rng
       (request_rematch default_config 1 "dice" (amount 20) 1 2 sample_rng
          (start_world (amount 100) (amount 100))).1).2 = Ok RematchAlreadyWaiting
  ∧ size (rematch_requests
            (request_rematch default_config 1 "dice" (amount 20) 1 2 sample_rng
               (request_rematch default_config 1 "dice" (amount 20) 1 2 sample_rng
                  (start_world (amount 100) (amount 100))).1).1) = 1%nat.
Proof.
  assert (H1 : (amount 20 <= Database.get_balance
                               (db (start_world (amount 100) (amount 100))) 1)%Qc)
    by (by vm_compute).
  split; [exact H1|].
  destruct (rematch_request_idempotent default_config
              (start_world (amount 100) (amount 100)) 1 "dice" (amount 20) 1 2
              sample_rng sample_rng) as (_ & _ & _ & _ & Hfunds).
  { intros req Hreq. discriminate Hreq. }
  destruct (Hfunds H1) as (Hreply & _ & Hfresh).
  split; [exact Hreply|].
  destruct (Hfresh eq_refl) as [_ Hsize]. exact Hsize.
Defined.

(** * Further properties *)

(** ** Room objects over their whole life *)

Lemma method_call_keeps (room room' : Room) :
  method_call room room' ->
  Room.room_id room' = Room.room_id room
  ∧ Room.creator_id room' = Room.creator_id room
  ∧ Room.bet room' = Room.bet room
  ∧ Room.game_type room' = Room.game_type room
  ∧ (status_rank (Room.status room) <= status_rank (Room.status room'))%nat
  ∧ (Room.status room ≠ waiting -> Room.opponent_id room' = Room.opponent_id room).
Proof.
  intros [r o|g ch|r rng].
  - destruct (decide (Room.status r = waiting)) as [Hw|Hw].
    + destruct (room_join_waiting r o Hw) as (r' & Hj & Hs & _ & Hc & Hi & Hb & Hg).
      rewrite Hj; simpl. rewrite Hs, Hw. repeat split; try done. simpl; lia.
    + rewrite (room_join_not_waiting _ _ Hw). simpl. repeat split; done.
  - repeat split; done.
  - destruct r as [g|[g c]]; unfold Room.room_id, Room.creator_id, Room.bet,
      Room.game_type, Room.status, Room.opponent_id; simpl.
    + unfold DiceGame.play. destruct (decide _) as [Hp|]; simpl; [|done].
      rewrite Hp. repeat split; try done. simpl; lia.
    + unfold CoinflipGame.play; simpl. destruct (decide _) as [Hp|]; simpl; [|done].
      destruct (CoinflipGame.no_choice c); simpl; [done|].
      rewrite Hp. repeat split; try done. simpl; lia.
Qed.

(** X1. Whatever methods are called on a room, in whatever order, its id,
    creator, stake and game type stay what the constructor set, and its
    status never moves back (waiting, then playing, then finished). *)
Theorem room_identity_and_status_order (room room' : Room) :
  rtc method_call room room' ->
  Room.room_id room' = Room.room_id room
  ∧ Room.creator_id room' = Room.creator_id room
  ∧ Room.bet room' = Room.bet room
  ∧ Room.game_type room' = Room.game_type room
  ∧ (status_rank (Room.status room) <= status_rank (Room.status room'))%nat.
Proof.
  induction 1 as [r|r1 r2 r3 Hcall _ IH]; [done|].
  destruct (method_call_keeps _ _ Hcall) as (Hi & Hc & Hb & Hg & Hs & _).
  destruct IH as (Hi' & Hc' & Hb' & Hg' & Hs').
  repeat split; try congruence. lia.
Qed.

Lemma room_identity_and_status_order_witness :
  rtc method_call waiting_dice (Room.play (Room.join waiting_dice 2).2 sample_rng).2
  ∧ Room.creator_id (Room.play (Room.join waiting_dice 2).2 sample_rng).2 = 1
  ∧ Room.status (Room.play (Room.join waiting_dice 2).2 sample_rng).2 = finished.
Proof.
  assert (H : rtc method_call waiting_dice
                (Room.play (Room.join waiting_dice 2).2 sample_rng).2).
  { eapply rtc_l; [apply (call_join waiting_dice 2)|].
    eapply rtc_l; [apply (call_play _ sample_rng)|]. apply rtc_refl. }
  split; [exact H|].
  destruct (room_identity_and_status_order _ _ H) as (_ & Hc & _).
  split; [exact Hc|reflexivity].
Defined.

(** X2. Once a room has left [waiting], no later method call changes its
    opponent: the first successful join decides who plays. *)
Theorem opponent_fixed_after_join (room room' : Room) :
  Room.status room ≠ waiting ->
  rtc method_call room room' ->
  Room.opponent_id room' = Room.opponent_id room
  ∧ Room.status room' ≠ waiting.
Proof.
  intros Hw Hcalls. induction Hcalls as [r|r1 r2 r3 Hcall _ IH]; [done|].
  destruct (method_call_keeps _ _ Hcall) as (_ & _ & _ & _ & Hs & Ho).
  assert (Hw2 : Room.status r2 ≠ waiting).
  { intros H2. rewrite H2 in Hs. destruct (Room.status r1); simpl in Hs; [done|lia|lia]. }
  destruct (IH Hw2) as [Ho3 Hw3]. split; [|done]. rewrite Ho3. by apply Ho.
Qed.

Lemma opponent_fixed_after_join_witness :
  Room.status (Dice joined_dice) ≠ waiting
  ∧ rtc method_call (Dice joined_dice) (Room.join (Dice joined_dice) 7).2
  ∧ Room.opponent_id (Room.join (Dice joined_dice) 7).2 = Some 2.
Proof.
  assert (Hw : Room.status (Dice joined_dice) ≠ waiting) by done.
  assert (H : rtc method_call (Dice joined_dice) (Room.join (Dice joined_dice) 7).2).
  { eapply rtc_l; [apply (call_join _ 7)|apply rtc_refl]. }
  split; [exact Hw|]. split; [exact H|].
  exact (proj1 (opponent_fixed_after_join _ _ Hw H)).
Defined.

(** X3. A coinflip room in play whose stored choice is neither "heads"
    nor "tails" (and not empty): the opponent is given "heads", so the
    creator cannot win; the opponent wins when the coin shows heads, and
    tails ends in the branch without a winner, reported as a draw. *)
Theorem coinflip_invalid_choice (g : CoinflipGame.t) (c : string) (coin : bool) :
  MultiplayerGame.status (CoinflipGame.base g) = playing ->
  CoinflipGame.creator_choice g = Some c ->
  c ≠ "" -> c ≠ "heads" -> c ≠ "tails" ->
  (CoinflipGame.play g coin).1
  = CoinflipResult (CoinflipGame.random_choice coin) c "heads"
      (if coin then MultiplayerGame.opponent_id (CoinflipGame.base g) else None)
      (if coin then is_None (MultiplayerGame.opponent_id (CoinflipGame.base g)) else true)
  ∧ MultiplayerGame.status (CoinflipGame.base (CoinflipGame.play g coin).2) = finished.
Proof.
  intros Hp Hc Hne Hh Ht.
  unfold CoinflipGame.play, CoinflipGame.get_opponent_choice, CoinflipGame.no_choice.
  rewrite Hp, Hc.
  rewrite (decide_True (P := playing = playing)) by done.
  rewrite bool_decide_eq_false_2 by done.
  rewrite (decide_False (P := Some c = Some "heads")) by congruence.
  cbn [default from_option].
  destruct coin; cbn [CoinflipGame.random_choice].
  - rewrite (decide_False (P := c = "heads")) by done.
    rewrite (decide_True (P := "heads" = "heads")) by done. done.
  - rewrite (decide_False (P := c = "tails")) by done.
    rewrite (decide_False (P := "heads" = "tails")) by done. done.
Qed.

Lemma coinflip_invalid_choice_witness :
  (CoinflipGame.play (CoinflipGame.set_creator_choice joined_coinflip "Edge") false).1
  = CoinflipResult "tails" "edge" "heads" None true.
Proof.
  exact (proj1 (coinflip_invalid_choice
                  (CoinflipGame.set_creator_choice joined_coinflip "Edge") "edge" false
                  eq_refl eq_refl ltac:(done) ltac:(done) ltac:(done))).
Defined.

(** X4. [play] on a coinflip room in play without a choice (none, or the
    empty string) is refused and the room stays in play, unchanged; once a
    side is chosen the next [play] finishes the game. *)
Theorem coinflip_play_needs_choice (g : CoinflipGame.t) (coin coin' : bool)
    (side : string) :
  MultiplayerGame.status (CoinflipGame.base g) = playing ->
  CoinflipGame.creator_choice g = None ∨ CoinflipGame.creator_choice g = Some "" ->
  lower side ≠ "" ->
  CoinflipGame.play g coin = (PlayError "Creator must make a choice", g)
  ∧ MultiplayerGame.status
      (CoinflipGame.base
         (CoinflipGame.play (CoinflipGame.set_creator_choice g side) coin').2)
    = finished.
Proof.
  intros Hp Hc Hside. split.
  - unfold CoinflipGame.play. rewrite Hp. simpl.
    by destruct Hc as [-> | ->].
  - unfold CoinflipGame.play. simpl. rewrite Hp. simpl.
    by rewrite bool_decide_eq_false_2.
Qed.

Lemma coinflip_play_needs_choice_witness :
  CoinflipGame.play joined_coinflip true
  = (PlayError "Creator must make a choice", joined_coinflip)
  ∧ MultiplayerGame.status
      (CoinflipGame.base
         (CoinflipGame.play (CoinflipGame.set_creator_choice joined_coinflip "tails")
            true).2) = finished.
Proof.
  exact (coinflip_play_needs_choice joined_coinflip true true "tails"
           eq_refl (or_introl eq_refl) ltac:(done)).
Defined.

(** ** The registry over its whole life *)

Lemma foldl_delete_lookup (ids : list string) (rooms : gmap string Room) (rid : string) :
  foldl (fun m i => delete i m) rooms ids !! rid
  = if decide (rid ∈ ids) then None else rooms !! rid.
Proof.
  revert rooms. induction ids as [|i ids IH]; intros rooms.
  - destruct (decide (rid ∈ [])) as [Hin|_]; [by apply not_elem_of_nil in Hin|done].
  - cbn [foldl]. rewrite IH.
    destruct (decide (rid ∈ ids)) as [Hin|Hin].
    + destruct (decide (rid ∈ i :: ids)) as [|Hn]; [done|]. exfalso. apply Hn. by right.
    + destruct (decide (rid = i)) as [->|Hne].
      * rewrite lookup_delete_eq.
        destruct (decide (i ∈ i :: ids)) as [|Hn]; [done|]. exfalso. apply Hn. by left.
      * rewrite lookup_delete_ne by done.
        destruct (decide (rid ∈ i :: ids)) as [Hin'|]; [|done].
        apply elem_of_cons in Hin' as [?|?]; done.
Qed.

Lemma cleanup_lookup (rm : RoomManager.t) (rid : string) :
  RoomManager.active_rooms (cleanup_finished_rooms rm) !! rid
  = match RoomManager.active_rooms rm !! rid with
    | Some room => if decide (Room.status room = finished) then None else Some room
    | None => None
    end.
Proof.
  unfold cleanup_finished_rooms; simpl. rewrite foldl_delete_lookup.
  destruct (RoomManager.active_rooms rm !! rid) as [room|] eqn:Hl.
  - destruct (decide (Room.status room = finished)) as [Hf|Hf].
    + rewrite decide_True; [done|].
      apply list_elem_of_fmap. exists (rid, room). split; [done|].
      apply list_elem_of_filter. split; [done|]. by apply elem_of_map_to_list.
    + rewrite decide_False; [done|].
      intros Hin. apply list_elem_of_fmap in Hin as [[rid' room'] [Heq Hin]].
      simpl in Heq; subst rid'.
      apply list_elem_of_filter in Hin as [Hfin Hin]. simpl in Hfin.
      apply elem_of_map_to_list in Hin. congruence.
  - by destruct (decide _).
Qed.

Lemma built_stored_ok (rm : RoomManager.t) :
  built rm ->
  1000 <= RoomManager.room_counter rm
  ∧ ∀ rid room, RoomManager.active_rooms rm !! rid = Some room ->
                stored_ok (RoomManager.room_counter rm) rid room.
Proof.
  induction 1 as [|rm creator gt b _ [Hn IH]|rm rid o _ [Hn IH]|rm rid _ [Hn IH]
                  |rm _ [Hn IH]|rm rid room rng _ [Hn IH] Hg
                  |rm rid g ch _ [Hn IH] Hg].
  - split; [done|]. intros rid room H. simpl in H. by rewrite lookup_empty in H.
  - assert (Hold : ∀ rid room, RoomManager.active_rooms rm !! rid = Some room ->
                     stored_ok (RoomManager.room_counter rm + 1) rid room).
    { intros rid room Hl. destruct (IH _ _ Hl) as (Hi & (k & Hk & Hr) & Hrest).
      split; [done|]. split; [|done]. exists k. split; [done|lia]. }
    unfold RoomManager.create_room; simpl.
    destruct (decide (gt = "dice")) as [->|Hd]; simpl.
    { split; [lia|]. intros rid room Hl.
      apply lookup_insert_Some in Hl as [[<- <-]|[_ Hl]]; [|by apply Hold].
      split; [done|]. split; [exists (RoomManager.room_counter rm + 1); split; [done|lia]|].
      done. }
    destruct (decide (gt = "coinflip")) as [->|Hc]; simpl.
    { split; [lia|]. intros rid room Hl.
      apply lookup_insert_Some in Hl as [[<- <-]|[_ Hl]]; [|by apply Hold].
      split; [done|]. split; [exists (RoomManager.room_counter rm + 1); split; [done|lia]|].
      done. }
    split; [lia|exact Hold].
  - unfold RoomManager.join_room, RoomManager.get_room.
    destruct (RoomManager.active_rooms rm !! rid) as [room|] eqn:Hl; simpl; [|done].
    destruct (decide (Room.creator_id room = o)) as [Heq|Hne]; simpl; [done|].
    destruct (Room.join room o) as [ok room'] eqn:Hj. simpl. split; [done|].
    intros rid' r Hl'.
    apply lookup_insert_Some in Hl' as [[<- <-]|[_ Hl']]; [|by apply IH].
    destruct (IH _ _ Hl) as (Hi & Hk & Ho & Hw & Hc).
    destruct (decide (Room.status room = waiting)) as [Hs|Hs].
    + destruct (room_join_waiting room o Hs) as (r' & Hj' & Hs' & Ho' & Hc' & Hi' & _ & Hg').
      rewrite Hj in Hj'. injection Hj' as _ <-.
      split; [congruence|]. split; [done|]. split; [rewrite Ho', Hc'; congruence|].
      split; [rewrite Hs', Ho'; split; done|].
      destruct room as [g|[g c]]; unfold Room.join in Hj; simpl in *;
        unfold CoinflipGame.join, MultiplayerGame.join in Hj; simpl in Hj;
        unfold Room.status in Hs; simpl in Hs; rewrite Hs in Hj; simpl in Hj;
        injection Hj as _ <-; done.
    + rewrite (room_join_not_waiting _ _ Hs) in Hj. injection Hj as _ <-. by apply IH.
  - unfold RoomManager.delete_room.
    destruct (RoomManager.active_rooms rm !! rid) eqn:Hl; simpl; [|done].
    split; [done|]. intros rid' r' Hl'.
    apply lookup_delete_Some in Hl' as [_ Hl']. by apply IH.
  - split; [done|]. intros rid room Hl. rewrite cleanup_lookup in Hl.
    destruct (RoomManager.active_rooms rm !! rid) as [r|] eqn:Hr; [|done].
    destruct (decide _); [done|]. injection Hl as <-. by apply IH.
  - split; [done|]. intros rid' r Hl'. simpl in Hl'.
    apply lookup_insert_Some in Hl' as [[<- <-]|[_ Hl']]; [|by apply IH].
    destruct (IH _ _ Hg) as (Hi & Hk & Ho & Hw & Hc).
    destruct (method_call_keeps _ _ (call_play room rng)) as (Hi' & Hc' & _ & _ & Hs' & Ho').
    destruct (decide (Room.status room = playing)) as [Hp|Hnp];
      [|by rewrite (room_play_not_playing _ _ Hnp)].
    destruct (room_play_finishes room rng) as [[msg Hm]|Hf].
    { rewrite Hm. simpl. done. }
    assert (Hnw : Room.status room ≠ waiting) by (by rewrite Hp).
    split; [congruence|]. split; [done|].
    split; [rewrite (Ho' Hnw), Hc'; done|].
    split.
    + rewrite Hf, (Ho' Hnw). split; [done|]. intros Hnone. by apply Hw in Hnone.
    + destruct room as [g|[g c]]; simpl in *.
      * unfold DiceGame.play. by destruct (decide _).
      * unfold CoinflipGame.play; simpl. destruct (decide _); [|done].
        by destruct (CoinflipGame.no_choice c).
  - split; [done|]. intros rid' r Hl'. simpl in Hl'.
    apply lookup_insert_Some in Hl' as [[<- <-]|[_ Hl']]; [|by apply IH].
    destruct (IH _ _ Hg) as (Hi & Hk & Ho & Hw & Hc). done.
Qed.

(** X5. In every registry the program can build, a room is stored under
    its own id, its opponent is never its creator, and it is waiting
    exactly when it has no opponent. *)
Theorem stored_rooms_well_formed (rm : RoomManager.t) (rid : string) (room : Room) :
  built rm ->
  RoomManager.get_room rm rid = Some room ->
  Room.room_id room = rid
  ∧ Room.opponent_id room ≠ Some (Room.creator_id room)
  ∧ (Room.status room = waiting <-> Room.opponent_id room = None).
Proof.
  intros Hb Hg. destruct (built_stored_ok rm Hb) as [_ H].
  destruct (H _ _ Hg) as (Hi & _ & Ho & Hw & _). done.
Qed.

Lemma stored_rooms_well_formed_witness :
  built one_room
  ∧ RoomManager.get_room one_room "ROOM1001" = Some waiting_dice
  ∧ Room.room_id waiting_dice = "ROOM1001"
  ∧ Room.opponent_id waiting_dice ≠ Some (Room.creator_id waiting_dice).
Proof.
  assert (Hb : built one_room)
    by exact (built_create RoomManager.init 1 "dice" (amount 10) built_init).
  split; [exact Hb|]. split; [reflexivity|].
  destruct (stored_rooms_well_formed one_room "ROOM1001" waiting_dice Hb eq_refl)
    as (Hi & Ho & _).
  split; [exact Hi|exact Ho].
Defined.

(** The id [create_room] issues is not in use. *)
Lemma create_room_fresh (rm : RoomManager.t) (creator : Z) (gt : string) (b : Qc) :
  built rm ->
  gt = "dice" ∨ gt = "coinflip" ->
  ∃ room,
    (RoomManager.create_room rm creator gt b).2 = Some room
    ∧ Room.room_id room = "ROOM" +:+ pretty (RoomManager.room_counter rm + 1)
    ∧ RoomManager.get_room rm (Room.room_id room) = None
    ∧ RoomManager.active_rooms (RoomManager.create_room rm creator gt b).1
      = <[Room.room_id room := room]> (RoomManager.active_rooms rm)
    ∧ size (RoomManager.active_rooms (RoomManager.create_room rm creator gt b).1)
      = S (size (RoomManager.active_rooms rm))
    ∧ (∀ rid other, RoomManager.get_room rm rid = Some other ->
         RoomManager.get_room (RoomManager.create_room rm creator gt b).1 rid
         = Some other).
Proof.
  intros Hb Hgt. destruct (built_stored_ok rm Hb) as [_ Hok].
  assert (Hfresh : RoomManager.active_rooms rm
                     !! ("ROOM" +:+ pretty (RoomManager.room_counter rm + 1)) = None).
  { destruct (RoomManager.active_rooms rm
                !! ("ROOM" +:+ pretty (RoomManager.room_counter rm + 1)))
      as [r|] eqn:Hl; [|done].
    destruct (Hok _ _ Hl) as (_ & (k & Hk & Hr) & _).
    simpl in Hk. injection Hk as Hk. apply pretty_Z_inj in Hk. exfalso. lia. }
  assert (Hother : ∀ room rid other,
            RoomManager.active_rooms rm !! rid = Some other ->
            <["ROOM" +:+ pretty (RoomManager.room_counter rm + 1) := room]>
              (RoomManager.active_rooms rm) !! rid = Some other).
  { intros room rid other Hl. rewrite lookup_insert_ne; [done|]. congruence. }
  unfold RoomManager.create_room, RoomManager.get_room; simpl.
  destruct Hgt as [-> | ->]; simpl; eexists; (split; [reflexivity|]);
    (split; [reflexivity|]); (split; [exact Hfresh|]); (split; [reflexivity|]);
    (split; [by apply map_size_insert_None|by apply Hother]).
Qed.

(** X6. In a registry the program can build, the id [create_room] issues
    is held by no stored room, also after deletions: the new room is added,
    nothing is replaced, and the number of rooms grows by one. *)
Theorem create_room_fresh_id (rm : RoomManager.t) (creator : Z) (gt : string) (b : Qc) :
  built rm ->
  gt = "dice" ∨ gt = "coinflip" ->
  ∃ room,
    (RoomManager.create_room rm creator gt b).2 = Some room
    ∧ Room.room_id room = "ROOM" +:+ pretty (RoomManager.room_counter rm + 1)
    ∧ RoomManager.get_room rm (Room.room_id room) = None
    ∧ RoomManager.active_rooms (RoomManager.create_room rm creator gt b).1
      = <[Room.room_id room := room]> (RoomManager.active_rooms rm)
    ∧ size (RoomManager.active_rooms (RoomManager.create_room rm creator gt b).1)
      = S (size (RoomManager.active_rooms rm))
    ∧ (∀ rid other, RoomManager.get_room rm rid = Some other ->
         RoomManager.get_room (RoomManager.create_room rm creator gt b).1 rid
         = Some other).
Proof. exact (create_room_fresh rm creator gt b). Qed.

Lemma create_room_fresh_id_witness :
  built (RoomManager.delete_room one_room "ROOM1001").2
  ∧ ∃ room,
      (RoomManager.create_room (RoomManager.delete_room one_room "ROOM1001").2
         2 "coinflip" (amount 5)).2 = Some room
      ∧ Room.room_id room = "ROOM1002".
Proof.
  assert (Hb : built (RoomManager.delete_room one_room "ROOM1001").2).
  { apply built_delete.
    exact (built_create RoomManager.init 1 "dice" (amount 10) built_init). }
  split; [exact Hb|].
  destruct (create_room_fresh_id _ 2 "coinflip" (amount 5) Hb (or_intror eq_refl))
    as (room & Hr & Hid & _).
  exists room. split; [exact Hr|exact Hid].
Defined.

(** What [delete_room] returns and leaves. *)
Lemma delete_room_facts (rm : RoomManager.t) (rid : string) :
  (RoomManager.delete_room rm rid).1 = bool_decide (is_Some (RoomManager.get_room rm rid))
  ∧ RoomManager.get_room (RoomManager.delete_room rm rid).2 rid = None
  ∧ (∀ other, other ≠ rid ->
       RoomManager.get_room (RoomManager.delete_room rm rid).2 other
       = RoomManager.get_room rm other)
  ∧ RoomManager.room_counter (RoomManager.delete_room rm rid).2
    = RoomManager.room_counter rm
  ∧ RoomManager.delete_room (RoomManager.delete_room rm rid).2 rid
    = (false, (RoomManager.delete_room rm rid).2).
Proof.
  unfold RoomManager.delete_room, RoomManager.get_room.
  destruct (RoomManager.active_rooms rm !! rid) as [room|] eqn:Hl; simpl.
  - rewrite lookup_delete_eq. repeat split; try done.
    intros other Hne. by rewrite lookup_delete_ne.
  - rewrite Hl. repeat split; done.
Qed.

(** X7. [delete_room] returns [True] exactly when the id is stored; after
    it the id is free, every other room and the counter are as before, and
    deleting again returns [False] and changes nothing. *)
Theorem delete_room_spec (rm : RoomManager.t) (rid : string) :
  (RoomManager.delete_room rm rid).1 = bool_decide (is_Some (RoomManager.get_room rm rid))
  ∧ RoomManager.get_room (RoomManager.delete_room rm rid).2 rid = None
  ∧ (∀ other, other ≠ rid ->
       RoomManager.get_room (RoomManager.delete_room rm rid).2 other
       = RoomManager.get_room rm other)
  ∧ RoomManager.room_counter (RoomManager.delete_room rm rid).2
    = RoomManager.room_counter rm
  ∧ RoomManager.delete_room (RoomManager.delete_room rm rid).2 rid
    = (false, (RoomManager.delete_room rm rid).2).
Proof. exact (delete_room_facts rm rid). Qed.

(** X8. [cleanup_finished_rooms] removes the finished rooms and only
    them: a room that is not finished stays stored as it is, no finished
    room stays, the counter is kept, and a second cleanup finds nothing
    to remove. *)
Theorem cleanup_removes_finished (rm : RoomManager.t) :
  (∀ rid room, RoomManager.get_room rm rid = Some room ->
     Room.status room ≠ finished ->
     RoomManager.get_room (cleanup_finished_rooms rm) rid = Some room)
  ∧ (∀ rid room, RoomManager.get_room (cleanup_finished_rooms rm) rid = Some room ->
       Room.status room ≠ finished ∧ RoomManager.get_room rm rid = Some room)
  ∧ RoomManager.room_counter (cleanup_finished_rooms rm) = RoomManager.room_counter rm
  ∧ cleanup_finished_rooms (cleanup_finished_rooms rm) = cleanup_finished_rooms rm.
Proof.
  unfold RoomManager.get_room. split; [|split; [|split]].
  - intros rid room Hl Hs. rewrite cleanup_lookup, Hl. by rewrite decide_False.
  - intros rid room Hl. rewrite cleanup_lookup in Hl.
    destruct (RoomManager.active_rooms rm !! rid) as [r|]; [|done].
    destruct (decide _); [done|]. by injection Hl as <-.
  - done.
  - assert (Heq : RoomManager.active_rooms (cleanup_finished_rooms (cleanup_finished_rooms rm))
                  = RoomManager.active_rooms (cleanup_finished_rooms rm)).
    { apply map_eq. intros rid. rewrite cleanup_lookup.
      destruct (RoomManager.active_rooms (cleanup_finished_rooms rm) !! rid)
        as [room|] eqn:Hl; [|done].
      rewrite cleanup_lookup in Hl.
      destruct (RoomManager.active_rooms rm !! rid) as [r|]; [|done].
      destruct (decide (Room.status r = finished)); [done|].
      injection Hl as <-. by rewrite decide_False. }
    destruct (cleanup_finished_rooms (cleanup_finished_rooms rm)) as [m1 n1] eqn:E1.
    destruct (cleanup_finished_rooms rm) as [m2 n2] eqn:E2.
    simpl in Heq. subst m1. f_equal.
    change n1 with (RoomManager.room_counter {| RoomManager.active_rooms := m2;
                                                RoomManager.room_counter := n1 |}).
    rewrite <- E1. done.
Qed.

Lemma cleanup_removes_finished_witness :
  RoomManager.get_room (put_room one_room "ROOM1001"
                          (Room.play (Room.join waiting_dice 2).2 sample_rng).2)
    "ROOM1001" = Some (Room.play (Room.join waiting_dice 2).2 sample_rng).2
  ∧ RoomManager.get_room one_room "ROOM1001" = Some waiting_dice
  ∧ RoomManager.get_room (cleanup_finished_rooms one_room) "ROOM1001" = Some waiting_dice.
Proof.
  split; [reflexivity|]. split; [reflexivity|].
  destruct (cleanup_removes_finished one_room) as [Hkeep _].
  apply Hkeep; [reflexivity|done].
Defined.

(** X9. Reloading what [save_rooms] wrote, into a fresh manager: every
    room of a registry the program can build comes back under its id with
    the same creator, stake, game type, opponent and status, but without
    results, winner or the creator's coin choice; nothing else is loaded,
    and the counter starts again at 1000 whatever it was. *)
Theorem load_after_save (rm : RoomManager.t) (rid : string) :
  built rm ->
  (∀ room, RoomManager.get_room rm rid = Some room ->
     ∃ room', RoomManager.get_room (load_rooms RoomManager.init (save_rooms rm)) rid
              = Some room'
       ∧ Room.room_id room' = Room.room_id room
       ∧ Room.creator_id room' = Room.creator_id room
       ∧ Room.bet room' = Room.bet room
       ∧ Room.game_type room' = Room.game_type room
       ∧ Room.opponent_id room' = Room.opponent_id room
       ∧ Room.status room' = Room.status room
       ∧ Room.winner_id room' = None
       ∧ MultiplayerGame.creator_result (Room.base room') = None
       ∧ MultiplayerGame.opponent_result (Room.base room') = None
       ∧ match room, room' with
         | Dice _, Dice _ => True
         | Coinflip _, Coinflip c' => CoinflipGame.creator_choice c' = None
         | _, _ => False
         end)
  ∧ (RoomManager.get_room rm rid = None ->
       RoomManager.get_room (load_rooms RoomManager.init (save_rooms rm)) rid = None)
  ∧ RoomManager.room_counter (load_rooms RoomManager.init (save_rooms rm)) = 1000.
Proof.
  intros Hb. destruct (built_stored_ok rm Hb) as [_ Hok].
  unfold RoomManager.get_room, load_rooms, save_rooms; simpl.
  rewrite (right_id_L ∅ (∪)). rewrite lookup_omap, lookup_fmap.
  split; [|split; [|done]].
  - intros room Hl. rewrite Hl. simpl.
    destruct (Hok _ _ Hl) as (_ & _ & _ & _ & Hc).
    destruct room as [g|[g c]]; simpl in Hc; unfold load_room; simpl; rewrite Hc; simpl.
    + eexists. split; [reflexivity|]. by repeat split.
    + eexists. split; [reflexivity|]. by repeat split.
  - intros Hl. by rewrite Hl.
Qed.

Lemma load_after_save_witness :
  built (put_room one_room "ROOM1001" (Room.play (Room.join waiting_dice 2).2 sample_rng).2)
  ∧ ∃ room',
      RoomManager.get_room
        (load_rooms RoomManager.init
           (save_rooms (put_room one_room "ROOM1001"
                          (Room.play (Room.join waiting_dice 2).2 sample_rng).2)))
        "ROOM1001" = Some room'
      ∧ Room.status room' = finished
      ∧ Room.winner_id room' = None.
Proof.
  assert (Hb1 : built one_room)
    by exact (built_create RoomManager.init 1 "dice" (amount 10) built_init).
  assert (Hb2 : built (RoomManager.join_room one_room "ROOM1001" 2).2)
    by (by apply built_join).
  assert (Hb : built (put_room one_room "ROOM1001"
                        (Room.play (Room.join waiting_dice 2).2 sample_rng).2)).
  { pose proof (built_play _ "ROOM1001" (Room.join waiting_dice 2).2 sample_rng Hb2
                  eq_refl) as H.
    assert (Heq : put_room (RoomManager.join_room one_room "ROOM1001" 2).2 "ROOM1001"
                    (Room.play (Room.join waiting_dice 2).2 sample_rng).2
                  = put_room one_room "ROOM1001"
                      (Room.play (Room.join waiting_dice 2).2 sample_rng).2).
    { reflexivity. }
    rewrite Heq in H. exact H. }
  split; [exact Hb|].
  destruct (load_after_save _ "ROOM1001" Hb) as [Hload _].
  destruct (Hload _ eq_refl) as (room' & Hg & _ & _ & _ & _ & _ & Hs & Hw & _).
  exists room'. split; [exact Hg|]. split; [exact Hs|exact Hw].
Defined.

(** ** The store: users and history *)

(** X10. [create_user] registers a new user with the starting balance and
    leaves the other users alone; for a user who is already stored it
    changes nothing and returns the stored record, so calling it again,
    with whatever name and balance, resets nothing. *)
Theorem create_user_once (data : gmap Z Database.User) (uid : Z)
    (name name' : option string) (b b' : Qc) :
  (data !! uid = None ->
     Database.get_balance (Database.create_user data uid name b).1 uid = b
     ∧ Database.balance (Database.create_user data uid name b).2 = b)
  ∧ (∀ u, data !! uid = Some u -> Database.create_user data uid name b = (data, u))
  ∧ (∀ other, other ≠ uid ->
       (Database.create_user data uid name b).1 !! other = data !! other)
  ∧ Database.create_user (Database.create_user data uid name b).1 uid name' b'
    = Database.create_user data uid name b.
Proof.
  unfold Database.create_user.
  destruct (data !! uid) as [u|] eqn:Hu; simpl.
  - rewrite Hu. repeat split; try done. intros u' [= <-]. done.
  - rewrite lookup_insert_eq. repeat split; try done.
    + erewrite get_balance_lookup; [|apply lookup_insert_eq]. done.
    + intros other Hne. by rewrite lookup_insert_ne.
Qed.

Lemma create_user_once_witness :
  two_users (amount 100) (amount 100) !! 1
  = Some (Database.create_user ∅ 1 (Some "ann") (amount 100)).2
  ∧ Database.create_user (two_users (amount 100) (amount 100)) 1 (Some "eve") (amount 7)
    = (two_users (amount 100) (amount 100),
       (Database.create_user ∅ 1 (Some "ann") (amount 100)).2).
Proof.
  split; [reflexivity|].
  destruct (create_user_once (two_users (amount 100) (amount 100)) 1
              (Some "eve") None (amount 7) 0%Qc) as (_ & H & _).
  apply H. reflexivity.
Defined.

(** X11. [add_game_to_history] for a stored user: the balance is not
    touched; one more game is counted and the stake added to the amount
    wagered; when the win amount is greater than the stake, their
    difference is added to the amount won and the amount lost is kept,
    otherwise the stake less the win amount is added to the amount lost
    and the amount won is kept; the record goes to the front of the
    history, which never holds more than 50 entries. For a user who is not
    stored nothing changes. *)
Theorem add_game_to_history_accounting (data : gmap Z Database.User) (uid : Z)
    (gt : string) (b w : Qc) (res : string) :
  (data !! uid = None -> Database.add_game_to_history data uid gt b w res = data)
  ∧ (∀ u, data !! uid = Some u ->
       ∃ u', Database.add_game_to_history data uid gt b w res !! uid = Some u'
         ∧ Database.balance u' = Database.balance u
         ∧ Database.games_played u' = Database.games_played u + 1
         ∧ Database.total_wagered u' = (Database.total_wagered u + b)%Qc
         ∧ ((b < w)%Qc ->
              Database.total_won u' = (Database.total_won u + (w - b))%Qc
              ∧ Database.total_lost u' = Database.total_lost u)
         ∧ (¬ (b < w)%Qc ->
              Database.total_won u' = Database.total_won u
              ∧ Database.total_lost u' = (Database.total_lost u + (b - w))%Qc)
         ∧ head (Database.game_history u')
           = Some {| Database.game_type := gt; Database.bet := b;
                     Database.win_amount := w; Database.profit := (w - b)%Qc;
                     Database.result := res |}
         ∧ length (Database.game_history u')
           = Nat.min 50 (S (length (Database.game_history u))))
  ∧ (∀ other, other ≠ uid ->
       Database.add_game_to_history data uid gt b w res !! other = data !! other).
Proof.
  unfold Database.add_game_to_history.
  destruct (data !! uid) as [u|] eqn:Hu.
  - split; [done|]. split.
    + intros u0 [= <-]. eexists. split; [apply lookup_insert_eq|]. simpl.
      split; [done|]. split; [done|]. split; [done|].
      split; [intros Hw; by rewrite (bool_decide_eq_true_2 _ Hw)|].
      split; [intros Hw; by rewrite (bool_decide_eq_false_2 _ Hw)|].
      split; [done|]. by rewrite length_take.
    + intros other Hne. by rewrite lookup_insert_ne.
  - split; [done|]. split; [done|done].
Qed.

Lemma add_game_to_history_accounting_witness :
  two_users (amount 100) (amount 100) !! 2
  = Some (Database.create_user ∅ 2 (Some "bob") (amount 100)).2
  ∧ ∃ u', Database.add_game_to_history (two_users (amount 100) (amount 100)) 2
            "dice_mp" (amount 10) (amount 19) "Win" !! 2 = Some u'
      ∧ Database.balance u' = amount 100
      ∧ Database.games_played u' = 1.
Proof.
  split; [reflexivity|].
  destruct (add_game_to_history_accounting (two_users (amount 100) (amount 100)) 2
              "dice_mp" (amount 10) (amount 19) "Win") as (_ & H & _).
  destruct (H _ eq_refl) as (u' & Hl & Hb & Hg & _).
  exists u'. split; [exact Hl|]. split; [exact Hb|exact Hg].
Defined.

(** ** Handlers that refuse *)

(** X12. [join_room] (the handler) on an id that is not stored, or on a
    room somebody has already joined (or that is finished), tells the
    caller so and changes nothing at all: no balance is read or debited
    and the room keeps its opponent. *)
Theorem join_refused_changes_nothing (cfg : Config) (w : World) (user : Z)
    (rid : string) (rng : Rng) :
  (RoomManager.get_room (room_manager w) rid = None ->
     join_room cfg user rid rng w = (w, Ok RoomUnavailable))
  ∧ (∀ room, RoomManager.get_room (room_manager w) rid = Some room ->
       Room.status room ≠ waiting ->
       join_room cfg user rid rng w = (w, Ok RoomTaken)).
Proof.
  split.
  - intros Hg. unfold join_room, bind, rm_get_room. by rewrite Hg.
  - intros room Hg Hs. unfold join_room, bind, rm_get_room. rewrite Hg.
    by rewrite (decide_True _ _ Hs).
Qed.

Lemma join_refused_changes_nothing_witness :
  RoomManager.get_room (room_manager coinflip_started) "ROOM1001"
  = Some (Coinflip joined_coinflip)
  ∧ Room.status (Coinflip joined_coinflip) ≠ waiting
  ∧ join_room default_config 3 "ROOM1001" sample_rng coinflip_started
    = (coinflip_started, Ok RoomTaken).
Proof.
  assert (Hg : RoomManager.get_room (room_manager coinflip_started) "ROOM1001"
               = Some (Coinflip joined_coinflip)) by reflexivity.
  assert (Hs : Room.status (Coinflip joined_coinflip) ≠ waiting) by done.
  split; [exact Hg|]. split; [exact Hs|].
  exact (proj2 (join_refused_changes_nothing default_config coinflip_started 3
                  "ROOM1001" sample_rng) _ Hg Hs).
Defined.

(** X13. The creator of a waiting room who presses its join button, with
    a balance that covers the stake, is told that joining failed: the
    balance was read, nothing was debited, and the registry, so the room,
    is as before. *)
Theorem creator_cannot_join_own_room (cfg : Config) (w : World) (rid : string)
    (room : Room) (rng : Rng) :
  RoomManager.get_room (room_manager w) rid = Some room ->
  Room.status room = waiting ->
  (Room.bet room <= Database.get_balance (db w) (Room.creator_id room))%Qc ->
  join_room cfg (Room.creator_id room) rid rng w
  = (emit w (EvGetBalance (Room.creator_id room)), Ok JoinFailed).
Proof.
  intros Hg Hs Hf.
  assert (Hw : ¬ Room.status room ≠ waiting) by (intros H; by apply H).
  unfold join_room. unfold bind at 1. unfold rm_get_room. rewrite Hg.
  rewrite (decide_False _ _ Hw). unfold bind at 1. unfold db_get_balance.
  rewrite decide_False by (by apply Qcle_not_lt).
  unfold bind, rm_join_room. simpl.
  destruct (registry_join_creator _ _ _ Hg) as [Hj _]. rewrite Hj.
  destruct w as [d [rooms n] rr tr]. done.
Qed.

Lemma creator_cannot_join_own_room_witness :
  RoomManager.get_room (room_manager dice_waiting_world) "ROOM1001" = Some waiting_dice
  ∧ join_room default_config 1 "ROOM1001" sample_rng dice_waiting_world
    = (emit dice_waiting_world (EvGetBalance 1), Ok JoinFailed).
Proof.
  assert (Hg : RoomManager.get_room (room_manager dice_waiting_world) "ROOM1001"
               = Some waiting_dice) by reflexivity.
  split; [exact Hg|].
  apply (creator_cannot_join_own_room default_config dice_waiting_world "ROOM1001"
           waiting_dice sample_rng Hg); [reflexivity|by vm_compute].
Defined.

(** X14. [create_room_with_bet] tests the stake in this order: below
    [MIN_BET] or above [MAX_BET], then above the balance. When the first
    test holds, nothing changes. When neither test holds and the game type
    is neither "dice" nor "coinflip", the caller is told to enter a valid
    amount: nothing is debited and no room is stored, but the room counter
    has moved on by one. *)
Theorem create_room_rejections (cfg : Config) (w : World) (user : Z) (b : Qc)
    (gt : string) :
  ((b < MIN_BET cfg)%Qc ∨ (MAX_BET cfg < b)%Qc ->
     create_room_with_bet cfg user b gt w = (w, Ok BetOutOfRange))
  ∧ (¬ ((b < MIN_BET cfg)%Qc ∨ (MAX_BET cfg < b)%Qc) ->
     ¬ (Database.get_balance (db w) user < b)%Qc ->
     gt ≠ "dice" -> gt ≠ "coinflip" ->
     ∃ w', create_room_with_bet cfg user b gt w = (w', Ok InvalidAmount)
       ∧ db w' = db w
       ∧ trace w' = trace w ++ [EvGetBalance user]
       ∧ RoomManager.active_rooms (room_manager w')
         = RoomManager.active_rooms (room_manager w)
       ∧ RoomManager.room_counter (room_manager w')
         = RoomManager.room_counter (room_manager w) + 1).
Proof.
  split.
  - intros Hout. unfold create_room_with_bet. by rewrite (decide_True _ _ Hout).
  - intros Hrange Hf Hd Hc.
    unfold create_room_with_bet. rewrite (decide_False _ _ Hrange).
    unfold bind at 1. unfold db_get_balance.
    rewrite (decide_False _ _ Hf).
    unfold bind, catch_ValueError, rm_create_room, RoomManager.create_room. simpl.
    rewrite (decide_False _ _ Hd), (decide_False _ _ Hc). simpl.
    eexists. split; [reflexivity|]. done.
Qed.

Lemma create_room_rejections_witness :
  (MAX_BET default_config < amount 5000)%Qc
  ∧ create_room_with_bet default_config 1 (amount 5000) "dice"
      (start_world (amount 100) (amount 100))
    = (start_world (amount 100) (amount 100), Ok BetOutOfRange).
Proof.
  split; [by vm_compute|].
  apply (proj1 (create_room_rejections default_config
                  (start_world (amount 100) (amount 100)) 1 (amount 5000) "dice")).
  right. by vm_compute.
Defined.

(** X15. [cancel_room] on an id that is not stored, or on a room that has
    left [waiting], is refused and changes nothing: once an opponent has
    joined, the stake cannot be taken back by cancelling. *)
Theorem cancel_refused_changes_nothing (w : World) (rid : string) :
  (RoomManager.get_room (room_manager w) rid = None ->
     cancel_room rid w = (w, Ok CancelRefused))
  ∧ (∀ room, RoomManager.get_room (room_manager w) rid = Some room ->
       Room.status room ≠ waiting ->
       cancel_room rid w = (w, Ok CancelRefused)).
Proof.
  split.
  - intros Hg. unfold cancel_room, bind, rm_get_room. by rewrite Hg.
  - intros room Hg Hs. unfold cancel_room, bind, rm_get_room. rewrite Hg.
    by rewrite (decide_False _ _ Hs).
Qed.

Lemma cancel_refused_changes_nothing_witness :
  RoomManager.get_room (room_manager coinflip_started) "ROOM1001"
  = Some (Coinflip joined_coinflip)
  ∧ cancel_room "ROOM1001" coinflip_started = (coinflip_started, Ok CancelRefused).
Proof.
  assert (Hg : RoomManager.get_room (room_manager coinflip_started) "ROOM1001"
               = Some (Coinflip joined_coinflip)) by reflexivity.
  split; [exact Hg|].
  apply (proj2 (cancel_refused_changes_nothing coinflip_started "ROOM1001") _ Hg).
  done.
Defined.

(** X16. [check_room] changes nothing unless the room is in play with
    game type "dice": an unknown id is reported, a room that is waiting or
    finished is reported as having nobody yet, and for a coinflip room in
    play the caller is told the opponent joined (the creator is asked for
    a side again, by message only). *)
Theorem check_room_inert (cfg : Config) (w : World) (rid : string) (rng : Rng) :
  (RoomManager.get_room (room_manager w) rid = None ->
     check_room cfg rid rng w = (w, Ok RoomNotFound))
  ∧ (∀ room, RoomManager.get_room (room_manager w) rid = Some room ->
       (Room.status room ≠ playing ->
          check_room cfg rid rng w = (w, Ok NobodyYet))
       ∧ (Room.status room = playing -> Room.game_type room = "coinflip" ->
            check_room cfg rid rng w = (w, Ok OpponentJoined))).
Proof.
  split.
  - intros Hg. unfold check_room, bind, rm_get_room. by rewrite Hg.
  - intros room Hg. split.
    + intros Hs. unfold check_room, bind, rm_get_room. rewrite Hg.
      by rewrite (decide_False _ _ Hs).
    + intros Hs Hgt. unfold check_room, bind, rm_get_room. rewrite Hg.
      rewrite (decide_True _ _ Hs). by rewrite start_coinflip_game.
Qed.

Lemma check_room_inert_witness :
  RoomManager.get_room (room_manager coinflip_started) "ROOM1001"
  = Some (Coinflip joined_coinflip)
  ∧ check_room default_config "ROOM1001" sample_rng coinflip_started
    = (coinflip_started, Ok OpponentJoined).
Proof.
  assert (Hg : RoomManager.get_room (room_manager coinflip_started) "ROOM1001"
               = Some (Coinflip joined_coinflip)) by reflexivity.
  split; [exact Hg|].
  apply (proj2 (proj2 (check_room_inert default_config coinflip_started "ROOM1001"
                         sample_rng) _ Hg)); reflexivity.
Defined.

(** ** Whole games *)

Lemma show_dice_result_registry (cfg : Config) (room : Room) (res : PlayResult)
    (w w' : World) :
  show_dice_result cfg room res w = (w', Ok tt) ->
  room_manager w' = (RoomManager.delete_room (room_manager w) (Room.room_id room)).2
  ∧ rematch_requests w' = rematch_requests w.
Proof.
  unfold show_dice_result, bind, username_of.
  destruct (Some (Room.creator_id room) ≫= Database.get_user (db w)); [|done].
  destruct (Room.opponent_id room ≫= Database.get_user (db w)); [|done].
  destruct res as [msg|a b wn dr|side cc oc wn dr]; [done| |done].
  unfold dice_emoji, ret, raise.
  destruct (decide _); [|done]. destruct (decide _); [|done].
  destruct (settle_run cfg "dice_mp" room wn dr w) as (w1 & Hs & Hrm & Hrr & _).
  rewrite Hs. unfold rm_delete_room.
  destruct (RoomManager.delete_room (room_manager w1) (Room.room_id room))
    as [ok rm] eqn:Hd.
  intros [= <-]. rewrite <- Hrm, Hd. by destruct ok.
Qed.

Lemma show_coinflip_result_registry (cfg : Config) (room : Room) (res : PlayResult)
    (w w' : World) :
  show_coinflip_result cfg room res w = (w', Ok tt) ->
  room_manager w' = (RoomManager.delete_room (room_manager w) (Room.room_id room)).2
  ∧ rematch_requests w' = rematch_requests w.
Proof.
  unfold show_coinflip_result, bind, username_of.
  destruct (Some (Room.creator_id room) ≫= Database.get_user (db w)); [|done].
  destruct (Room.opponent_id room ≫= Database.get_user (db w)); [|done].
  destruct res as [msg|a b wn dr|side cc oc wn dr]; [done|done|].
  unfold choice_emoji, ret, raise.
  destruct (decide _); [|done]. destruct (decide _); [|done].
  destruct (decide _); [|done].
  destruct (settle_run cfg "coinflip_mp" room wn dr w) as (w1 & Hs & Hrm & Hrr & _).
  rewrite Hs. unfold rm_delete_room.
  destruct (RoomManager.delete_room (room_manager w1) (Room.room_id room))
    as [ok rm] eqn:Hd.
  intros [= <-]. rewrite <- Hrm, Hd. by destruct ok.
Qed.

(** Who gets what when a played room is settled: the balance of [u]
    afterwards, from the one before. *)
Lemma settled_balance_cases (room : Room) (rng : Rng) :
  Room.status room = playing ->
  match room with
  | Dice _ => True
  | Coinflip g => CoinflipGame.creator_choice g = Some "heads"
                  ∨ CoinflipGame.creator_choice g = Some "tails"
  end ->
  Room.winner_id (Room.play room rng).2
  = match room with
    | Dice _ =>
        if decide (die1 rng > die2 rng) then Some (Room.creator_id room)
        else if decide (die2 rng > die1 rng) then Room.opponent_id room
        else None
    | Coinflip g =>
        if decide (CoinflipGame.creator_choice g
                   = Some (CoinflipGame.random_choice (coin rng)))
        then Some (Room.creator_id room)
        else Room.opponent_id room
    end.
Proof.
  intros Hp Hv.
  destruct room as [g|[g c]];
    unfold Room.status, Room.winner_id, Room.creator_id, Room.opponent_id in *;
    simpl in *.
  - unfold DiceGame.play. by rewrite Hp.
  - unfold CoinflipGame.play, CoinflipGame.get_opponent_choice. simpl.
    rewrite Hp. simpl.
    destruct Hv as [-> | ->], (coin rng); simpl; done.
Qed.

(** A debit followed by the credit of the same amount: the balance is the
    old one plus the negated amount plus the amount, and nothing else of
    the store has changed. *)
Lemma update_balance_debit_credit (data : gmap Z Database.User) (uid : Z)
    (u : Database.User) (b : Qc) :
  data !! uid = Some u ->
  (Database.update_balance (Database.update_balance data uid (- b)).1 uid b).1
  = <[uid := Database.set_balance u (Database.balance u + - b + b)%Qc]> data.
Proof.
  intros Hu. rewrite (update_balance_present _ _ _ _ Hu). simpl.
  erewrite update_balance_present; [|apply lookup_insert_eq]. simpl.
  rewrite insert_insert_eq. by destruct u.
Qed.

Lemma cancel_waiting_room (w : World) (rid : string) (room : Room) :
  RoomManager.get_room (room_manager w) rid = Some room ->
  Room.status room = waiting ->
  cancel_room rid w
  = (emit (set_room_manager
             (emit (set_db w (Database.update_balance (db w) (Room.creator_id room)
                                (Room.bet room)).1)
                   (EvUpdateBalance (Some (Room.creator_id room)) (Room.bet room)))
             {| RoomManager.active_rooms :=
                  delete rid (RoomManager.active_rooms (room_manager w));
                RoomManager.room_counter := RoomManager.room_counter (room_manager w) |})
          (EvDeleteRoom rid), Ok RoomCancelled).
Proof.
  intros Hg Hs. unfold cancel_room. unfold bind at 1. unfold rm_get_room.
  rewrite Hg, (decide_True _ _ Hs). unfold bind at 1.
  rewrite db_update_balance_run.
  unfold bind, rm_delete_room, RoomManager.delete_room. simpl.
  unfold RoomManager.get_room in Hg. by rewrite Hg.
Qed.

(** X17. A stored user creates a room and it is cancelled before anybody
    joins: the creator is debited the stake and then credited it back, by
    two calls of [update_balance], so the balance is the old one plus the
    negated stake plus the stake and nothing else in the store has
    changed; the room is gone, the stored rooms are those from before, and
    only the room counter has moved on. Whoever presses the cancel button,
    the refund goes to the creator. *)
Theorem create_then_cancel (cfg : Config) (w : World) (user : Z) (u : Database.User)
    (b : Qc) (gt : string) :
  built (room_manager w) ->
  db w !! user = Some u ->
  (MIN_BET cfg <= b)%Qc -> (b <= MAX_BET cfg)%Qc ->
  gt = "dice" ∨ gt = "coinflip" ->
  (b <= Database.get_balance (db w) user)%Qc ->
  ∃ w1 w2 rid,
    create_room_with_bet cfg user b gt w = (w1, Ok (RoomCreated rid))
    ∧ cancel_room rid w1 = (w2, Ok RoomCancelled)
    ∧ db w2
      = <[user := Database.set_balance u (Database.balance u + - b + b)%Qc]> (db w)
    ∧ RoomManager.active_rooms (room_manager w2)
      = RoomManager.active_rooms (room_manager w)
    ∧ RoomManager.room_counter (room_manager w2)
      = RoomManager.room_counter (room_manager w) + 1
    ∧ rematch_requests w2 = rematch_requests w
    ∧ credits (trace w2) = credits (trace w) ++ [(Some user, (- b)%Qc); (Some user, b)].
Proof.
  intros Hb Hu Hmin Hmax Hgt Hf.
  destruct (create_room_fresh (room_manager w) user gt b Hb Hgt)
    as (room0 & _ & Hid0 & Hfresh & _).
  rewrite Hid0 in Hfresh. unfold RoomManager.get_room in Hfresh.
  assert (Hrange : ¬ (b < MIN_BET cfg ∨ MAX_BET cfg < b)%Qc).
  { intros [H|H]; [by apply (Qcle_not_lt _ _ Hmin)|by apply (Qcle_not_lt _ _ Hmax)]. }
  unfold create_room_with_bet. rewrite (decide_False _ _ Hrange).
  unfold bind at 1. unfold db_get_balance.
  rewrite decide_False by (by apply Qcle_not_lt).
  destruct (rm_create_room_run user gt b (emit w (EvGetBalance user)) Hgt)
    as (room & Hrun & Hid & Hcr & _ & Hbet & _ & Hst).
  unfold bind, catch_ValueError. rewrite Hrun. rewrite db_update_balance_run.
  simpl in *. rewrite Hid.
  eexists _, _, _. split; [reflexivity|].
  erewrite cancel_waiting_room;
    [|unfold RoomManager.get_room; simpl; apply lookup_insert_eq|exact Hst].
  split; [reflexivity|]. simpl.
  rewrite Hcr, Hbet, (update_balance_debit_credit _ _ _ _ Hu), delete_insert_eq,
    delete_id by done.
  repeat split; try done.
  unfold credits. rewrite !omap_app. simpl. by rewrite !app_nil_r, <- app_assoc.
Qed.

Lemma create_then_cancel_witness :
  built (room_manager (start_world (amount 100) (amount 100)))
  ∧ ∃ w1 w2,
      create_room_with_bet default_config 1 (amount 10) "dice"
        (start_world (amount 100) (amount 100)) = (w1, Ok (RoomCreated "ROOM1001"))
      ∧ cancel_room "ROOM1001" w1 = (w2, Ok RoomCancelled)
      ∧ db w2 = two_users (amount 100) (amount 100)
      ∧ RoomManager.active_rooms (room_manager w2) = ∅.
Proof.
  split; [exact built_init|].
  destruct (create_then_cancel default_config (start_world (amount 100) (amount 100))
              1 (Database.create_user ∅ 1 (Some "ann") (amount 100)).2
              (amount 10) "dice" built_init)
    as (w1 & w2 & rid & H1 & H2 & Hdb & Hrooms & _);
    [reflexivity|by vm_compute|by vm_compute|by left|by vm_compute|].
  assert (Hrid : rid = "ROOM1001").
  { assert (Hr : (create_room_with_bet default_config 1 (amount 10) "dice"
                    (start_world (amount 100) (amount 100))).2
                 = Ok (RoomCreated "ROOM1001")) by reflexivity.
    rewrite H1 in Hr. simpl in Hr. congruence. }
  subst rid. exists w1, w2. split; [exact H1|]. split; [exact H2|].
  split; [|exact Hrooms].
  rewrite Hdb. apply map_eq. intros i.
  destruct (decide (i = 1)) as [->|Hi].
  - rewrite lookup_insert_eq. vm_compute. reflexivity.
  - by rewrite lookup_insert_ne.
Defined.

(** X18. The creator of a stored coinflip room sends a side other than
    "heads" or "tails" (in another case, say): the lower-cased text is
    stored as the choice, then the handler fails with a [KeyError]; the
    room is not played, no balance is touched and the rest of the registry
    is as before. *)
Theorem coinflip_choice_bad_side (cfg : Config) (w : World) (rid : string)
    (g : CoinflipGame.t) (choice : string) (rng : Rng) :
  RoomManager.get_room (room_manager w) rid = Some (Coinflip g) ->
  Room.room_id (Coinflip g) = rid ->
  choice ≠ "heads" -> choice ≠ "tails" ->
  ∃ w', coinflip_choice cfg (Room.creator_id (Coinflip g)) rid choice rng w
        = (w', Raise KeyError)
    ∧ RoomManager.get_room (room_manager w') rid
      = Some (Coinflip (CoinflipGame.set_creator_choice g choice))
    ∧ (∀ other, other ≠ rid ->
         RoomManager.get_room (room_manager w') other
         = RoomManager.get_room (room_manager w) other)
    ∧ db w' = db w
    ∧ trace w' = trace w
    ∧ rematch_requests w' = rematch_requests w.
Proof.
  intros Hg Hid Hh Ht.
  unfold coinflip_choice, bind, rm_get_room. rewrite Hg.
  rewrite decide_False by (intros H; by apply H).
  unfold room_set_creator_choice, bind, store_room, choice_emoji. simpl.
  rewrite decide_False by (intros [?|?]; done). unfold raise.
  eexists. split; [reflexivity|]. simpl.
  unfold RoomManager.get_room, Room.room_id in *. simpl in *. rewrite Hid.
  repeat split; try done.
  - rewrite lookup_alter_eq. unfold RoomManager.get_room in Hg. by rewrite Hg.
  - intros other Hne. by rewrite lookup_alter_ne.
Qed.

Lemma coinflip_choice_bad_side_witness :
  RoomManager.get_room (room_manager coinflip_started) "ROOM1001"
  = Some (Coinflip joined_coinflip)
  ∧ ∃ w', coinflip_choice default_config 1 "ROOM1001" "Heads" sample_rng coinflip_started
          = (w', Raise KeyError)
      ∧ RoomManager.get_room (room_manager w') "ROOM1001"
        = Some (Coinflip (CoinflipGame.set_creator_choice joined_coinflip "heads")).
Proof.
  assert (Hg : RoomManager.get_room (room_manager coinflip_started) "ROOM1001"
               = Some (Coinflip joined_coinflip)) by reflexivity.
  split; [exact Hg|].
  destruct (coinflip_choice_bad_side default_config coinflip_started "ROOM1001"
              joined_coinflip "Heads" sample_rng Hg eq_refl)
    as (w' & Hrun & Hroom & _); [done|done|].
  exists w'. split; [exact Hrun|exact Hroom].
Defined.

(** The dice game of a room in play between two registered users: played,
    settled and dropped from the registry. *)
Lemma animate_dice_run (cfg : Config) (w : World) (g : MultiplayerGame.t) (rng : Rng)
    (o : Z) :
  MultiplayerGame.status g = playing ->
  MultiplayerGame.opponent_id g = Some o ->
  MultiplayerGame.creator_id g ≠ o ->
  is_Some (db w !! MultiplayerGame.creator_id g) ->
  is_Some (db w !! o) ->
  1 <= die1 rng <= 6 -> 1 <= die2 rng <= 6 ->
  ∃ w', animate_dice_game cfg (Dice g) rng w = (w', Ok tt)
    ∧ RoomManager.get_room (room_manager w') (MultiplayerGame.room_id g) = None
    ∧ (∀ other, other ≠ MultiplayerGame.room_id g ->
         RoomManager.get_room (room_manager w') other
         = RoomManager.get_room (room_manager w) other)
    ∧ rematch_requests w' = rematch_requests w
    ∧ Database.get_balance (db w') (MultiplayerGame.creator_id g)
      = (Database.get_balance (db w) (MultiplayerGame.creator_id g)
         + (if decide (die1 rng > die2 rng)%Z then final_prize cfg (MultiplayerGame.bet g)
            else if decide (die2 rng > die1 rng)%Z then 0
            else MultiplayerGame.bet g))%Qc
    ∧ Database.get_balance (db w') o
      = (Database.get_balance (db w) o
         + (if decide (die1 rng > die2 rng)%Z then 0
            else if decide (die2 rng > die1 rng)%Z then final_prize cfg (MultiplayerGame.bet g)
            else MultiplayerGame.bet g))%Qc
    ∧ (∀ u, u ≠ MultiplayerGame.creator_id g -> u ≠ o ->
         Database.get_balance (db w') u = Database.get_balance (db w) u).
Proof.
  intros Hp Ho Hne Hc Hopp Ha Hb.
  destruct (username_of_registered w _ Hc) as [cn Hcn].
  destruct (username_of_registered w _ Hopp) as [on Hon].
  unfold animate_dice_game. unfold bind at 1.
  unfold Room.creator_id, Room.opponent_id. simpl. rewrite Hcn.
  unfold bind at 1. rewrite Ho, Hon.
  unfold bind at 1. unfold room_play.
  destruct (Room.play (Dice g) rng) as [res room'] eqn:Hplay.
  unfold bind at 1. unfold store_room. unfold ret at 1.
  match goal with
  | |- context [show_dice_result cfg room' res ?ws] => set (w_s := ws)
  end.
  destruct (show_result_run cfg w_s (Dice g) rng o)
    as (w' & Hrun & _ & Hm); try done.
  rewrite Hplay in Hrun. simpl in Hrun.
  assert (Hwin := settled_balance_cases (Dice g) rng Hp I).
  rewrite Hplay in Hm, Hwin. simpl in Hm, Hwin.
  unfold Room.creator_id, Room.opponent_id, Room.bet in Hm, Hwin. simpl in Hm, Hwin.
  destruct (show_dice_result_registry _ _ _ _ _ Hrun) as [Hrm Hrr].
  assert (Hid : Room.room_id room' = MultiplayerGame.room_id g).
  { pose proof (method_call_keeps _ _ (call_play (Dice g) rng)) as (Hi & _).
    by rewrite Hplay in Hi. }
  exists w'. split; [exact Hrun|].
  destruct (delete_room_facts (room_manager w_s) (Room.room_id room'))
    as (_ & Hgone & Hothers & _).
  rewrite <- Hrm, Hid in Hgone, Hothers.
  split; [exact Hgone|]. split.
  { intros other Hother. rewrite (Hothers _ Hother).
    unfold w_s, RoomManager.get_room. simpl. rewrite Hid.
    by rewrite lookup_alter_ne. }
  split; [exact Hrr|].
  rewrite Hwin in Hm.
  destruct (decide (die1 rng > die2 rng)%Z).
  - destruct Hm as (_ & _ & Hw1 & Hrest).
    split; [exact Hw1|]. split.
    + rewrite (Hrest o) by done. unfold w_s; simpl. ring.
    + intros u Hu1 Hu2. by rewrite (Hrest u).
  - destruct (decide (die2 rng > die1 rng)%Z).
    + rewrite Ho in Hm. destruct Hm as (_ & _ & Hw1 & Hrest).
      split; [|split; [exact Hw1|]].
      * rewrite (Hrest (MultiplayerGame.creator_id g)) by done. unfold w_s; simpl. ring.
      * intros u Hu1 Hu2. by rewrite (Hrest u).
    + destruct Hm as (_ & Hc1 & Ho1 & Hrest). done.
Qed.



(** What [coinflip_choice] does for the creator with a valid side. *)
Lemma coinflip_choice_run (cfg : Config) (w : World) (rid : string)
    (g : CoinflipGame.t) (choice : string) (rng : Rng) (o : Z) :
  RoomManager.get_room (room_manager w) rid = Some (Coinflip g) ->
  MultiplayerGame.room_id (CoinflipGame.base g) = rid ->
  MultiplayerGame.status (CoinflipGame.base g) = playing ->
  MultiplayerGame.opponent_id (CoinflipGame.base g) = Some o ->
  MultiplayerGame.creator_id (CoinflipGame.base g) ≠ o ->
  is_Some (db w !! MultiplayerGame.creator_id (CoinflipGame.base g)) ->
  is_Some (db w !! o) ->
  choice = "heads" ∨ choice = "tails" ->
  ∃ w', coinflip_choice cfg (MultiplayerGame.creator_id (CoinflipGame.base g)) rid
          choice rng w = (w', Ok ChoiceAccepted)
    ∧ RoomManager.get_room (room_manager w') rid = None
    ∧ Database.get_balance (db w') (MultiplayerGame.creator_id (CoinflipGame.base g))
      = (Database.get_balance (db w) (MultiplayerGame.creator_id (CoinflipGame.base g))
         + (if decide (choice = CoinflipGame.random_choice (coin rng))
            then final_prize cfg (MultiplayerGame.bet (CoinflipGame.base g))
            else 0))%Qc
    ∧ Database.get_balance (db w') o
      = (Database.get_balance (db w) o
         + (if decide (choice = CoinflipGame.random_choice (coin rng))
            then 0
            else final_prize cfg (MultiplayerGame.bet (CoinflipGame.base g))))%Qc
    ∧ (∀ u, u ≠ MultiplayerGame.creator_id (CoinflipGame.base g) -> u ≠ o ->
         Database.get_balance (db w') u = Database.get_balance (db w) u).
Proof.
  intros Hg Hid Hp Ho Hne Hc Hopp Hchoice.
  assert (Hlow : lower choice = choice) by (by destruct Hchoice as [-> | ->]).
  set (g' := CoinflipGame.set_creator_choice g choice).
  assert (Hv : CoinflipGame.creator_choice g' = Some "heads"
               ∨ CoinflipGame.creator_choice g' = Some "tails").
  { unfold g'; simpl. rewrite Hlow. destruct Hchoice as [-> | ->]; auto. }
  unfold coinflip_choice. unfold bind at 1. unfold rm_get_room. rewrite Hg.
  rewrite decide_False by (intros H; by apply H).
  unfold bind at 1. unfold room_set_creator_choice. unfold bind at 1.
  unfold store_room at 1. unfold ret at 1. fold g'.
  unfold bind at 1. unfold choice_emoji. rewrite (decide_True _ _ Hchoice).
  unfold ret at 1. unfold bind at 1. unfold room_play.
  destruct (Room.play (Coinflip g') rng) as [res room'] eqn:Hplay.
  unfold bind at 1. unfold store_room. unfold ret at 1.
  match goal with
  | |- context [bind (show_coinflip_result cfg room' res) _ ?ws] => set (w_s := ws)
  end.
  destruct (show_result_run cfg w_s (Coinflip g') rng o)
    as (w' & Hrun & _ & Hm); try done.
  rewrite Hplay in Hrun. simpl in Hrun.
  assert (Hwin := settled_balance_cases (Coinflip g') rng Hp Hv).
  rewrite Hplay in Hm, Hwin. simpl in Hm, Hwin.
  unfold Room.creator_id, Room.opponent_id, Room.bet in Hm, Hwin. simpl in Hm, Hwin.
  rewrite Hlow in Hwin.
  destruct (show_coinflip_result_registry _ _ _ _ _ Hrun) as [Hrm Hrr].
  assert (Hid' : Room.room_id room' = rid).
  { pose proof (method_call_keeps _ _ (call_play (Coinflip g') rng)) as (Hi & _).
    rewrite Hplay in Hi. simpl in Hi. by rewrite Hi. }
  destruct (delete_room_facts (room_manager w_s) (Room.room_id room'))
    as (_ & Hgone & _).
  rewrite <- Hrm, Hid' in Hgone.
  exists w'. unfold bind. rewrite Hrun. split; [done|]. split; [exact Hgone|].
  rewrite Hwin in Hm.
  assert (Hdec : ∀ (X : Type) (x y : X),
            (if decide (Some choice = Some (CoinflipGame.random_choice (coin rng)))
             then x else y)
            = (if decide (choice = CoinflipGame.random_choice (coin rng))
               then x else y)).
  { intros X x y. destruct (decide (choice = _)) as [->|Hn].
    - by rewrite decide_True.
    - rewrite decide_False; [done|congruence]. }
  rewrite Hdec in Hm.
  destruct (decide (choice = CoinflipGame.random_choice (coin rng))).
  - destruct Hm as (_ & _ & Hw1 & Hrest).
    split; [exact Hw1|]. split.
    + rewrite (Hrest o) by done. unfold w_s; simpl. ring.
    + intros u Hu1 Hu2. by rewrite (Hrest u).
  - rewrite Ho in Hm. destruct Hm as (_ & _ & Hw1 & Hrest).
    split; [|split; [exact Hw1|]].
    + rewrite (Hrest (MultiplayerGame.creator_id (CoinflipGame.base g))) by done.
      unfold w_s; simpl. ring.
    + intros u Hu1 Hu2. by rewrite (Hrest u).
Qed.


(** X20. The creator of a stored coinflip room in play, both players
    registered, sends "heads" or "tails" (whatever was stored as choice
    before): the game is played with that side and settled at once. The
    creator has the prize more when the coin shows the chosen side,
    otherwise the opponent has; no other balance moves; the room is gone,
    so pressing the button again only reports that the game is over and
    changes nothing. *)
Theorem coinflip_choice_settles (cfg : Config) (w : World) (rid : string)
    (g : CoinflipGame.t) (choice : string) (rng rng' : Rng) (o : Z) :
  RoomManager.get_room (room_manager w) rid = Some (Coinflip g) ->
  MultiplayerGame.room_id (CoinflipGame.base g) = rid ->
  MultiplayerGame.status (CoinflipGame.base g) = playing ->
  MultiplayerGame.opponent_id (CoinflipGame.base g) = Some o ->
  MultiplayerGame.creator_id (CoinflipGame.base g) ≠ o ->
  is_Some (db w !! MultiplayerGame.creator_id (CoinflipGame.base g)) ->
  is_Some (db w !! o) ->
  choice = "heads" ∨ choice = "tails" ->
  ∃ w', coinflip_choice cfg (MultiplayerGame.creator_id (CoinflipGame.base g)) rid
          choice rng w = (w', Ok ChoiceAccepted)
    ∧ RoomManager.get_room (room_manager w') rid = None
    ∧ Database.get_balance (db w') (MultiplayerGame.creator_id (CoinflipGame.base g))
      = (Database.get_balance (db w) (MultiplayerGame.creator_id (CoinflipGame.base g))
         + (if decide (choice = CoinflipGame.random_choice (coin rng))
            then final_prize cfg (MultiplayerGame.bet (CoinflipGame.base g))
            else 0))%Qc
    ∧ Database.get_balance (db w') o
      = (Database.get_balance (db w) o
         + (if decide (choice = CoinflipGame.random_choice (coin rng))
            then 0
            else final_prize cfg (MultiplayerGame.bet (CoinflipGame.base g))))%Qc
    ∧ (∀ u, u ≠ MultiplayerGame.creator_id (CoinflipGame.base g) -> u ≠ o ->
         Database.get_balance (db w') u = Database.get_balance (db w) u)
    ∧ coinflip_choice cfg (MultiplayerGame.creator_id (CoinflipGame.base g)) rid
        choice rng' w' = (w', Ok GameOver).
Proof.
  intros Hg Hid Hp Ho Hne Hc Hopp Hchoice.
  destruct (coinflip_choice_run cfg w rid g choice rng o Hg Hid Hp Ho Hne Hc Hopp Hchoice)
    as (w' & Hrun & Hgone & Hb1 & Hb2 & Hrest).
  exists w'. do 5 (split; [assumption|]).
  unfold coinflip_choice, bind, rm_get_room. by rewrite Hgone.
Qed.

Lemma coinflip_choice_settles_witness :
  RoomManager.get_room (room_manager coinflip_started) "ROOM1001"
  = Some (Coinflip joined_coinflip)
  ∧ ∃ w', coinflip_choice default_config 1 "ROOM1001" "tails" sample_rng coinflip_started
          = (w', Ok ChoiceAccepted)
      ∧ Database.get_balance (db w') 1 = amount 118
      ∧ Database.get_balance (db w') 2 = amount 80.
Proof.
  assert (Hg : RoomManager.get_room (room_manager coinflip_started) "ROOM1001"
               = Some (Coinflip joined_coinflip)) by reflexivity.
  split; [exact Hg|].
  destruct (coinflip_choice_settles default_config coinflip_started "ROOM1001"
              joined_coinflip "tails" sample_rng sample_rng 2 Hg)
    as (w' & Hrun & _ & Hb1 & Hb2 & _);
    [reflexivity|reflexivity|reflexivity|done|by eexists|by eexists|by right|].
  exists w'. split; [exact Hrun|].
  split; [etransitivity; [exact Hb1|]|etransitivity; [exact Hb2|]];
    apply Qc_is_canon; reflexivity.
Defined.

(** ** Rematch: the two presses *)

(** The key of a pairing does not depend on the order in which the button
    lists the two players. *)
Lemma pair_key_sym (p1 p2 : Z) (gt : string) (b : Qc) :
  pair_key p1 p2 gt b = pair_key p2 p1 gt b.
Proof. unfold pair_key. by rewrite Z.min_comm, Z.max_comm. Qed.

Lemma pair_key_either_order (A B p1 p2 : Z) (gt : string) (b : Qc) :
  (p1 = A ∧ p2 = B) ∨ (p1 = B ∧ p2 = A) ->
  pair_key p1 p2 gt b = pair_key A B gt b.
Proof. intros [[-> ->]|[-> ->]]; [done|apply pair_key_sym]. Qed.

(** Two pairings with the same key are the same two players, the same
    game and the same stake. *)
Lemma pair_key_inj (A B A' B' : Z) (gt gt' : string) (b b' : Qc) :
  pair_key A' B' gt' b' = pair_key A B gt b ->
  ((A' = A ∧ B' = B) ∨ (A' = B ∧ B' = A)) ∧ gt' = gt ∧ b' = b.
Proof.
  unfold pair_key. intros [= Hmin Hmax -> ->]. split; [lia|done].
Qed.

Lemma rooms_created_snoc_create (tr : list Event) (rid : string) (creator : Z) :
  rooms_created (tr ++ [EvCreateRoom rid creator]) = rooms_created tr ++ [(rid, creator)].
Proof. unfold rooms_created. by rewrite omap_app. Qed.

(** Showing a dice result creates no room. *)
Lemma show_dice_result_created (cfg : Config) (room : Room) (res : PlayResult)
    (w w' : World) :
  show_dice_result cfg room res w = (w', Ok tt) ->
  rooms_created (trace w') = rooms_created (trace w).
Proof.
  unfold show_dice_result, bind, username_of.
  destruct (Some (Room.creator_id room) ≫= Database.get_user (db w)); [|done].
  destruct (Room.opponent_id room ≫= Database.get_user (db w)); [|done].
  destruct res as [msg|a b wn dr|side cc oc wn dr]; [done| |done].
  unfold dice_emoji, ret, raise.
  destruct (decide _); [|done]. destruct (decide _); [|done].
  destruct (settle_run cfg "dice_mp" room wn dr w) as (w1 & Hs & _ & _ & Htr & _).
  rewrite Hs.
  destruct (rm_delete_room_run (Room.room_id room) w1)
    as (w2 & ok & Hd & _ & _ & Htr2 & _).
  rewrite Hd. intros [= <-]. rewrite Htr2, Htr. unfold rooms_created.
  rewrite !omap_app. destruct dr, ok; simpl; by rewrite ?app_nil_r.
Qed.

(** The calls a played dice room leaves in the trace: no [create_room],
    and of [update_balance] only the calls of the settlement. *)
Lemma animate_dice_trace (cfg : Config) (w : World) (g : MultiplayerGame.t) (rng : Rng)
    (o : Z) :
  MultiplayerGame.status g = playing ->
  MultiplayerGame.opponent_id g = Some o ->
  MultiplayerGame.creator_id g ≠ o ->
  is_Some (db w !! MultiplayerGame.creator_id g) ->
  is_Some (db w !! o) ->
  1 <= die1 rng <= 6 -> 1 <= die2 rng <= 6 ->
  ∃ w', animate_dice_game cfg (Dice g) rng w = (w', Ok tt)
    ∧ rooms_created (trace w') = rooms_created (trace w)
    ∧ credits (trace w') = credits (trace w) ++
        (if decide (die1 rng > die2 rng)%Z
         then [(Some (MultiplayerGame.creator_id g), final_prize cfg (MultiplayerGame.bet g))]
         else if decide (die2 rng > die1 rng)%Z
         then [(Some o, final_prize cfg (MultiplayerGame.bet g))]
         else [(Some (MultiplayerGame.creator_id g), MultiplayerGame.bet g);
               (Some o, MultiplayerGame.bet g)]).
Proof.
  intros Hp Ho Hne Hc Hopp Ha Hb.
  destruct (username_of_registered w _ Hc) as [cn Hcn].
  destruct (username_of_registered w _ Hopp) as [on Hon].
  unfold animate_dice_game. unfold bind at 1.
  unfold Room.creator_id, Room.opponent_id. simpl. rewrite Hcn.
  unfold bind at 1. rewrite Ho, Hon.
  unfold bind at 1. unfold room_play.
  destruct (Room.play (Dice g) rng) as [res room'] eqn:Hplay.
  unfold bind at 1. unfold store_room. unfold ret at 1.
  match goal with
  | |- context [show_dice_result cfg room' res ?ws] => set (w_s := ws)
  end.
  destruct (show_result_run cfg w_s (Dice g) rng o)
    as (w' & Hrun & _ & Hm); try done.
  rewrite Hplay in Hrun. simpl in Hrun.
  assert (Hwin := settled_balance_cases (Dice g) rng Hp I).
  rewrite Hplay in Hm, Hwin. simpl in Hm, Hwin.
  unfold Room.creator_id, Room.opponent_id, Room.bet in Hm, Hwin. simpl in Hm, Hwin.
  exists w'. split; [exact Hrun|].
  split; [exact (show_dice_result_created _ _ _ _ _ Hrun)|].
  rewrite Hwin in Hm.
  destruct (decide (die1 rng > die2 rng)%Z).
  - by destruct Hm as (_ & Hcr & _).
  - destruct (decide (die2 rng > die1 rng)%Z).
    + rewrite Ho in Hm. by destruct Hm as (_ & Hcr & _).
    + by destruct Hm as (Hcr & _).
Qed.

(** The second press on a dice pairing, up to the start of the game. *)
Lemma rematch_accepted_dice (cfg : Config) (w : World) (user : Z) (s : Qc)
    (p1 p2 : Z) (rng : Rng) (req : RematchRequest) :
  (s <= Database.get_balance (db w) user)%Qc ->
  rematch_requests w !! pair_key p1 p2 "dice" s = Some req ->
  requester_id req ≠ user ->
  ∃ w2 g,
    request_rematch cfg user "dice" s p1 p2 rng w
    = (let! _ := animate_dice_game cfg (Dice g) rng in ret RematchStarted) w2
    ∧ db w2 = db w
    ∧ rematch_requests w2 = delete (pair_key p1 p2 "dice" s) (rematch_requests w)
    ∧ MultiplayerGame.room_id g
      = "ROOM" +:+ pretty (RoomManager.room_counter (room_manager w) + 1)
    ∧ MultiplayerGame.creator_id g = requester_id req
    ∧ MultiplayerGame.opponent_id g = Some user
    ∧ MultiplayerGame.status g = playing
    ∧ MultiplayerGame.bet g = s
    ∧ trace w2 = trace w ++
        [EvGetBalance user;
         EvCreateRoom ("ROOM" +:+ pretty (RoomManager.room_counter (room_manager w) + 1))
           (requester_id req);
         EvJoinRoom ("ROOM" +:+ pretty (RoomManager.room_counter (room_manager w) + 1))
           user].
Proof.
  intros Hf Hreq Hother.
  unfold request_rematch. unfold bind at 1. unfold db_get_balance.
  rewrite decide_False by (by apply Qcle_not_lt).
  unfold bind at 1. simpl. rewrite Hreq. rewrite (decide_True _ _ Hother).
  unfold bind at 1. unfold accept_rematch. unfold bind at 1. unfold bind at 1.
  unfold rm_create_room, RoomManager.create_room. simpl.
  unfold bind at 1.
  erewrite rm_join_room_run;
    [|unfold RoomManager.get_room; simpl; apply lookup_insert_eq|done|done].
  unfold deref, RoomManager.get_room. simpl.
  rewrite lookup_insert_eq. simpl.
  eexists _, _. split.
  { unfold bind, start_multiplayer_game. unfold Room.game_type. simpl. reflexivity. }
  simpl. rewrite <- !app_assoc. repeat split; done.
Qed.

(** The second press on a dice pairing between two registered players,
    to the end of the handler: the game is played and settled, the room
    and the request are gone. *)
Lemma rematch_second_press_dice (cfg : Config) (w : World) (user : Z) (s : Qc)
    (p1 p2 : Z) (rng : Rng) (req : RematchRequest) :
  (s <= Database.get_balance (db w) user)%Qc ->
  rematch_requests w !! pair_key p1 p2 "dice" s = Some req ->
  requester_id req ≠ user ->
  is_Some (db w !! requester_id req) -> is_Some (db w !! user) ->
  1 <= die1 rng <= 6 -> 1 <= die2 rng <= 6 ->
  ∃ w',
    request_rematch cfg user "dice" s p1 p2 rng w = (w', Ok RematchStarted)
    ∧ rematch_requests w' = delete (pair_key p1 p2 "dice" s) (rematch_requests w)
    ∧ RoomManager.get_room (room_manager w')
        ("ROOM" +:+ pretty (RoomManager.room_counter (room_manager w) + 1)) = None
    ∧ rooms_created (trace w') = rooms_created (trace w)
        ++ [("ROOM" +:+ pretty (RoomManager.room_counter (room_manager w) + 1),
             requester_id req)]
    ∧ credits (trace w') = credits (trace w) ++
        (if decide (die1 rng > die2 rng)%Z
         then [(Some (requester_id req), final_prize cfg s)]
         else if decide (die2 rng > die1 rng)%Z
         then [(Some user, final_prize cfg s)]
         else [(Some (requester_id req), s); (Some user, s)])
    ∧ Database.get_balance (db w') (requester_id req)
      = (Database.get_balance (db w) (requester_id req)
         + (if decide (die1 rng > die2 rng)%Z then final_prize cfg s
            else if decide (die2 rng > die1 rng)%Z then 0 else s))%Qc
    ∧ Database.get_balance (db w') user
      = (Database.get_balance (db w) user
         + (if decide (die1 rng > die2 rng)%Z then 0
            else if decide (die2 rng > die1 rng)%Z then final_prize cfg s else s))%Qc
    ∧ (∀ u, u ≠ requester_id req -> u ≠ user ->
         Database.get_balance (db w') u = Database.get_balance (db w) u).
Proof.
  intros Hf Hreq Hother HA HB Ha Hb.
  destruct (rematch_accepted_dice cfg w user s p1 p2 rng req Hf Hreq Hother)
    as (w2 & g & H2 & Hdb & Hrr & Hid & Hcr & Hop & Hst & Hbet & Htr).
  assert (HA2 : is_Some (db w2 !! MultiplayerGame.creator_id g))
    by (by rewrite Hdb, Hcr).
  assert (HB2 : is_Some (db w2 !! user)) by (by rewrite Hdb).
  assert (Hne2 : MultiplayerGame.creator_id g ≠ user) by (by rewrite Hcr).
  destruct (animate_dice_run cfg w2 g rng user Hst Hop Hne2 HA2 HB2 Ha Hb)
    as (w' & Hanim & Hgone & _ & Hrr' & HbA & HbB & Hrest).
  destruct (animate_dice_trace cfg w2 g rng user Hst Hop Hne2 HA2 HB2 Ha Hb)
    as (w'' & Hanim' & Hcreated & Hcredits).
  rewrite Hanim in Hanim'. injection Hanim' as <-.
  exists w'. split.
  { rewrite H2. unfold bind. by rewrite Hanim. }
  split; [by rewrite Hrr', Hrr|].
  rewrite Hid in Hgone. split; [exact Hgone|].
  rewrite Hcr, Hbet, Hdb in *.
  split.
  { rewrite Hcreated, Htr. unfold rooms_created. by rewrite omap_app. }
  split.
  { rewrite Hcredits, Htr. f_equal. unfold credits. rewrite omap_app. simpl.
    by rewrite app_nil_r. }
  split; [exact HbA|]. split; [exact HbB|exact Hrest].
Qed.

(** With a non-negative stake and a fee of at most 100 percent the prize
    is not negative. *)
Lemma final_prize_nonneg (cfg : Config) (s : Qc) :
  (0 <= s)%Qc -> (HOUSE_FEE cfg <= hundred)%Qc -> (0 <= final_prize cfg s)%Qc.
Proof.
  intros Hs Hf. unfold final_prize, fee_amount, full_prize.
  assert (H2 : (0 <= s * 2)%Qc) by (by apply Qcmult_nonneg_nonneg).
  assert (Hq : (HOUSE_FEE cfg / hundred <= 1)%Qc).
  { unfold Qcdiv.
    replace 1%Qc with (hundred * / hundred)%Qc by (by apply Qcmult_inv_r).
    by apply Qcmult_le_mono_nonneg_r. }
  assert (Hle : (s * 2 * (HOUSE_FEE cfg / hundred) <= s * 2)%Qc).
  { replace (s * 2)%Qc with (s * 2 * 1)%Qc at 2 by ring.
    by apply Qcmult_le_mono_nonneg_l. }
  apply Qcle_minus_iff in Hle. exact Hle.
Qed.

Lemma balance_not_lower (a x : Qc) : (0 <= x)%Qc -> (a <= a + x)%Qc.
Proof.
  intros Hx. replace a with (a + 0)%Qc at 1 by ring.
  by apply Qcplus_le_mono_l.
Qed.

(** C2. Two distinct players [A] and [B] whose balances cover the stake
    [s], a game kind [k], no request outstanding for their pairing. [A]
    presses the rematch button, then [B] does; each button lists the two
    players in one order or the other. The first request is stored under
    the key of the pairing, a key that no other pair of players, game or
    stake has. The second one removes it, creates exactly one
    room, of [A], with [B] joined as opponent and in play, and calls
    [update_balance] for nobody: the store is as it was. The handler then
    starts the game on that room. For a coinflip it ends there, with the
    room stored. For dice between registered players it plays and settles
    the game: when it ends, the trace has that one call of [create_room]
    more, the only calls of [update_balance] are those of the settlement
    (the prize for the winner, or the stake for each on equal dice), each
    balance is the old one plus what was credited (so none is lower when
    the stake is not negative and the fee at most 100 percent), and the
    room is no longer stored. In every case the pairing entry is gone when
    the handler ends. *)
Theorem rematch_pairing (cfg : Config) (w : World) (A B : Z) (k : string) (s : Qc)
    (p1 p2 q1 q2 : Z) (rng rng' : Rng) :
  A ≠ B ->
  (p1 = A ∧ p2 = B) ∨ (p1 = B ∧ p2 = A) ->
  (q1 = A ∧ q2 = B) ∨ (q1 = B ∧ q2 = A) ->
  k = "dice" ∨ k = "coinflip" ->
  rematch_requests w !! pair_key A B k s = None ->
  is_Some (db w !! A) ->
  (s <= Database.get_balance (db w) A)%Qc ->
  (s <= Database.get_balance (db w) B)%Qc ->
  ∃ w1 w2 room,
    request_rematch cfg A k s p1 p2 rng w = (w1, Ok RematchSent)
    ∧ rematch_requests w1
      = <[pair_key A B k s :=
            {| requester_id := A; opponent_id := B; game_type := k; bet := s |}]>
          (rematch_requests w)
    ∧ request_rematch cfg B k s q1 q2 rng' w1
      = (let! _ := start_multiplayer_game cfg room rng' in ret RematchStarted) w2
    ∧ trace w2 = trace w ++
        [EvGetBalance A; EvGetBalance B;
         EvCreateRoom ("ROOM" +:+ pretty (RoomManager.room_counter (room_manager w) + 1)) A;
         EvJoinRoom ("ROOM" +:+ pretty (RoomManager.room_counter (room_manager w) + 1)) B]
    ∧ RoomManager.active_rooms (room_manager w2)
      = <["ROOM" +:+ pretty (RoomManager.room_counter (room_manager w) + 1) := room]>
          (RoomManager.active_rooms (room_manager w))
    ∧ Room.creator_id room = A
    ∧ Room.opponent_id room = Some B
    ∧ Room.status room = playing
    ∧ Room.bet room = s
    ∧ Room.game_type room = k
    ∧ rematch_requests w2 !! pair_key A B k s = None
    ∧ rematch_requests w2 = rematch_requests w
    ∧ db w2 = db w
    ∧ credits (trace w2) = credits (trace w)
    ∧ (k = "coinflip" ->
         request_rematch cfg B k s q1 q2 rng' w1 = (w2, Ok RematchStarted))
    ∧ (k = "dice" -> is_Some (db w !! B) ->
       1 <= die1 rng' <= 6 -> 1 <= die2 rng' <= 6 ->
       ∃ w',
         request_rematch cfg B k s q1 q2 rng' w1 = (w', Ok RematchStarted)
         ∧ rooms_created (trace w') = rooms_created (trace w)
             ++ [("ROOM" +:+ pretty (RoomManager.room_counter (room_manager w) + 1), A)]
         ∧ credits (trace w') = credits (trace w) ++
             (if decide (die1 rng' > die2 rng')%Z then [(Some A, final_prize cfg s)]
              else if decide (die2 rng' > die1 rng')%Z then [(Some B, final_prize cfg s)]
              else [(Some A, s); (Some B, s)])
         ∧ Database.get_balance (db w') A
           = (Database.get_balance (db w) A
              + (if decide (die1 rng' > die2 rng')%Z then final_prize cfg s
                 else if decide (die2 rng' > die1 rng')%Z then 0 else s))%Qc
         ∧ Database.get_balance (db w') B
           = (Database.get_balance (db w) B
              + (if decide (die1 rng' > die2 rng')%Z then 0
                 else if decide (die2 rng' > die1 rng')%Z then final_prize cfg s
                 else s))%Qc
         ∧ (∀ u, u ≠ A -> u ≠ B ->
              Database.get_balance (db w') u = Database.get_balance (db w) u)
         ∧ RoomManager.get_room (room_manager w')
             ("ROOM" +:+ pretty (RoomManager.room_counter (room_manager w) + 1)) = None
         ∧ rematch_requests w' = rematch_requests w
         ∧ ((0 <= s)%Qc -> (HOUSE_FEE cfg <= hundred)%Qc ->
            ∀ u, (Database.get_balance (db w) u <= Database.get_balance (db w') u)%Qc))
    ∧ rematch_requests (request_rematch cfg B k s q1 q2 rng' w1).1
        !! pair_key A B k s = None
    ∧ (∀ A' B' k' s', pair_key A' B' k' s' = pair_key A B k s ->
         ((A' = A ∧ B' = B) ∨ (A' = B ∧ B' = A)) ∧ k' = k ∧ s' = s).
Proof.
  intros Hne Hp Hq Hk Hnone [ua Hua] HfA HfB.
  pose proof (pair_key_either_order A B p1 p2 k s Hp) as Hkp.
  pose proof (pair_key_either_order A B q1 q2 k s Hq) as Hkq.
  assert (Hopp : (if decide (A = p1) then p2 else p1) = B).
  { destruct Hp as [[-> ->]|[-> ->]].
    - by rewrite decide_True.
    - by rewrite decide_False. }
  rewrite <- Hkp in Hnone.
  pose proof (rematch_first_request cfg w A k s p1 p2 rng HfA Hnone) as H1.
  rewrite Hua, Hopp, Hkp in H1. rewrite Hkp in Hnone.
  set (reqA := {| requester_id := A; opponent_id := B; game_type := k; bet := s |}) in *.
  set (w1 := set_rematch_requests (emit w (EvGetBalance A))
               (<[pair_key A B k s := reqA]> (rematch_requests w))) in *.
  assert (Hl1 : rematch_requests w1 !! pair_key q1 q2 k s = Some reqA)
    by (rewrite Hkq; apply lookup_insert_eq).
  destruct (rematch_accepted cfg w1 B k s q1 q2 rng' reqA HfB Hl1 Hne Hk)
    as (w2 & room & H2 & Htr & Hrr & Hdb & Hrooms & _ & _ & Hcr & Hop & Hst & Hbet & Hgt).
  rewrite Hkq in Hrr.
  assert (Hrr' : rematch_requests w2 = rematch_requests w).
  { rewrite Hrr. unfold w1; simpl. by rewrite delete_insert_eq, delete_id. }
  exists w1, w2, room.
  split; [exact H1|]. split; [reflexivity|]. split; [exact H2|].
  split; [rewrite Htr; unfold w1; simpl; by rewrite <- app_assoc|].
  split; [exact Hrooms|].
  split; [exact Hcr|]. split; [exact Hop|]. split; [exact Hst|].
  split; [exact Hbet|]. split; [exact Hgt|].
  split; [by rewrite Hrr'|]. split; [exact Hrr'|]. split; [exact Hdb|].
  split.
  { rewrite Htr. unfold w1, credits; simpl. rewrite !omap_app; simpl.
    by rewrite !app_nil_r. }
  split; [|split; [|split]]; [| | |intros A' B' k' s'; apply pair_key_inj].
  - intros ->. rewrite H2. unfold bind. by rewrite start_coinflip_game.
  - intros -> HB Ha Hb.
    destruct (rematch_second_press_dice cfg w1 B s q1 q2 rng' reqA HfB Hl1 Hne)
      as (w' & Hrun & Hrq & Hgone & Hcreated & Hcredits & HbA & HbB & Hrest);
      try done; try (by eexists).
    exists w'. split; [exact Hrun|].
    split.
    { rewrite Hcreated. unfold w1, rooms_created; simpl. rewrite omap_app; simpl.
      by rewrite app_nil_r. }
    split.
    { rewrite Hcredits. unfold w1, credits; simpl. rewrite omap_app; simpl.
      by rewrite app_nil_r. }
    split; [exact HbA|]. split; [exact HbB|]. split; [exact Hrest|].
    split; [exact Hgone|].
    split; [rewrite Hrq, Hkq; unfold w1; simpl; by rewrite delete_insert_eq, delete_id|].
    intros Hs Hfee u. simpl in HbA, HbB, Hrest.
    pose proof (final_prize_nonneg cfg s Hs Hfee) as Hprize.
    destruct (decide (u = A)) as [->|HuA]; [|destruct (decide (u = B)) as [->|HuB]].
    + rewrite HbA. apply balance_not_lower. repeat destruct (decide _); done.
    + rewrite HbB. apply balance_not_lower. repeat destruct (decide _); done.
    + by rewrite (Hrest u).
  - rewrite H2. unfold bind.
    pose proof (start_game_keeps_requests cfg room rng' w2) as Hkeep.
    destruct (start_multiplayer_game cfg room rng' w2) as [w3 [[]|e]]; simpl in *;
      by rewrite Hkeep, Hrr'.
Qed.

Lemma rematch_pairing_witness :
  (amount 20 <= Database.get_balance (db (start_world (amount 100) (amount 100))) 1)%Qc
  ∧ (amount 20 <= Database.get_balance (db (start_world (amount 100) (amount 100))) 2)%Qc
  ∧ ∃ w1 w2 room,
      request_rematch default_config 1 "coinflip" (amount 20) 1 2 sample_rng
        (start_world (amount 100) (amount 100)) = (w1, Ok RematchSent)
      ∧ request_rematch default_config 2 "coinflip" (amount 20) 2 1 sample_rng w1
        = (w2, Ok RematchStarted)
      ∧ RoomManager.active_rooms (room_manager w2) = {["ROOM1001" := room]}
      ∧ Room.creator_id room = 1
      ∧ Room.opponent_id room = Some 2
      ∧ rematch_requests w2 = ∅
      ∧ db w2 = two_users (amount 100) (amount 100).
Proof.
  assert (H1 : (amount 20 <= Database.get_balance
                               (db (start_world (amount 100) (amount 100))) 1)%Qc)
    by (by vm_compute).
  assert (H2 : (amount 20 <= Database.get_balance
                               (db (start_world (amount 100) (amount 100))) 2)%Qc)
    by (by vm_compute).
  split; [exact H1|]. split; [exact H2|].
  destruct (rematch_pairing default_config (start_world (amount 100) (amount 100))
              1 2 "coinflip" (amount 20) 1 2 2 1 sample_rng sample_rng)
    as (w1 & w2 & room & Hfirst & _ & _ & _ & Hrooms & Hcr & Hop & _ & _ & _ & _
        & Hrr & Hdb & _ & Hcoin & _);
    [done|by left|by right|by right|reflexivity|by eexists|exact H1|exact H2|].
  exists w1, w2, room. split; [exact Hfirst|]. split; [by apply Hcoin|].
  split; [exact Hrooms|]. split; [exact Hcr|]. split; [exact Hop|].
  split; [exact Hrr|exact Hdb].
Defined.

(** X21. A dice rematch is played for stakes nobody paid. Two distinct
    registered players whose balances cover the stake press the rematch
    button one after the other, each on a button that lists the two in
    one order or the other: the second press plays and settles the game
    at once. The only calls of [update_balance] are those of the
    settlement: with the first requester's die higher that player's
    balance is the old one plus the prize; with the other die higher the
    second player's is; on equal dice both have the old balance plus the
    stake. The room is gone and so is the pairing entry. When the stake is
    not negative and the fee at most 100 percent, no balance is lower
    than before. *)
Theorem dice_rematch_is_free (cfg : Config) (w : World) (A B : Z) (s : Qc)
    (p1 p2 q1 q2 : Z) (rng rng' : Rng) :
  A ≠ B ->
  (p1 = A ∧ p2 = B) ∨ (p1 = B ∧ p2 = A) ->
  (q1 = A ∧ q2 = B) ∨ (q1 = B ∧ q2 = A) ->
  rematch_requests w !! pair_key A B "dice" s = None ->
  is_Some (db w !! A) -> is_Some (db w !! B) ->
  (s <= Database.get_balance (db w) A)%Qc ->
  (s <= Database.get_balance (db w) B)%Qc ->
  1 <= die1 rng' <= 6 -> 1 <= die2 rng' <= 6 ->
  ∃ w1 w',
    request_rematch cfg A "dice" s p1 p2 rng w = (w1, Ok RematchSent)
    ∧ request_rematch cfg B "dice" s q1 q2 rng' w1 = (w', Ok RematchStarted)
    ∧ rematch_requests w' !! pair_key A B "dice" s = None
    ∧ RoomManager.get_room (room_manager w')
        ("ROOM" +:+ pretty (RoomManager.room_counter (room_manager w) + 1)) = None
    ∧ credits (trace w') = credits (trace w) ++
        (if decide (die1 rng' > die2 rng')%Z then [(Some A, final_prize cfg s)]
         else if decide (die2 rng' > die1 rng')%Z then [(Some B, final_prize cfg s)]
         else [(Some A, s); (Some B, s)])
    ∧ Database.get_balance (db w') A
      = (Database.get_balance (db w) A
         + (if decide (die1 rng' > die2 rng')%Z then final_prize cfg s
            else if decide (die2 rng' > die1 rng')%Z then 0 else s))%Qc
    ∧ Database.get_balance (db w') B
      = (Database.get_balance (db w) B
         + (if decide (die1 rng' > die2 rng')%Z then 0
            else if decide (die2 rng' > die1 rng')%Z then final_prize cfg s else s))%Qc
    ∧ (∀ u, u ≠ A -> u ≠ B ->
         Database.get_balance (db w') u = Database.get_balance (db w) u)
    ∧ ((0 <= s)%Qc -> (HOUSE_FEE cfg <= hundred)%Qc ->
       ∀ u, (Database.get_balance (db w) u <= Database.get_balance (db w') u)%Qc).
Proof.
  intros Hne Hp Hq Hnone HA HB HfA HfB Ha Hb.
  pose proof (pair_key_either_order A B p1 p2 "dice" s Hp) as Hkp.
  pose proof (pair_key_either_order A B q1 q2 "dice" s Hq) as Hkq.
  assert (Hopp : (if decide (A = p1) then p2 else p1) = B).
  { destruct Hp as [[-> ->]|[-> ->]].
    - by rewrite decide_True.
    - by rewrite decide_False. }
  rewrite <- Hkp in Hnone.
  pose proof (rematch_first_request cfg w A "dice" s p1 p2 rng HfA Hnone) as H1.
  destruct HA as [ua Hua]. rewrite Hua, Hopp, Hkp in H1.
  set (reqA := {| requester_id := A; opponent_id := B; game_type := "dice"; bet := s |}) in *.
  set (w1 := set_rematch_requests (emit w (EvGetBalance A))
               (<[pair_key A B "dice" s := reqA]> (rematch_requests w))) in *.
  assert (Hl1 : rematch_requests w1 !! pair_key q1 q2 "dice" s = Some reqA)
    by (rewrite Hkq; apply lookup_insert_eq).
  destruct (rematch_second_press_dice cfg w1 B s q1 q2 rng' reqA HfB Hl1 Hne)
    as (w' & Hrun & Hrq & Hgone & _ & Hcredits & HbA & HbB & Hrest);
    try done; try (by eexists).
  simpl in HbA, HbB, Hrest, Hgone.
  exists w1, w'. split; [exact H1|]. split; [exact Hrun|].
  split; [rewrite Hrq, Hkq; apply lookup_delete_eq|].
  split; [exact Hgone|].
  split.
  { rewrite Hcredits. unfold w1, credits; simpl. rewrite omap_app; simpl.
    by rewrite app_nil_r. }
  split; [exact HbA|]. split; [exact HbB|]. split; [exact Hrest|].
  intros Hs Hfee u.
  pose proof (final_prize_nonneg cfg s Hs Hfee) as Hprize.
  destruct (decide (u = A)) as [->|HuA]; [|destruct (decide (u = B)) as [->|HuB]].
  - rewrite HbA. apply balance_not_lower.
    repeat destruct (decide _); done.
  - rewrite HbB. apply balance_not_lower.
    repeat destruct (decide _); done.
  - rewrite (Hrest u) by done. done.
Qed.

Lemma dice_rematch_is_free_witness :
  (amount 20 <= Database.get_balance (db (start_world (amount 100) (amount 100))) 1)%Qc
  ∧ ∃ w1 w',
      request_rematch default_config 1 "dice" (amount 20) 1 2 sample_rng
        (start_world (amount 100) (amount 100)) = (w1, Ok RematchSent)
      ∧ request_rematch default_config 2 "dice" (amount 20) 2 1 sample_rng w1
        = (w', Ok RematchStarted)
      ∧ Database.get_balance (db w') 1 = amount 138
      ∧ Database.get_balance (db w') 2 = amount 100.
Proof.
  assert (H1 : (amount 20 <= Database.get_balance
                               (db (start_world (amount 100) (amount 100))) 1)%Qc)
    by (by vm_compute).
  split; [exact H1|].
  destruct (dice_rematch_is_free default_config (start_world (amount 100) (amount 100))
              1 2 (amount 20) 1 2 2 1 sample_rng sample_rng)
    as (w1 & w' & Hfirst & Hsecond & _ & _ & _ & HbA & HbB & _);
    [done|by left|by right|reflexivity|by eexists|by eexists|exact H1|by vm_compute
    |simpl; lia|simpl; lia|].
  exists w1, w'. split; [exact Hfirst|]. split; [exact Hsecond|].
  split; [etransitivity; [exact HbA|]|etransitivity; [exact HbB|]];
    apply Qc_is_canon; reflexivity.
Defined.

(** ** Cashouts *)

(** X22. [process_cashout] tests the amount in this order: below
    [MIN_BET], then above the balance; when a test holds the request is
    refused and nothing changes. When neither test holds, for a stored
    user, the new balance is the old one plus the negated amount, the
    other users keep theirs, and a pending request of that amount for that
    user is filed under the id the handler reports; when moreover the
    amount is at most the balance, the new balance is not negative. *)
Theorem process_cashout_spec (cfg : Config) (user : Z) (a : Qc) (now_ms : Z)
    (data : gmap Z Database.User) (cashouts : gmap string CashoutManager.Cashout) :
  ((a < MIN_BET cfg)%Qc ->
     process_cashout cfg user a now_ms (data, cashouts) = ((data, cashouts), BelowMinimum))
  ∧ (¬ (a < MIN_BET cfg)%Qc -> (Database.get_balance data user < a)%Qc ->
       process_cashout cfg user a now_ms (data, cashouts)
       = ((data, cashouts), CashoutInsufficient))
  ∧ (¬ (a < MIN_BET cfg)%Qc -> ¬ (Database.get_balance data user < a)%Qc ->
     is_Some (data !! user) ->
     ∃ data' cashouts' cid c,
       process_cashout cfg user a now_ms (data, cashouts)
       = ((data', cashouts'),
          CashoutCreated cid (Database.get_balance data user + - a)%Qc)
       ∧ Database.get_balance data' user = (Database.get_balance data user + - a)%Qc
       ∧ ((a <= Database.get_balance data user)%Qc ->
          (0 <= Database.get_balance data' user)%Qc)
       ∧ (∀ other, other ≠ user -> data' !! other = data !! other)
       ∧ cashouts' !! cid = Some c
       ∧ CashoutManager.user_id c = user
       ∧ CashoutManager.amount c = a
       ∧ CashoutManager.status c = "pending"
       ∧ (∀ other, other ≠ cid -> cashouts' !! other = cashouts !! other)).
Proof.
  split; [|split].
  - intros Hlow. unfold process_cashout. by rewrite (decide_True _ _ Hlow).
  - intros Hmin Hlow. unfold process_cashout.
    rewrite (decide_False _ _ Hmin). by rewrite (decide_True _ _ Hlow).
  - intros Hmin Hf [u Hu]. unfold process_cashout.
    rewrite (decide_False _ _ Hmin).
    rewrite (decide_False _ _ Hf).
    rewrite (update_balance_present _ _ _ _ Hu).
    unfold CashoutManager.create_cashout. simpl.
    rewrite (get_balance_lookup _ _ _ Hu) in *.
    eexists _, _, _, _. split; [reflexivity|].
    split; [erewrite get_balance_lookup; [|apply lookup_insert_eq]; done|].
    split.
    { intros Hle. erewrite get_balance_lookup; [|apply lookup_insert_eq]. simpl.
      apply (Qcplus_le_mono_r _ _ a). by replace (Database.balance u + - a + a)%Qc
        with (Database.balance u) by ring; rewrite Qcplus_0_l. }
    split; [intros other Hne; by rewrite lookup_insert_ne|].
    split; [apply lookup_insert_eq|].
    repeat split; try done. intros other Hne. by rewrite lookup_insert_ne.
Qed.

Lemma process_cashout_spec_witness :
  (MIN_BET default_config <= amount 30)%Qc
  ∧ (amount 30 <= Database.get_balance (two_users (amount 100) (amount 100)) 1)%Qc
  ∧ ∃ data' cashouts' cid c,
      process_cashout default_config 1 (amount 30) 1700000000000
        (two_users (amount 100) (amount 100), ∅)
      = ((data', cashouts'), CashoutCreated cid
           (Database.get_balance (two_users (amount 100) (amount 100)) 1 + - amount 30)%Qc)
      ∧ cashouts' !! cid = Some c
      ∧ CashoutManager.amount c = amount 30.
Proof.
  assert (H1 : (MIN_BET default_config <= amount 30)%Qc) by (by vm_compute).
  assert (H2 : (amount 30 <= Database.get_balance
                               (two_users (amount 100) (amount 100)) 1)%Qc)
    by (by vm_compute).
  split; [exact H1|]. split; [exact H2|].
  destruct (process_cashout_spec default_config 1 (amount 30) 1700000000000
              (two_users (amount 100) (amount 100)) ∅) as (_ & _ & H).
  destruct (H (Qcle_not_lt _ _ H1) (Qcle_not_lt _ _ H2))
    as (data' & cashouts' & cid & c & Hrun & _ & _ & _ & Hl & _ & Ha & _);
    [by eexists|].
  exists data', cashouts', cid, c. split; [exact Hrun|]. split; [exact Hl|exact Ha].
Defined.

(** X23. [admin_reject_cashout] does not look at the status of the
    request: for an administrator and a stored request of a stored user it
    credits the amount and marks the request cancelled, whatever it was
    before (pending, processed, or cancelled already). Rejecting the same
    request twice therefore credits the amount twice. A caller who is not
    an administrator changes nothing. *)
Theorem reject_refunds_every_time (admin_ids : list Z) (caller : Z) (cid : string)
    (data : gmap Z Database.User) (cashouts : gmap string CashoutManager.Cashout)
    (c : CashoutManager.Cashout) :
  cashouts !! cid = Some c ->
  is_Some (data !! CashoutManager.user_id c) ->
  (caller ∉ admin_ids ->
     admin_reject_cashout admin_ids caller cid (data, cashouts)
     = ((data, cashouts), AccessDenied))
  ∧ (caller ∈ admin_ids ->
     ∃ data1 cashouts1 data2 cashouts2 c',
       admin_reject_cashout admin_ids caller cid (data, cashouts)
       = ((data1, cashouts1), CashoutRejected)
       ∧ Database.get_balance data1 (CashoutManager.user_id c)
         = (Database.get_balance data (CashoutManager.user_id c)
            + CashoutManager.amount c)%Qc
       ∧ cashouts1 !! cid = Some c'
       ∧ CashoutManager.status c' = "cancelled"
       ∧ CashoutManager.amount c' = CashoutManager.amount c
       ∧ CashoutManager.user_id c' = CashoutManager.user_id c
       ∧ admin_reject_cashout admin_ids caller cid (data1, cashouts1)
         = ((data2, cashouts2), CashoutRejected)
       ∧ Database.get_balance data2 (CashoutManager.user_id c)
         = (Database.get_balance data (CashoutManager.user_id c)
            + CashoutManager.amount c + CashoutManager.amount c)%Qc).
Proof.
  intros Hc Hu. split.
  - intros Hna. unfold admin_reject_cashout, is_admin.
    by rewrite bool_decide_eq_false_2.
  - intros Ha. unfold admin_reject_cashout, is_admin.
    rewrite bool_decide_eq_true_2 by done. simpl. rewrite Hc.
    unfold CashoutManager.update_cashout_status. rewrite Hc.
    eexists _, _, _, _, _. split; [reflexivity|].
    split; [by apply get_balance_update_same|].
    split; [apply lookup_insert_eq|]. split; [done|]. split; [done|]. split; [done|].
    rewrite lookup_insert_eq. simpl. split; [reflexivity|].
    rewrite get_balance_update_same by (by apply update_balance_registered).
    by rewrite get_balance_update_same.
Qed.

Lemma reject_refunds_every_time_witness :
  (process_cashout default_config 1 (amount 30) 1700000000000
     (two_users (amount 100) (amount 100), ∅)).1.2
    !! "cashout_1_1700000000000"
  = Some {| CashoutManager.cashout_id := "cashout_1_1700000000000";
            CashoutManager.user_id := 1; CashoutManager.username := Some "ann";
            CashoutManager.amount := amount 30; CashoutManager.status := "pending" |}
  ∧ 9 ∈ [9]
  ∧ ∃ data1 cashouts1 data2,
      admin_reject_cashout [9] 9 "cashout_1_1700000000000"
        (process_cashout default_config 1 (amount 30) 1700000000000
           (two_users (amount 100) (amount 100), ∅)).1
      = ((data1, cashouts1), CashoutRejected)
      ∧ Database.get_balance data1 1 = amount 100
      ∧ (admin_reject_cashout [9] 9 "cashout_1_1700000000000" (data1, cashouts1)).1.1
        = data2
      ∧ Database.get_balance data2 1 = amount 130.
Proof.
  assert (Hl : (process_cashout default_config 1 (amount 30) 1700000000000
                  (two_users (amount 100) (amount 100), ∅)).1.2
                 !! "cashout_1_1700000000000"
               = Some {| CashoutManager.cashout_id := "cashout_1_1700000000000";
                         CashoutManager.user_id := 1;
                         CashoutManager.username := Some "ann";
                         CashoutManager.amount := amount 30;
                         CashoutManager.status := "pending" |}) by reflexivity.
  assert (Hin : 9 ∈ [9]) by (by left).
  split; [exact Hl|]. split; [exact Hin|].
  destruct (reject_refunds_every_time [9] 9 "cashout_1_1700000000000"
              (process_cashout default_config 1 (amount 30) 1700000000000
                 (two_users (amount 100) (amount 100), ∅)).1.1
              (process_cashout default_config 1 (amount 30) 1700000000000
                 (two_users (amount 100) (amount 100), ∅)).1.2 _ Hl)
    as [_ H]; [by eexists|].
  destruct (H Hin) as (data1 & cashouts1 & data2 & cashouts2 & c' & Hr1 & Hb1 & _ & _
                       & _ & _ & Hr2 & Hb2).
  exists data1, cashouts1, data2. split; [exact Hr1|].
  split; [etransitivity; [exact Hb1|]; apply Qc_is_canon; reflexivity|].
  split; [by rewrite Hr2|].
  etransitivity; [exact Hb2|]. apply Qc_is_canon; reflexivity.
Defined.

(** X24. [admin_approve_cashout] never touches a balance: for an
    administrator it marks a stored request processed (also one that was
    rejected and refunded before) and reports an unknown id; for anybody
    else it changes nothing. *)
Theorem approve_moves_no_money (admin_ids : list Z) (caller : Z) (cid : string)
    (data : gmap Z Database.User) (cashouts : gmap string CashoutManager.Cashout) :
  (admin_approve_cashout admin_ids caller cid (data, cashouts)).1.1 = data
  ∧ (caller ∉ admin_ids ->
       admin_approve_cashout admin_ids caller cid (data, cashouts)
       = ((data, cashouts), AccessDenied))
  ∧ (caller ∈ admin_ids -> cashouts !! cid = None ->
       admin_approve_cashout admin_ids caller cid (data, cashouts)
       = ((data, cashouts), CashoutNotFound))
  ∧ (caller ∈ admin_ids -> ∀ c, cashouts !! cid = Some c ->
       ∃ c', (admin_approve_cashout admin_ids caller cid (data, cashouts)).2
             = CashoutApproved
         ∧ (admin_approve_cashout admin_ids caller cid (data, cashouts)).1.2 !! cid
           = Some c'
         ∧ CashoutManager.status c' = "processed"
         ∧ CashoutManager.amount c' = CashoutManager.amount c
         ∧ CashoutManager.user_id c' = CashoutManager.user_id c).
Proof.
  unfold admin_approve_cashout, is_admin, CashoutManager.update_cashout_status.
  destruct (decide (caller ∈ admin_ids)) as [Hin|Hout].
  - rewrite bool_decide_eq_true_2 by done. simpl.
    destruct (cashouts !! cid) as [c|] eqn:Hc; simpl.
    + split; [done|]. split; [done|]. split; [done|].
      intros _ c0 [= <-]. eexists. split; [done|]. split; [apply lookup_insert_eq|done].
    + repeat split; try done.
  - rewrite bool_decide_eq_false_2 by done. simpl. repeat split; try done.
Qed.

Lemma approve_moves_no_money_witness :
  9 ∈ [9]
  ∧ (admin_reject_cashout [9] 9 "cashout_1_1700000000000"
       (process_cashout default_config 1 (amount 30) 1700000000000
          (two_users (amount 100) (amount 100), ∅)).1).1.2
      !! "cashout_1_1700000000000"
    = Some {| CashoutManager.cashout_id := "cashout_1_1700000000000";
              CashoutManager.user_id := 1; CashoutManager.username := Some "ann";
              CashoutManager.amount := amount 30; CashoutManager.status := "cancelled" |}
  ∧ ∃ c', (admin_approve_cashout [9] 9 "cashout_1_1700000000000"
             (admin_reject_cashout [9] 9 "cashout_1_1700000000000"
                (process_cashout default_config 1 (amount 30) 1700000000000
                   (two_users (amount 100) (amount 100), ∅)).1).1).1.2
            !! "cashout_1_1700000000000" = Some c'
      ∧ CashoutManager.status c' = "processed".
Proof.
  assert (Hin : 9 ∈ [9]) by (by left).
  split; [exact Hin|]. split; [reflexivity|].
  destruct (approve_moves_no_money [9] 9 "cashout_1_1700000000000"
              (admin_reject_cashout [9] 9 "cashout_1_1700000000000"
                 (process_cashout default_config 1 (amount 30) 1700000000000
                    (two_users (amount 100) (amount 100), ∅)).1).1.1
              (admin_reject_cashout [9] 9 "cashout_1_1700000000000"
                 (process_cashout default_config 1 (amount 30) 1700000000000
                    (two_users (amount 100) (amount 100), ∅)).1).1.2)
    as (_ & _ & _ & H).
  destruct (H Hin _ eq_refl) as (c' & _ & Hl & Hs & _).
  exists c'. split; [exact Hl|exact Hs].
Defined.

Lemma delete_room_spec_witness :
  "ROOM1002" ≠ "ROOM1001"
  ∧ RoomManager.get_room
      (RoomManager.delete_room
         (RoomManager.create_room one_room 2 "coinflip" (amount 5)).1 "ROOM1001").2
      "ROOM1002"
    = RoomManager.get_room
        (RoomManager.create_room one_room 2 "coinflip" (amount 5)).1 "ROOM1002".
Proof.
  assert (Hne : "ROOM1002" ≠ "ROOM1001") by done.
  split; [exact Hne|].
  destruct (delete_room_spec (RoomManager.create_room one_room 2 "coinflip" (amount 5)).1
              "ROOM1001") as (_ & _ & Hother & _).
  exact (Hother _ Hne).
Defined.
